(** * FAIR EVA web client: [compute_scores] and the [evaluator] handler

    A shallow embedding of [src/fair_eva_web_client/app.py].

    Python values that come out of [json.load] are the inductive [value];
    Python [float] is IEEE binary64, taken as Rocq's primitive [float];
    a [dict] is an association list in insertion order with distinct keys;
    code that can raise returns a [result]; the handler's file and network
    accesses go through an explicit [world] and are recorded in a trace.
    A string is the sequence of its code points, each below 256; text
    with other code points is outside the model. *)

From Stdlib Require Import ZArith List String Ascii Bool Lia Floats Permutation.
From Stdlib Require Import DecimalString.
Import ListNotations.

Set Warnings "-inexact-float,-register-all".

Local Open Scope string_scope.
Local Open Scope Z_scope.

(** ** Python values, exceptions and builtins *)

Module Py.

(** The values [json.load] produces, and the ones [compute_scores] builds. *)
Inductive value : Type :=
| VNone
| VBool (b : bool)
| VInt (z : Z)
| VFloat (f : float)
| VStr (s : string)
| VList (l : list value)
| VDict (d : list (string * value)).

Definition dict : Type := list (string * value).

(** The exception classes the modelled code can raise. *)
Inductive exn : Type :=
| AttributeError
| TypeError
| ValueError
| OverflowError
| ZeroDivisionError
| OSError
| JSONDecodeError
| RequestException
| HTTPError.

Inductive result (A : Type) : Type :=
| Ok (a : A)
| Raise (e : exn).
Arguments Ok {A} a.
Arguments Raise {A} e.

Definition bind {A B : Type} (r : result A) (k : A -> result B) : result B :=
  match r with
  | Ok a => k a
  | Raise e => Raise e
  end.

(** Whether a computation returns rather than raises. *)
Definition is_ok {A : Type} (r : result A) : bool :=
  match r with Ok _ => true | Raise _ => false end.

Declare Scope py_scope.
Delimit Scope py_scope with py.
Notation "x <- c ;; k" := (bind c (fun x => k))
  (at level 61, c at next level, right associativity) : py_scope.
Notation "' pat <- c ;; k" := (bind c (fun x => match x with pat => k end))
  (at level 61, pat pattern, c at next level, right associativity) : py_scope.

(** [bool(v)]. *)
Definition truthy (v : value) : bool :=
  match v with
  | VNone => false
  | VBool b => b
  | VInt z => negb (z =? 0)
  | VFloat f => negb (PrimFloat.eqb f 0%float)
  | VStr s => negb (String.eqb s "")
  | VList l => match l with [] => false | _ => true end
  | VDict d => match d with [] => false | _ => true end
  end.

(** [a or b]. *)
Definition py_or (a b : value) : value := if truthy a then a else b.

(** [d.get(k)]: the value of the first (only) entry under [k]. *)
Fixpoint dict_get (d : dict) (k : string) : option value :=
  match d with
  | [] => None
  | (k', v) :: d' => if String.eqb k k' then Some v else dict_get d' k
  end.

(** [d.get(k, dflt)]. *)
Definition get_default (d : dict) (k : string) (dflt : value) : value :=
  match dict_get d k with
  | Some v => v
  | None => dflt
  end.

(** [d.get(k)] with Python's default of [None]. *)
Definition get_or_none (d : dict) (k : string) : value := get_default d k VNone.

(** [d[k] = v]: an existing key keeps its position, a new one goes last. *)
Fixpoint dict_set (d : dict) (k : string) (v : value) : dict :=
  match d with
  | [] => [(k, v)]
  | (k', v') :: d' =>
      if String.eqb k k' then (k', v) :: d' else (k', v') :: dict_set d' k v
  end.

(** *** Floats *)

(** The binary64 value nearest to the rational [m / d], negated when
    [neg]: ties to even, overflow to infinity. *)
Definition float_of_ratio (neg : bool) (m d : positive) : float :=
  SF2Prim (SFdiv prec emax (S754_finite neg m 0) (S754_finite false d 0)).

Definition signed_zero (neg : bool) : float :=
  if neg then (-0)%float else 0%float.

(** [float(z)] for an [int]: correctly rounded, [OverflowError] when the
    rounded value is not finite. *)
Definition float_of_int (z : Z) : result float :=
  let f := SF2Prim (binary_normalize prec emax z 0 false) in
  if is_infinity f then Raise OverflowError else Ok f.

(** [round(x, 2)]: the decimal with two places nearest to the exact value
    of [x] (ties to even), converted back to the nearest float; zeros,
    infinities and NaN round to themselves, and the sign survives a result
    of zero. *)
Definition round_half_even (n d : Z) : Z :=
  let q := n / d in
  match 2 * (n mod d) ?= d with
  | Lt => q
  | Gt => q + 1
  | Eq => if Z.even q then q else q + 1
  end.

Definition round2 (x : float) : float :=
  match Prim2SF x with
  | S754_finite neg m e =>
      let hundredths :=
        if 0 <=? e then Z.pos m * 2 ^ e * 100
        else round_half_even (Z.pos m * 100) (2 ^ (- e)) in
      match hundredths with
      | Z.pos n => float_of_ratio neg n 100
      | _ => signed_zero neg
      end
  | _ => x
  end.

(** [x / y] on floats raises on a zero divisor. *)
Definition truediv (x y : float) : result float :=
  if PrimFloat.eqb y 0%float then Raise ZeroDivisionError
  else Ok (x / y)%float.

(** *** Strings *)

(** The characters [str.strip] drops: tab to carriage return (9 to 13),
    the separators 28 to 31, the space, and the two spaces above 127,
    next line (133) and no-break space (160). *)
Definition is_space (c : ascii) : bool :=
  let n := Z.of_nat (nat_of_ascii c) in
  ((9 <=? n) && (n <=? 13)) || ((28 <=? n) && (n <=? 32))
  || (n =? 133) || (n =? 160).

(** The characters [float] drops around a number. It turns the spaces
    above 127 into a space and then drops tab to carriage return and the
    space; the separators 28 to 31 stay, and make the text no number. *)
Definition is_float_space (c : ascii) : bool :=
  let n := Z.of_nat (nat_of_ascii c) in
  ((9 <=? n) && (n <=? 13)) || (n =? 32) || (n =? 133) || (n =? 160).

Fixpoint lstrip_with (p : ascii -> bool) (s : string) : string :=
  match s with
  | String c s' => if p c then lstrip_with p s' else s
  | EmptyString => EmptyString
  end.

Fixpoint rstrip_with (p : ascii -> bool) (s : string) : string :=
  match s with
  | String c s' =>
      match rstrip_with p s' with
      | EmptyString => if p c then EmptyString else String c EmptyString
      | r => String c r
      end
  | EmptyString => EmptyString
  end.

(** [s.strip()]. *)
Definition strip (s : string) : string :=
  lstrip_with is_space (rstrip_with is_space s).

(** [s.rstrip("/")]. *)
Definition rstrip_slash (s : string) : string :=
  rstrip_with (Ascii.eqb "/"%char) s.

(** [str(z)] for an [int], as an f-string formats it. *)
Definition str_of_int (z : Z) : string :=
  NilZero.string_of_int (Z.to_int z).

(** *** [float(s)] for a string

    The whitespace of [is_float_space] around the text is dropped;
    underscores may stand between digits; what is left is an optionally
    signed decimal number with an optional exponent, or [inf],
    [infinity] or [nan] in any case. The number is converted with
    correct rounding. [None] is [ValueError]. *)
Definition is_digit (c : ascii) : bool :=
  let n := Z.of_nat (nat_of_ascii c) in (48 <=? n) && (n <=? 57).

Definition digit_val (c : ascii) : Z := Z.of_nat (nat_of_ascii c) - 48.

Definition lower (c : ascii) : ascii :=
  let n := nat_of_ascii c in
  if ((65 <=? Z.of_nat n) && (Z.of_nat n <=? 90))%Z
  then ascii_of_nat (n + 32) else c.

(** Underscores are removed when each one stands between two digits. *)
Fixpoint drop_underscores (prev : option ascii) (cs : list ascii)
  : option (list ascii) :=
  let prev_digit := match prev with Some p => is_digit p | None => false end in
  match cs with
  | [] => if match prev with Some p => Ascii.eqb p "_" | None => false end
          then None else Some []
  | c :: cs' =>
      if Ascii.eqb c "_" then
        if prev_digit then drop_underscores (Some c) cs' else None
      else if match prev with Some p => Ascii.eqb p "_" | None => false end
              && negb (is_digit c) then None
      else option_map (cons c) (drop_underscores (Some c) cs')
  end.

(** The longest run of digits at the front, and the rest. *)
Fixpoint span_digits (cs : list ascii) : list ascii * list ascii :=
  match cs with
  | c :: cs' =>
      if is_digit c then let '(ds, r) := span_digits cs' in (c :: ds, r)
      else ([], cs)
  | [] => ([], [])
  end.

Definition decimal_of_digits (ds : list ascii) : Z :=
  fold_left (fun acc c => 10 * acc + digit_val c) ds 0.

Definition take_sign (cs : list ascii) : bool * list ascii :=
  match cs with
  | c :: cs' =>
      if Ascii.eqb c "-" then (true, cs')
      else if Ascii.eqb c "+" then (false, cs') else (false, cs)
  | [] => (false, [])
  end.

(** The float nearest to [m * 10^k], negated when [neg]. *)
Definition float_of_decimal (neg : bool) (m k : Z) : float :=
  match m with
  | Z.pos p =>
      if 0 <=? k then
        SF2Prim (binary_normalize prec emax
                   ((if neg then -1 else 1) * (m * 10 ^ k)) 0 false)
      else
        match 10 ^ (- k) with
        | Z.pos d => float_of_ratio neg p d
        | _ => signed_zero neg
        end
  | _ => signed_zero neg
  end.

(** The exponent part: empty, or [e]/[E], an optional sign and digits. *)
Definition parse_exponent (cs : list ascii) : option Z :=
  match cs with
  | [] => Some 0
  | c :: cs' =>
      if Ascii.eqb (lower c) "e" then
        let '(neg, r) := take_sign cs' in
        match span_digits r with
        | ((_ :: _) as ds, []) =>
            Some ((if neg then -1 else 1) * decimal_of_digits ds)
        | _ => None
        end
      else None
  end.

Definition parse_number (neg : bool) (cs : list ascii) : option float :=
  let '(ip, r) := span_digits cs in
  let '(fp, r') :=
    match r with
    | c :: r1 => if Ascii.eqb c "." then span_digits r1 else ([], r)
    | [] => ([], [])
    end in
  match (ip ++ fp)%list with
  | [] => None
  | ds =>
      match parse_exponent r' with
      | Some e =>
          Some (float_of_decimal neg (decimal_of_digits ds)
                  (e - Z.of_nat (List.length fp)))
      | None => None
      end
  end.

Definition parse_inf_nan (neg : bool) (cs : list ascii) : option float :=
  let w := string_of_list_ascii (map lower cs) in
  if String.eqb w "inf" || String.eqb w "infinity"
  then Some (if neg then neg_infinity else infinity)
  else if String.eqb w "nan" then Some nan else None.

Definition float_of_str (s : string) : option float :=
  let cs :=
    list_ascii_of_string
      (lstrip_with is_float_space (rstrip_with is_float_space s)) in
  match drop_underscores None cs with
  | None => None
  | Some cs' =>
      let '(neg, body) := take_sign cs' in
      match body with
      | c :: _ =>
          if is_digit c || Ascii.eqb c "." then parse_number neg body
          else parse_inf_nan neg body
      | [] => None
      end
  end.

(** [float(v)]. *)
Definition py_float (v : value) : result float :=
  match v with
  | VFloat f => Ok f
  | VInt z => float_of_int z
  | VBool b => Ok (if b then 1%float else 0%float)
  | VStr s =>
      match float_of_str s with
      | Some f => Ok f
      | None => Raise ValueError
      end
  | VNone | VList _ | VDict _ => Raise TypeError
  end.

Arguments float_of_int : simpl never.
Arguments float_of_str : simpl never.
Arguments float_of_ratio : simpl never.
Arguments round2 : simpl never.
Arguments strip : simpl never.
Arguments str_of_int : simpl never.

End Py.

(** ** The application: [app.py] *)

Module App.
Import Py.
Local Open Scope py_scope.

(** The [Settings] dataclass. *)
Record Settings : Type := mkSettings {
  api_url : string;
  api_port : Z;
  title : string;
  logo_url : string;
  logo_image : string;
  dev_mode : bool;
  sample_file : string
}.

Definition green : string := "#2ECC71".
Definition yellow : string := "#F4D03F".
Definition red : string := "#E74C3C".

(** [colour_for], the helper nested in [compute_scores]. *)
Definition colour_for (value : float) : string :=
  if (75 <=? value)%float then green
  else if (50 <=? value)%float then yellow
  else red.

(** The four principles, in the order the outer loop visits them. *)
Definition dims : list string :=
  ["findable"; "accessible"; "interoperable"; "reusable"].

(** [float(test.get("points", 0.0) or 0.0)]. *)
Definition points_of (test : dict) : result float :=
  py_float (py_or (get_default test "points" (VFloat 0)) (VFloat 0)).

(** [float(test.get("score", {}).get("weight", 0.0) or 0.0)]: the second
    [.get] is an attribute of a [dict] only. *)
Definition weight_of (test : dict) : result float :=
  match get_default test "score" (VDict []) with
  | VDict score =>
      py_float (py_or (get_default score "weight" (VFloat 0)) (VFloat 0))
  | _ => Raise AttributeError
  end.

(** [[m.get("message", "") for m in messages]]. *)
Fixpoint message_texts (messages : list value) : result (list value) :=
  match messages with
  | [] => Ok []
  | VDict m :: rest =>
      texts <- message_texts rest ;;
      Ok (get_default m "message" (VStr "") :: texts)
  | _ :: _ => Raise AttributeError
  end.

(** The value bound to [formatted_msg]. *)
Definition format_msg (test : dict) : result value :=
  match get_or_none test "msg" with
  | VList messages =>
      texts <- message_texts messages ;; Ok (VList texts)
  | messages => Ok (py_or messages (VList []))
  end.

(** One pass of the inner loop over a [dict] entry: the value stored in
    [processed[key]], with the entry's points and weight. *)
Definition process_test (key : string) (test : dict)
  : result (value * float * float) :=
  points <- points_of test ;;
  weight <- weight_of test ;;
  let colour := py_or (get_or_none test "color") (VStr (colour_for points)) in
  formatted_msg <- format_msg test ;;
  Ok (VDict
        [("name", py_or (get_or_none test "name") (VStr key));
         ("name_smart",
           py_or (py_or (get_or_none test "name_smart")
                    (get_or_none test "name")) (VStr key));
         ("points", VFloat points);
         ("score", VDict [("weight", VFloat weight)]);
         ("color", colour);
         ("test_status", get_default test "test_status" (VStr ""));
         ("msg", formatted_msg)],
      points, weight).

(** The inner loop [for key, test in items.items()], threading
    [(processed, points_sum, weight_sum)]. *)
Fixpoint process_items (items : dict) (st : dict * float * float)
  : result (dict * float * float) :=
  match items with
  | [] => Ok st
  | (key, VDict test) :: rest =>
      '(entry, points, weight) <- process_test key test ;;
      let '(processed, points_sum, weight_sum) := st in
      process_items rest
        (dict_set processed key entry,
         (points_sum + points * weight)%float,
         (weight_sum + weight)%float)
  | (_, _) :: rest => process_items rest st
  end.

(** [round(s / w, 2) if w > 0 else 0.0]. *)
Definition aggregate (points_sum weight_sum : float) : result float :=
  if (0 <? weight_sum)%float then
    q <- truediv points_sum weight_sum ;; Ok (round2 q)
  else Ok 0%float.

(** [data.get(dim, {}) or {}], then [.items()]. *)
Definition items_of (data : dict) (dim : string) : result dict :=
  match py_or (get_default data dim (VDict [])) (VDict []) with
  | VDict items => Ok items
  | _ => Raise AttributeError
  end.

Definition result_entry (result_points : float) : value :=
  VDict [("points", VFloat result_points);
         ("color", VStr (colour_for result_points))].

(** The body of the outer loop for one principle: the finished
    [processed] mapping and the principle's two sums. *)
Definition process_principle (data : dict) (dim : string)
  : result (dict * float * float) :=
  items <- items_of data dim ;;
  '(processed, points_sum, weight_sum) <-
     process_items items ([], 0%float, 0%float) ;;
  result_points <- aggregate points_sum weight_sum ;;
  Ok (dict_set processed "result" (result_entry result_points),
      points_sum, weight_sum).

(** The outer loop, threading [(principles, total_points, total_weight)]. *)
Fixpoint principles_loop (ds : list string) (data : dict)
    (st : dict * float * float) : result (dict * float * float) :=
  match ds with
  | [] => Ok st
  | dim :: rest =>
      '(processed, points_sum, weight_sum) <- process_principle data dim ;;
      let '(principles, total_points, total_weight) := st in
      principles_loop rest data
        (dict_set principles dim (VDict processed),
         (total_points + points_sum)%float,
         (total_weight + weight_sum)%float)
  end.

(** [compute_scores(data)]: [(principles, fair_points, fair_color)]. *)
Definition compute_scores (data : value) : result (dict * float * string) :=
  match data with
  | VDict d =>
      '(principles, total_points, total_weight) <-
         principles_loop dims d ([], 0%float, 0%float) ;;
      fair_points <- aggregate total_points total_weight ;;
      Ok (principles, fair_points, colour_for fair_points)
  | _ => Raise AttributeError
  end.

(** *** The [evaluator] view *)

(** What the handler does to the outside: it opens a file or posts a
    request. *)
Inductive event : Type :=
| OpenFile (path : string)
| HttpPost (url : string) (json : value) (timeout : Z).

(** A [requests] response: whether [raise_for_status] raises, and what
    [json] returns. *)
Record http_response : Type := mkResponse {
  raise_for_status : result unit;
  json : result value
}.

(** The outside: [open] followed by [json.load] on a path, and
    [requests.post]. *)
Record world : Type := mkWorld {
  read_json : string -> result value;
  http_post : string -> value -> Z -> result http_response
}.

(** The two texts [error.html] is rendered with. *)
Inductive error_text : Type :=
| ErrorLoading (exc : exn)
| NoEvaluationData.

(** How the handler ends. [Scored] stands for reaching the view-model
    assembly with the three results of [compute_scores]; the assembly
    and the rendering of [eval.html] are not part of the model. *)
Inductive outcome : Type :=
| RedirectIndex
| ErrorPage (error : error_text)
| Scored (principles : dict) (fair_points : float) (fair_color : string)
| Uncaught (e : exn).

(** [for k, v in d.items(): if k != "evaluator_logs": result_data = v;
    break], starting from [result_data = None]. *)
Fixpoint first_data (items : dict) : value :=
  match items with
  | [] => VNone
  | (k, v) :: rest =>
      if negb (String.eqb k "evaluator_logs") then v else first_data rest
  end.

Definition select_data (json_data : value) : result value :=
  match json_data with
  | VDict items => Ok (first_data items)
  | _ => Raise AttributeError
  end.

Definition endpoint (cfg : Settings) : string :=
  let base := rstrip_slash (api_url cfg) ++ ":" ++ str_of_int (api_port cfg) in
  base ++ "/v1.0/rda/rda_all".

Definition payload (item_id : string) : value :=
  VDict [("id", VStr item_id); ("lang", VStr "en")].

(** The body of the [try] statement: the events it causes and the value
    left in [result_data], or the exception it raises. *)
Definition load_result_data (cfg : Settings) (item_id : string) (w : world)
  : list event * result value :=
  if dev_mode cfg then
    ([OpenFile (sample_file cfg)],
     json_data <- read_json w (sample_file cfg) ;;
     select_data json_data)
  else
    ([HttpPost (endpoint cfg) (payload item_id) 30],
     resp <- http_post w (endpoint cfg) (payload item_id) 30 ;;
     _ <- raise_for_status resp ;;
     resp_json <- json resp ;;
     select_data resp_json).

(** What follows the [try] statement, up to the call of
    [compute_scores]. *)
Definition respond (loaded : result value) : outcome :=
  match loaded with
  | Raise exc => ErrorPage (ErrorLoading exc)
  | Ok result_data =>
      if negb (truthy result_data) then ErrorPage NoEvaluationData
      else
        match compute_scores result_data with
        | Ok (principles, fair_points, fair_color) =>
            Scored principles fair_points fair_color
        | Raise e => Uncaught e
        end
  end.

(** The handler from the [try] statement on, under the settings [cfg]
    as they stand when the statement is reached. *)
Definition evaluate_with (cfg : Settings) (item_id : string) (w : world)
  : list event * outcome :=
  let '(trace, loaded) := load_result_data cfg item_id w in
  (trace, respond loaded).

Definition set_dev_mode (cfg : Settings) (b : bool) : Settings :=
  mkSettings (api_url cfg) (api_port cfg) (title cfg) (logo_url cfg)
    (logo_image cfg) b (sample_file cfg).

(** [request.values.get(name) or ""]. *)
Fixpoint form_value (values : list (string * string)) (name : string)
  : string :=
  match values with
  | [] => ""
  | (k, v) :: rest => if String.eqb name k then v else form_value rest name
  end.

(** [evaluator()]: the settings object after the request (the handler
    assigns to [cfg.dev_mode]), the events, and the outcome. The handler
    also reads [plugin], [repo] and [oai_base] from the request; they
    play no part before the view-model assembly. *)
Definition evaluator (cfg : Settings) (values : list (string * string))
    (w : world) : Settings * list event * outcome :=
  let item_id := strip (form_value values "item_id") in
  if String.eqb item_id "" then (cfg, [], RedirectIndex)
  else
    let cfg := set_dev_mode cfg true in
    let '(trace, page) := evaluate_with cfg item_id w in
    (cfg, trace, page).

End App.

(** ** Definitions the statements are written with *)

Module Spec.
Import Py App.
Local Open Scope py_scope.

Definition is_list (v : value) : bool :=
  match v with VList _ => true | _ => false end.

Definition is_dict (v : value) : bool :=
  match v with VDict _ => true | _ => false end.

(** The [(points, weight)] pairs of a principle's indicators, in
    insertion order: one pair per entry that is a [dict]. *)
Fixpoint indicator_terms (items : dict) : result (list (float * float)) :=
  match items with
  | [] => Ok []
  | (_, VDict test) :: rest =>
      p <- points_of test ;;
      w <- weight_of test ;;
      ts <- indicator_terms rest ;;
      Ok ((p, w) :: ts)
  | _ :: rest => indicator_terms rest
  end.

Definition principle_terms (data : dict) (dim : string)
  : result (list (float * float)) :=
  items <- items_of data dim ;; indicator_terms items.

(** Sums of [points * weight] and of [weight], accumulated from left to
    right in binary64 as [+=] does. *)
Definition weighted_sum_from (acc : float) (ts : list (float * float))
  : float :=
  fold_left (fun a t => (a + fst t * snd t)%float) ts acc.

Definition weight_sum_from (acc : float) (ts : list (float * float)) : float :=
  fold_left (fun a t => (a + snd t)%float) ts acc.

Definition weighted_sum : list (float * float) -> float :=
  weighted_sum_from 0%float.

Definition weight_sum : list (float * float) -> float :=
  weight_sum_from 0%float.

(** The totals over the four principles. *)
Definition total_points (groups : list (list (float * float))) : float :=
  fold_left (fun a ts => (a + weighted_sum ts)%float) groups 0%float.

Definition total_weight (groups : list (list (float * float))) : float :=
  fold_left (fun a ts => (a + weight_sum ts)%float) groups 0%float.

(** The global weighted average in the words of the specification: the
    sum over all indicators of all principles of points times weight,
    divided by the sum of all weights, rounded to two places. *)
Definition global_weighted_average (groups : list (list (float * float)))
  : float :=
  round2 (total_points groups / total_weight groups)%float.

(** The points of a principle's ["result"] entry in the returned mapping. *)
Definition aggregate_points (principles : dict) (dim : string)
  : option float :=
  match dict_get principles dim with
  | Some (VDict processed) =>
      match dict_get processed "result" with
      | Some (VDict r) =>
          match dict_get r "points" with
          | Some (VFloat f) => Some f
          | _ => None
          end
      | _ => None
      end
  | _ => None
  end.

(** The mean of the four per-principle aggregates, which the overall
    score is not. *)
Definition mean_of_aggregates (principles : dict) : option float :=
  match map (aggregate_points principles) dims with
  | [Some f; Some a; Some i; Some r] => Some ((f + a + i + r) / 4)%float
  | _ => None
  end.

Definition fair_points_of (r : result (dict * float * string))
  : option float :=
  match r with
  | Ok (_, fair_points, _) => Some fair_points
  | Raise _ => None
  end.

(** The processed entry of an indicator in the returned mapping. *)
Definition indicator_entry (principles : dict) (dim key : string)
  : option value :=
  match dict_get principles dim with
  | Some (VDict processed) => dict_get processed key
  | _ => None
  end.

(** *** Inputs on which nothing raises *)

(** [float(v or 0.0)] returns. *)
Definition coercible (v : value) : bool :=
  match v with
  | VNone | VBool _ | VFloat _ => true
  | VInt z => match float_of_int z with Ok _ => true | Raise _ => false end
  | VStr s =>
      String.eqb s ""
      || match float_of_str s with Some _ => true | None => false end
  | VList l => match l with [] => true | _ => false end
  | VDict d => match d with [] => true | _ => false end
  end.

(** An indicator whose [points] and [weight] coerce, whose [score] is
    absent or a [dict], and whose [msg], when a list, holds only
    [dict]s. *)
Definition wf_test (test : dict) : bool :=
  coercible (get_default test "points" (VFloat 0))
  && match get_default test "score" (VDict []) with
     | VDict score => coercible (get_default score "weight" (VFloat 0))
     | _ => false
     end
  && match get_or_none test "msg" with
     | VList messages => forallb is_dict messages
     | _ => true
     end.

Definition wf_item (item : string * value) : bool :=
  match snd item with
  | VDict test => wf_test test
  | _ => true
  end.

Definition wf_items (items : dict) : bool := forallb wf_item items.

(** A principle is absent, falsy, or a mapping of well-formed entries. *)
Definition wf_principle (v : value) : bool :=
  match v with
  | VDict items => wf_items items
  | _ => negb (truthy v)
  end.

Definition wf_document (data : dict) : bool :=
  forallb (fun dim => wf_principle (get_default data dim (VDict []))) dims.

Definition is_post (e : event) : bool :=
  match e with HttpPost _ _ _ => true | OpenFile _ => false end.

(** The [msg] field of a processed entry. *)
Definition msg_of_entry (entry : value) : option value :=
  match entry with
  | VDict e => dict_get e "msg"
  | _ => None
  end.

(** The events and the outcome of a call of [evaluator]. *)
Definition trace_of (r : Settings * list event * outcome) : list event :=
  snd (fst r).

Definition outcome_of (r : Settings * list event * outcome) : outcome :=
  snd r.

Definition settings_after (r : Settings * list event * outcome) : Settings :=
  fst (fst r).

(** Whether a URL ends in a slash. *)
Fixpoint ends_with_slash (s : string) : bool :=
  match s with
  | EmptyString => false
  | String c EmptyString => Ascii.eqb "/"%char c
  | String _ s' => ends_with_slash s'
  end.

(** The entry the inner loop stores for the indicator under [k]. *)
Definition processed_entry (items : dict) (k : string) : option value :=
  match dict_get items k with
  | Some (VDict test) =>
      match process_test k test with
      | Ok (entry, _, _) => Some entry
      | Raise _ => None
      end
  | _ => None
  end.

(** Two documents that hold, principle by principle, the same indicator
    entries in a different insertion order. *)
Definition reordered (data data' : dict) : Prop :=
  forall dim, In dim dims ->
    exists items items',
      items_of data dim = Ok items
      /\ items_of data' dim = Ok items'
      /\ Permutation items items'
      /\ NoDup (map fst items).

Definition fair_color_of (r : result (dict * float * string))
  : option string :=
  match r with
  | Ok (_, _, fair_color) => Some fair_color
  | Raise _ => None
  end.

Definition is_error_page (o : outcome) : bool :=
  match o with ErrorPage _ => true | _ => false end.

(** The overall score a request ends with, when it ends with scores. *)
Definition scored_points (o : outcome) : option float :=
  match o with
  | Scored _ fair_points _ => Some fair_points
  | _ => None
  end.

(** The [msg] the inner loop stores for an indicator. *)
Definition stored_msg (r : result (value * float * float)) : option value :=
  match r with
  | Ok (entry, _, _) => msg_of_entry entry
  | Raise _ => None
  end.

Definition principles_of (r : result (dict * float * string)) : option dict :=
  match r with
  | Ok (principles, _, _) => Some principles
  | Raise _ => None
  end.

End Spec.

(** ** Sample documents *)

Module Samples.
Import Py App.

(** An indicator that carries only its points and weight. *)
Definition indicator (points weight : value) : value :=
  VDict [("points", points); ("score", VDict [("weight", weight)])].

(** Findable holds one indicator with 100 points of weight 10, each
    other principle one indicator with 0 points of weight 1. *)
Definition asymmetric_doc : dict :=
  [("findable", VDict [("f1", indicator (VInt 100) (VInt 10))]);
   ("accessible", VDict [("a1", indicator (VInt 0) (VInt 1))]);
   ("interoperable", VDict [("i1", indicator (VInt 0) (VInt 1))]);
   ("reusable", VDict [("r1", indicator (VInt 0) (VInt 1))])].

(** One indicator with 100 points of weight -1. *)
Definition negative_weight_doc : dict :=
  [("findable", VDict [("f1", indicator (VInt 100) (VInt (-1)))])].

(** A document whose only indicator is [test]. *)
Definition single (test : dict) : dict :=
  [("findable", VDict [("f1", VDict test)])].

(** [msg] given as a list of plain strings. *)
Definition plain_msg_doc : dict := single [("msg", VList [VStr "A"])].

(** [points] given as text that is no number. *)
Definition bad_points_doc : dict := single [("points", VStr "abc")].

(** [score] given as [null]. *)
Definition null_score_doc : dict := single [("score", VNone)].

(** [points] given as a list. *)
Definition list_points_doc : dict := single [("points", VList [VInt 1])].

(** A principle with an entry that is no object next to an indicator
    that lacks every field, and principles that are absent or [null]. *)
Definition sparse_doc : dict :=
  [("findable", VDict [("note", VStr "n/a"); ("f1", VDict [])]);
   ("accessible", VNone)].

(** [msg] given as a list of objects, and as a bare string. *)
Definition messages_test : dict :=
  [("msg", VList [VDict [("message", VStr "A")];
                  VDict [("message", VStr "B")]])].

Definition scalar_msg_test : dict := [("msg", VStr "A")].

(** A principle with an indicator stored under the key ["result"]. *)
Definition result_key_doc : dict :=
  [("findable",
    VDict [("result", indicator (VInt 80) (VInt 1));
           ("f2", indicator (VInt 20) (VInt 1))])].

(** Indicators whose weights are all zero. *)
Definition zero_weight_doc : dict :=
  [("findable",
    VDict [("f1", indicator (VInt 90) (VInt 0));
           ("f2", indicator (VInt 60) (VFloat (-0)))])].

(** Three indicators of one principle, in two insertion orders. *)
Definition order_one : dict :=
  [("findable",
    VDict [("f1", indicator (VFloat 24) (VFloat 0.6));
           ("f2", indicator (VFloat 68.28) (VFloat 0.3));
           ("f3", indicator (VFloat 61.23) (VFloat 0.9))])].

Definition order_two : dict :=
  [("findable",
    VDict [("f1", indicator (VFloat 24) (VFloat 0.6));
           ("f3", indicator (VFloat 61.23) (VFloat 0.9));
           ("f2", indicator (VFloat 68.28) (VFloat 0.3))])].

(** Indicators whose sums are exact in either order. *)
Definition exact_one : dict :=
  [("findable",
    VDict [("f1", indicator (VInt 100) (VInt 1));
           ("note", VStr "n/a");
           ("f2", indicator (VInt 0) (VInt 1));
           ("f3", indicator (VInt 50) (VInt 2))])].

Definition exact_two : dict :=
  [("findable",
    VDict [("f3", indicator (VInt 50) (VInt 2));
           ("f1", indicator (VInt 100) (VInt 1));
           ("f2", indicator (VInt 0) (VInt 1));
           ("note", VStr "n/a")])].

(** Settings for production: the development flag is off. *)
Definition production_cfg : Settings :=
  mkSettings "http://localhost" 9090 "FAIR EVA" "https://digital.csic.es"
    "logo_fair_eosc.png" false "data/salida_new.json".

Definition development_cfg : Settings := set_dev_mode production_cfg true.

(** The fixture with the keys [evaluator_logs] and [group1]. *)
Definition fixture : dict :=
  [("evaluator_logs", VList [VStr "started"]);
   ("group1", VDict asymmetric_doc)].

(** A world whose sample file holds the fixture and whose API answers
    every request with an error status. *)
Definition failing_api_world : world :=
  mkWorld (fun _ => Ok (VDict fixture))
    (fun _ _ _ => Ok (mkResponse (Raise HTTPError) (Ok (VDict fixture)))).

End Samples.

(** ** The view-model assembly of [evaluator] *)

Module View.
Import Py App.

(** The assembly subscripts mappings, so it can raise [KeyError] besides
    the exceptions of the builtins. *)
Inductive view_exn : Type :=
| KeyError
| Builtin (e : exn).

Inductive attempt (A : Type) : Type :=
| Done (a : A)
| Fails (e : view_exn).
Arguments Done {A} a.
Arguments Fails {A} e.

Definition andthen {A B : Type} (r : attempt A) (k : A -> attempt B)
  : attempt B :=
  match r with
  | Done a => k a
  | Fails e => Fails e
  end.

Declare Scope view_scope.
Delimit Scope view_scope with view.
Notation "x <- c ;; k" := (andthen c (fun x => k))
  (at level 61, c at next level, right associativity) : view_scope.
Local Open Scope view_scope.

Definition lift {A : Type} (r : result A) : attempt A :=
  match r with
  | Ok a => Done a
  | Raise e => Fails (Builtin e)
  end.

Definition is_done {A : Type} (r : attempt A) : bool :=
  match r with Done _ => true | Fails _ => false end.

(** [v[k]] for a string [k]: only a [dict] can be subscripted by one. *)
Definition subscript (v : value) (k : string) : attempt value :=
  match v with
  | VDict d =>
      match dict_get d k with
      | Some x => Done x
      | None => Fails KeyError
      end
  | _ => Fails (Builtin TypeError)
  end.

(** [v.get(k, dflt)]: only a [dict] has the method. *)
Definition attr_get (v : value) (k : string) (dflt : value) : attempt value :=
  match v with
  | VDict d => Done (get_default d k dflt)
  | _ => Fails (Builtin AttributeError)
  end.

(** [int(f)] for a float: truncation towards zero; NaN and the
    infinities have no integer. *)
Definition int_of_float (f : float) : result Z :=
  match Prim2SF f with
  | S754_zero _ => Ok 0
  | S754_finite neg m e =>
      let magnitude :=
        if 0 <=? e then Z.pos m * 2 ^ e else Z.pos m / 2 ^ (- e) in
      Ok (if neg then - magnitude else magnitude)
  | S754_infinity _ => Raise OverflowError
  | S754_nan => Raise ValueError
  end.

Arguments int_of_float : simpl never.

(** [k in s] for strings. *)
Fixpoint has_substring (needle hay : string) : bool :=
  String.prefix needle hay
  || match hay with
     | String _ hay' => has_substring needle hay'
     | EmptyString => false
     end.

(** [k in v] for a string [k]: a key of a [dict], a substring of a
    string, an element of a list; other values are not containers. *)
Definition contains (k : string) (v : value) : attempt bool :=
  match v with
  | VDict d => Done (match dict_get d k with Some _ => true | None => false end)
  | VStr s => Done (has_substring k s)
  | VList l =>
      Done (existsb (fun x => match x with
                              | VStr s => String.eqb s k
                              | _ => false
                              end) l)
  | _ => Fails (Builtin TypeError)
  end.

(** What [for t in iters] runs over: the values of a [dict], the
    elements of a list, the characters of a string. *)
Definition iterate (tests : value) : attempt (list value) :=
  match tests with
  | VDict d => Done (map snd d)
  | VList l => Done l
  | VStr s =>
      Done (map (fun c => VStr (String c EmptyString)) (list_ascii_of_string s))
  | _ => Fails (Builtin TypeError)
  end.

(** [int(x)] under the guard [isinstance(x, (int, float))], which a
    [bool] passes as an [int]; [None] when the guard fails. *)
Definition guarded_int (x : value) : option (result Z) :=
  match x with
  | VInt z => Some (Ok z)
  | VBool b => Some (Ok (if b then 1 else 0))
  | VFloat f => Some (int_of_float f)
  | _ => None
  end.

(** One pass of the loop of [_max_for_group]: the new [total]. *)
Definition max_step (t : value) (total : Z) : attempt Z :=
  t_res <- attr_get (py_or t (VDict [])) "result" (VDict []) ;;
  own <- attr_get t_res "max_points" VNone ;;
  match guarded_int own with
  | Some r => n <- lift r ;; Done (total + n)
  | None =>
      direct <- attr_get t "max_points" VNone ;;
      match guarded_int direct with
      | Some r => n <- lift r ;; Done (total + n)
      | None => Done (total + 1)
      end
  end.

Fixpoint max_loop (iters : list value) (total : Z) : attempt Z :=
  match iters with
  | [] => Done total
  | t :: rest => total' <- max_step t total ;; max_loop rest total'
  end.

(** [_max_for_group(group)], for the mappings the handler passes. *)
Definition max_for_group (group : dict) : attempt Z :=
  let res := get_default group "result" (VDict []) in
  present <- contains "max_points" res ;;
  explicit <-
    (if present then x <- subscript res "max_points" ;; Done (guarded_int x)
     else Done None) ;;
  match explicit with
  | Some r => lift r
  | None =>
      let tests :=
        py_or (py_or (get_or_none group "indicators")
                 (get_or_none group "tests")) (VDict []) in
      iters <- iterate tests ;;
      total <- max_loop iters 0 ;;
      Done (if total =? 0 then 100 else total)
  end.

(** [group[key][field]]. *)
Definition item_field (group : dict) (key field : string) : attempt value :=
  entry <- subscript (VDict group) key ;; subscript entry field.

(** The dictionary [_tests_list] appends for one key. *)
Definition list_item (group : dict) (key : string) : attempt value :=
  rid <- item_field group key "name" ;;
  title <- item_field group key "name" ;;
  desc <- item_field group key "name" ;;
  tres <- item_field group key "score" ;;
  score <- item_field group key "points" ;;
  logs_raw <- item_field group key "msg" ;;
  Done (VDict [("id", rid); ("title", title); ("description", desc);
               ("score", score); ("max_score", VInt 100);
               ("priority", VStr "essential"); ("logs", VStr "logs");
               ("recommendation", VStr "RECommendations");
               ("details", VStr "details")]).

Fixpoint list_items (group : dict) (keys : list string)
  : attempt (list value) :=
  match keys with
  | [] => Done []
  | key :: rest =>
      if negb (String.eqb key "result") then
        item <- list_item group key ;;
        items <- list_items group rest ;;
        Done (item :: items)
      else list_items group rest
  end.

(** [_tests_list(group)], for the mappings the handler passes. *)
Definition tests_list (group : dict) : attempt (list value) :=
  list_items group (map fst group).

(** The [aggregated] and [colours] entries of one principle. *)
Definition aggregated_entry (principles : dict) (dim : string)
  : attempt value :=
  p <- subscript (VDict principles) dim ;;
  r <- subscript p "result" ;;
  subscript r "points".

Definition colours_entry (principles : dict) (dim : string) : attempt value :=
  p <- subscript (VDict principles) dim ;;
  r <- subscript p "result" ;;
  attr_get r "color" VNone.

Section Assembly.

(** [int(s)] for a string, a builtin the assembly is parametric in. *)
Variable int_of_str : string -> result Z.

(** [int(v)]. *)
Definition py_int (v : value) : result Z :=
  match v with
  | VInt z => Ok z
  | VBool b => Ok (if b then 1 else 0)
  | VFloat f => int_of_float f
  | VStr s => int_of_str s
  | VNone | VList _ | VDict _ => Raise TypeError
  end.

(** One entry of [summary_by_area], for [p = principles.get(dim, {})]:
    [{"score": int(p.get("result", {}).get("points", 0)),
      "max": _max_for_group(p)}]. *)
Definition area_summary (p : value) : attempt value :=
  res <- attr_get p "result" (VDict []) ;;
  points <- attr_get res "points" (VInt 0) ;;
  score <- lift (py_int points) ;;
  match p with
  | VDict group =>
      max <- max_for_group group ;;
      Done (VDict [("score", VInt score); ("max", VInt max)])
  | _ => Fails (Builtin AttributeError)
  end.

(** One entry of [indicators_by_area]; a [p] that is no mapping has
    made [area_summary] raise before. *)
Definition area_indicators (p : value) : attempt value :=
  match p with
  | VDict group => items <- tests_list group ;; Done (VList items)
  | _ => Fails (Builtin TypeError)
  end.

(** What [eval.html] is rendered with, the clock and the constant
    arguments apart. *)
Record context : Type := mkContext {
  aggregated : dict;
  colours : dict;
  summary_by_area : dict;
  indicators_by_area : dict;
  plugin_name : string;
  resource_id : string
}.

Definition area_names : list (string * string) :=
  [("Findable", "findable"); ("Accessible", "accessible");
   ("Interoperable", "interoperable"); ("Reusable", "reusable")].

(** A dictionary display, its values computed from left to right. *)
Fixpoint build {K : Type} (f : K -> attempt value) (keys : list (string * K))
  : attempt dict :=
  match keys with
  | [] => Done []
  | (name, k) :: rest =>
      v <- f k ;; d <- build f rest ;; Done ((name, v) :: d)
  end.

(** Sections 3 and 4 of [evaluator]: from the results of
    [compute_scores] to the template's arguments. *)
Definition view_model (principles : dict) (fair_points : float)
    (fair_color : string) (item_id plugin : string) : attempt context :=
  agg <- build (aggregated_entry principles)
           (map (fun d => (d, d)) dims) ;;
  col <- build (colours_entry principles) (map (fun d => (d, d)) dims) ;;
  let p_of := fun dim => get_default principles dim (VDict []) in
  summary <-
    build (fun dim => area_summary (p_of dim)) area_names ;;
  indicators <-
    build (fun dim => area_indicators (p_of dim)) area_names ;;
  Done (mkContext
          (agg ++ [("fair", VFloat fair_points)])%list
          (col ++ [("fair", VStr fair_color)])%list
          summary indicators
          (if String.eqb plugin "" then "default" else plugin)
          item_id).

(** How a request ends, the assembly included. *)
Inductive page : Type :=
| Redirected
| ErrorHtml (error : error_text)
| EvalHtml (ctx : context)
| Unhandled (e : view_exn).

(** [evaluator()] through to the call of [render_template]. *)
Definition evaluator_page (cfg : Settings) (values : list (string * string))
    (w : world) : Settings * list event * page :=
  let '(cfg', trace, o) := evaluator cfg values w in
  let item_id := strip (form_value values "item_id") in
  let plugin := strip (form_value values "plugin") in
  (cfg', trace,
   match o with
   | RedirectIndex => Redirected
   | ErrorPage error => ErrorHtml error
   | Uncaught e => Unhandled (Builtin e)
   | Scored principles fair_points fair_color =>
       match view_model principles fair_points fair_color item_id plugin with
       | Done ctx => EvalHtml ctx
       | Fails e => Unhandled e
       end
   end).

End Assembly.

End View.

(** ** The settings' defaults and [main] *)

Module Cli.
Import Py App.
Local Open Scope py_scope.

(** What [parser.parse_args()] returns: an option that was not given is
    [None], [--dev] is a flag. *)
Record Args : Type := mkArgs {
  host : string;
  port : Z;
  arg_api_url : option string;
  arg_api_port : option Z;
  arg_title : option string;
  arg_logo_url : option string;
  arg_logo_image : option string;
  dev : bool;
  arg_sample_file : option string
}.

(** [if a: x = a] for a string option: [None] and the empty string
    leave [x] alone. *)
Definition override_str (a : option string) (x : string) : string :=
  match a with
  | Some s => if String.eqb s "" then x else s
  | None => x
  end.

(** The same for an integer option: [None] and 0 leave [x] alone. *)
Definition override_int (a : option Z) (x : Z) : Z :=
  match a with
  | Some z => if z =? 0 then x else z
  | None => x
  end.

(** The chain of [if args...:] assignments of [main]. *)
Definition override_settings (cfg : Settings) (args : Args) : Settings :=
  mkSettings
    (override_str (arg_api_url args) (api_url cfg))
    (override_int (arg_api_port args) (api_port cfg))
    (override_str (arg_title args) (title cfg))
    (override_str (arg_logo_url args) (logo_url cfg))
    (override_str (arg_logo_image args) (logo_image cfg))
    (if dev args then true else dev_mode cfg)
    (override_str (arg_sample_file args) (sample_file cfg)).

(** [main()] from the parsed arguments on: the settings [create_app]
    gets, and the host, port and debug flag [app.run] gets. [defaults]
    is [Settings()]. *)
Definition main (defaults : Settings) (args : Args)
  : Settings * (string * Z * bool) :=
  let cfg := override_settings defaults args in
  (cfg, (host args, port args, dev_mode cfg)).

Section Defaults.

(** [int(s)] for a string, and the path of the packaged sample file
    ([os.path.join(os.path.dirname(__file__), "data",
    "salida_new.json")]). *)
Variable int_of_str : string -> result Z.
Variable packaged_sample : string.

(** [os.getenv(name, default)]. *)
Definition getenv (env : list (string * string)) (name default : string)
  : string :=
  match find (fun kv => String.eqb name (fst kv)) env with
  | Some kv => snd kv
  | None => default
  end.

(** The defaults of the [Settings] dataclass, read from the
    environment; a port that is no integer raises. *)
Definition default_settings (env : list (string * string)) : result Settings :=
  let url := getenv env "FAIR_EVA_API_URL" "http://localhost" in
  api_port <- int_of_str (getenv env "FAIR_EVA_API_PORT" "9090") ;;
  Ok (mkSettings url api_port
        (getenv env "FAIR_EVA_TITLE" "FAIR EVA")
        (getenv env "FAIR_EVA_LOGO_URL" "https://digital.csic.es")
        (getenv env "FAIR_EVA_LOGO_IMAGE" "logo_fair_eosc.png")
        (String.eqb (getenv env "FAIR_EVA_DEV" "0") "1")
        (getenv env "FAIR_EVA_SAMPLE_FILE" packaged_sample)).

End Defaults.

End Cli.

(** ** Definitions for the statements about the rest of the code *)

Module Rest.
Import Py App Spec View.

(** The keys of the entries that are objects, in insertion order. *)
Definition object_keys (items : dict) : list string :=
  map fst (filter (fun kv => is_dict (snd kv)) items).

(** A value of the shape the inner loop stores for an indicator. *)
Definition entry_shape (v : value) : Prop :=
  exists name name_smart points weight colour status msg,
    v = VDict [("name", name); ("name_smart", name_smart);
               ("points", VFloat points);
               ("score", VDict [("weight", VFloat weight)]);
               ("color", colour); ("test_status", status); ("msg", msg)].

(** A mapping as [compute_scores] leaves it for a principle: distinct
    keys, the aggregate under ["result"], processed indicators under
    the others. *)
Definition scored_group (processed : dict) : Prop :=
  NoDup (map fst processed)
  /\ (exists points, dict_get processed "result" = Some (result_entry points))
  /\ Forall (fun kv => fst kv = "result" \/ entry_shape (snd kv)) processed.

(** The field of a processed entry, [None] when absent. *)
Definition field (entry : value) (name : string) : value :=
  match entry with
  | VDict e => get_or_none e name
  | _ => VNone
  end.

(** The accordion item of a processed entry. *)
Definition entry_item (entry : value) : value :=
  VDict [("id", field entry "name"); ("title", field entry "name");
         ("description", field entry "name");
         ("score", field entry "points"); ("max_score", VInt 100);
         ("priority", VStr "essential"); ("logs", VStr "logs");
         ("recommendation", VStr "RECommendations");
         ("details", VStr "details")].

Definition not_result (kv : string * value) : bool :=
  negb (String.eqb (fst kv) "result").

(** The accordion items of a returned principle: one for each entry
    but the aggregate, in the order of the mapping. *)
Definition accordion (processed : dict) : list value :=
  map (fun kv => entry_item (snd kv)) (filter not_result processed).

(** The points and weight a processed entry shows. *)
Definition shown_term (entry : value) : option (float * float) :=
  match field entry "points", field (field entry "score") "weight" with
  | VFloat p, VFloat w => Some (p, w)
  | _, _ => None
  end.

(** The terms shown by the indicators of a returned principle. *)
Fixpoint shown_terms (processed : dict) : list (float * float) :=
  match processed with
  | [] => []
  | kv :: rest =>
      if not_result kv then
        match shown_term (snd kv) with
        | Some t => t :: shown_terms rest
        | None => shown_terms rest
        end
      else shown_terms rest
  end.

(** Whether a returned principle has an entry under one of the keys
    [_max_for_group] reads. *)
Definition has_reserved_key (processed : dict) : bool :=
  match dict_get processed "indicators", dict_get processed "tests" with
  | None, None => false
  | _, _ => true
  end.

(** The same, read off the input: whether an object stands under one of
    the two keys. *)
Definition reserved (items : dict) : bool :=
  existsb (fun k => String.eqb k "indicators" || String.eqb k "tests")
    (object_keys items).

(** The aggregate of a list of terms: [round(s / w, 2) if w > 0 else
    0.0] over its two sums. *)
Definition aggregate_of (ts : list (float * float)) : float :=
  if (0 <? weight_sum ts)%float
  then round2 (weighted_sum ts / weight_sum ts)%float
  else 0%float.

(** Whether the summary and the indicator list of a principle can be
    built: its aggregate has an integer part and no entry stands under
    a reserved key. *)
Definition area_renders (principles : dict) (dim : string) : bool :=
  match dict_get principles dim, aggregate_points principles dim with
  | Some (VDict processed), Some f =>
      is_ok (int_of_float f) && negb (has_reserved_key processed)
  | _, _ => false
  end.

Definition is_unhandled (p : page) : bool :=
  match p with Unhandled _ => true | _ => false end.

Definition is_eval_html (p : page) : bool :=
  match p with EvalHtml _ => true | _ => false end.

Definition is_redirect (o : outcome) : bool :=
  match o with RedirectIndex => true | _ => false end.

(** The page of a call of [evaluator_page]. *)
Definition page_of (r : Settings * list event * page) : page := snd r.

Definition is_uncaught (o : outcome) : bool :=
  match o with Uncaught _ => true | _ => false end.

Definition is_scored (o : outcome) : bool :=
  match o with Scored _ _ _ => true | _ => false end.

(** A value [compute_scores] returns on. *)
Definition wf_value (v : value) : bool :=
  match v with
  | VDict d => wf_document d
  | _ => false
  end.

Definition blank (s : string) : bool :=
  forallb is_space (list_ascii_of_string s).

(** A string of [n] slashes. *)
Fixpoint slashes (n : nat) : string :=
  match n with
  | O => EmptyString
  | S n' => String "/"%char (slashes n')
  end.

(** How an option of [main] bears on a setting: the setting is left
    alone when the option is not given or is given as [empty], and is
    the option's value otherwise. *)
Definition option_applied {A : Type} (empty : A) (given : option A)
    (default after : A) : Prop :=
  (given = None -> after = default)
  /\ (given = Some empty -> after = default)
  /\ (forall a, given = Some a -> a <> empty -> after = a).

Definition with_api_url (cfg : Settings) (url : string) : Settings :=
  mkSettings url (api_port cfg) (title cfg) (logo_url cfg) (logo_image cfg)
    (dev_mode cfg) (sample_file cfg).

(** Documents for the witnesses: an indicator stored under the key
    ["tests"], and points whose product with the weight overflows. *)
Definition tests_key_doc : dict :=
  [("findable", VDict [("tests", Samples.indicator (VInt 80) (VInt 1))])].

Definition overflow_doc : dict :=
  [("findable",
    VDict [("f1", Samples.indicator (VFloat 1e308) (VFloat 1e308))])].

End Rest.

Import Py App Spec Samples.
Local Open Scope py_scope.

(** ** Comparisons of binary64 floats *)

Section FloatFacts.

Lemma SFcompare_Lt_swap (x y : spec_float) :
  SFcompare x y = Some Lt -> SFcompare y x = Some Gt.
Proof.
  destruct x as [sx | sx | | sx mx ex], y as [sy | sy | | sy my ey]; simpl;
    try discriminate; try (destruct sx; discriminate);
    try (destruct sy; (discriminate || reflexivity));
    try (destruct sx, sy; (discriminate || reflexivity)).
  change (PosDef.Pos.compare_cont Eq mx my) with (Pos.compare mx my).
  change (PosDef.Pos.compare_cont Eq my mx) with (Pos.compare my mx).
  rewrite (Z.compare_antisym ex ey), (Pos.compare_antisym mx my).
  destruct sx, sy; try discriminate; try reflexivity;
    destruct (ex ?= ey)%Z; simpl; try discriminate; try reflexivity;
    destruct (mx ?= my)%positive; simpl; (discriminate || reflexivity).
Qed.

Lemma ltb_not_leb (x y : float) :
  (x <? y)%float = true -> (y <=? x)%float = false.
Proof.
  rewrite ltb_spec, leb_spec. unfold SFltb, SFleb.
  destruct (SFcompare (Prim2SF x) (Prim2SF y)) as [[]|] eqn:E;
    try discriminate.
  intros _. rewrite (SFcompare_Lt_swap _ _ E). reflexivity.
Qed.

Lemma ltb_zero_not_eqb (x : float) :
  (0 <? x)%float = true -> (x =? 0)%float = false.
Proof.
  rewrite ltb_spec, FloatAxioms.eqb_spec. unfold SFltb, SFeqb.
  change (Prim2SF 0) with (S754_zero false).
  destruct (Prim2SF x) as [s | s | | s m e]; simpl; try discriminate;
    destruct s; (discriminate || reflexivity).
Qed.

Lemma eqb_zero_not_ltb (x : float) :
  (x =? 0)%float = true -> (0 <? x)%float = false.
Proof.
  intros H. destruct (0 <? x)%float eqn:E; [| reflexivity].
  apply ltb_zero_not_eqb in E. congruence.
Qed.

Lemma below_50_not_above_75 (x : float) :
  (x <? 50)%float = true -> (75 <=? x)%float = false.
Proof.
  rewrite ltb_spec, leb_spec. unfold SFltb, SFleb.
  replace (Prim2SF 50) with (S754_finite false 7036874417766400 (-47))
    by (vm_compute; reflexivity).
  replace (Prim2SF 75) with (S754_finite false 5277655813324800 (-46))
    by (vm_compute; reflexivity).
  destruct (Prim2SF x) as [s | s | | s m e]; unfold SFcompare.
  - intros _. reflexivity.
  - destruct s; [intros _; reflexivity | discriminate].
  - discriminate.
  - destruct s; [intros _; reflexivity |].
    destruct (e ?= -47)%Z eqn:E; try discriminate.
    + apply Z.compare_eq in E. subst e. intros _. reflexivity.
    + intros _. rewrite Z.compare_lt_iff in E.
      assert (H : (-46 ?= e)%Z = Gt) by (apply Z.compare_gt_iff; lia).
      rewrite H. reflexivity.
Qed.

End FloatFacts.

(** ** Dictionaries *)

Section DictFacts.

Lemma dict_get_set_same (d : dict) (k : string) (v : value) :
  dict_get (dict_set d k v) k = Some v.
Proof.
  induction d as [| [k' v'] d IH]; simpl.
  - rewrite String.eqb_refl. reflexivity.
  - destruct (String.eqb k k') eqn:E; simpl; rewrite E; [reflexivity | exact IH].
Qed.

Lemma dict_get_set_other (d : dict) (k k' : string) (v : value) :
  k <> k' -> dict_get (dict_set d k' v) k = dict_get d k.
Proof.
  intros Hne. induction d as [| [k0 v0] d IH]; simpl.
  - destruct (String.eqb_spec k k'); [contradiction | reflexivity].
  - destruct (String.eqb_spec k' k0) as [-> | Hk0]; simpl.
    + destruct (String.eqb_spec k k0); [contradiction | reflexivity].
    + destruct (String.eqb_spec k k0); [reflexivity | exact IH].
Qed.

Lemma dict_get_none_iff (d : dict) (k : string) :
  dict_get d k = None <-> ~ In k (map fst d).
Proof.
  induction d as [| [k' v'] d IH]; simpl.
  - tauto.
  - destruct (String.eqb_spec k k') as [-> | Hne].
    + split; [discriminate | intros H; exfalso; apply H; now left].
    + rewrite IH. split.
      * intros H [Heq | Hin]; [congruence | contradiction].
      * intros H Hin. apply H. now right.
Qed.

End DictFacts.

(** ** The aggregate of a pair of sums *)

Section Aggregate.

(** The guard [w > 0] keeps the division from raising. *)
Lemma aggregate_value (points_sum weight_sum : float) :
  aggregate points_sum weight_sum =
  Ok (if (0 <? weight_sum)%float then round2 (points_sum / weight_sum)
      else 0%float).
Proof.
  unfold aggregate, truediv.
  destruct (0 <? weight_sum)%float eqn:E; [| reflexivity].
  rewrite (ltb_zero_not_eqb _ E). reflexivity.
Qed.

Lemma aggregate_zero_weight (points_sum weight_sum : float) :
  (weight_sum =? 0)%float = true -> aggregate points_sum weight_sum = Ok 0%float.
Proof.
  intros H. rewrite aggregate_value, (eqb_zero_not_ltb _ H). reflexivity.
Qed.

End Aggregate.

(** ** The inner loop *)

Section InnerLoop.

Lemma is_ok_bind {A B : Type} (r : result A) (k : A -> result B) :
  is_ok (bind r k) = match r with Ok a => is_ok (k a) | Raise _ => false end.
Proof. destruct r; reflexivity. Qed.

Lemma is_ok_true {A : Type} (r : result A) :
  is_ok r = true -> exists a, r = Ok a.
Proof. destruct r as [a | e]; [eauto | discriminate]. Qed.

Lemma message_texts_returns (messages : list value) :
  is_ok (message_texts messages) = forallb is_dict messages.
Proof.
  induction messages as [| m ms IH]; [reflexivity |].
  destruct m; try reflexivity.
  cbn [message_texts forallb is_dict andb]. rewrite is_ok_bind, <- IH.
  destruct (message_texts ms); reflexivity.
Qed.

Lemma message_texts_of_dicts (ms : list dict) :
  message_texts (map VDict ms) =
  Ok (map (fun m => get_default m "message" (VStr "")) ms).
Proof.
  induction ms as [| m ms IH]; [reflexivity |].
  cbn [map message_texts]. rewrite IH. reflexivity.
Qed.

Lemma coerce_returns (v : value) :
  is_ok (py_float (py_or v (VFloat 0))) = coercible v.
Proof.
  unfold py_or.
  destruct v as [| b | z | f | s | l | d]; cbn [truthy coercible].
  - reflexivity.
  - destruct b; reflexivity.
  - destruct (Z.eqb_spec z 0) as [-> | Hz]; cbn [negb py_float].
    + reflexivity.
    + destruct (float_of_int z); reflexivity.
  - destruct (f =? 0)%float; reflexivity.
  - destruct (String.eqb s ""); cbn [negb py_float orb]; [reflexivity |].
    destruct (float_of_str s); reflexivity.
  - destruct l; reflexivity.
  - destruct d; reflexivity.
Qed.

Lemma format_msg_returns (test : dict) :
  is_ok (format_msg test) =
  match get_or_none test "msg" with
  | VList messages => forallb is_dict messages
  | _ => true
  end.
Proof.
  unfold format_msg. destruct (get_or_none test "msg"); try reflexivity.
  rewrite is_ok_bind, <- message_texts_returns.
  destruct (message_texts l); reflexivity.
Qed.

Lemma weight_of_returns (test : dict) :
  is_ok (weight_of test) =
  match get_default test "score" (VDict []) with
  | VDict score => coercible (get_default score "weight" (VFloat 0))
  | _ => false
  end.
Proof.
  unfold weight_of.
  destruct (get_default test "score" (VDict [])); try reflexivity.
  apply coerce_returns.
Qed.

(** An indicator is processed exactly when it is well formed. *)
Lemma process_test_returns (key : string) (test : dict) :
  is_ok (process_test key test) = wf_test test.
Proof.
  unfold process_test, wf_test.
  rewrite <- (coerce_returns (get_default test "points" (VFloat 0))).
  rewrite <- weight_of_returns, <- format_msg_returns.
  fold (points_of test).
  destruct (points_of test); [| reflexivity].
  destruct (weight_of test); [| reflexivity].
  destruct (format_msg test); reflexivity.
Qed.

Lemma process_items_returns (items : dict) (st : dict * float * float) :
  is_ok (process_items items st) = wf_items items.
Proof.
  revert st. induction items as [| [key v] items IH]; intros st.
  - reflexivity.
  - unfold wf_items in *. cbn [forallb]. unfold wf_item at 1. cbn [snd].
    destruct v; cbn [process_items]; try (rewrite IH; reflexivity).
    rewrite is_ok_bind, <- (process_test_returns key d).
    destruct (process_test key d) as [[[entry p] w] |]; [| reflexivity].
    destruct st as [[processed ps] ws]. cbn [is_ok andb]. apply IH.
Qed.

(** The two sums the loop leaves are the left-to-right sums over the
    indicators' terms. *)
Lemma process_test_terms (key : string) (test : dict) (entry : value)
    (p w : float) :
  process_test key test = Ok (entry, p, w) ->
  points_of test = Ok p /\ weight_of test = Ok w.
Proof.
  unfold process_test.
  destruct (points_of test) as [p' |]; [| discriminate].
  destruct (weight_of test) as [w' |]; [| discriminate].
  destruct (format_msg test); [| discriminate].
  cbn [bind]. intros H. injection H as _ -> ->. split; reflexivity.
Qed.

Lemma process_items_sums (items : dict) :
  forall processed ps ws processed' ps' ws',
    process_items items (processed, ps, ws) = Ok (processed', ps', ws') ->
    exists ts,
      indicator_terms items = Ok ts
      /\ ps' = weighted_sum_from ps ts
      /\ ws' = weight_sum_from ws ts.
Proof.
  induction items as [| [key v] items IH]; intros processed ps ws processed' ps' ws'.
  - cbn [process_items]. intros H. injection H as _ <- <-. now exists [].
  - destruct v; cbn [process_items indicator_terms]; try apply IH.
    destruct (process_test key d) as [[[entry p] w] |] eqn:Ht; [| discriminate].
    destruct (process_test_terms _ _ _ _ _ Ht) as [-> ->].
    cbn [bind]. intros H. destruct (IH _ _ _ _ _ _ H) as (ts & -> & -> & ->).
    exists ((p, w) :: ts). repeat split.
Qed.

End InnerLoop.

(** ** One principle, and the whole document *)

Section Principles.

Lemma items_of_falsy (data : dict) (dim : string) :
  truthy (get_default data dim (VDict [])) = false ->
  items_of data dim = Ok [].
Proof. unfold items_of, py_or. intros ->. reflexivity. Qed.

Lemma items_of_dict (data : dict) (dim : string) (items : dict) :
  get_default data dim (VDict []) = VDict items ->
  items_of data dim = Ok items.
Proof.
  unfold items_of, py_or. intros ->. destruct items; reflexivity.
Qed.

Lemma process_principle_returns (data : dict) (dim : string) :
  is_ok (process_principle data dim) =
  wf_principle (get_default data dim (VDict [])).
Proof.
  unfold process_principle.
  assert (Hloop : forall items,
    is_ok ('(processed, points_sum, weight_sum) <-
             process_items items ([], 0%float, 0%float) ;;
           result_points <- aggregate points_sum weight_sum ;;
           Ok (dict_set processed "result" (result_entry result_points),
               points_sum, weight_sum)) = wf_items items).
  { intros items. rewrite is_ok_bind, <- (process_items_returns items ([], 0%float, 0%float)).
    destruct (process_items items _) as [[[processed ps] ws] |]; [| reflexivity].
    rewrite aggregate_value. reflexivity. }
  destruct (get_default data dim (VDict [])) as [| b | z | f | s | l | d] eqn:E.
  - rewrite items_of_falsy by (rewrite E; reflexivity). apply Hloop.
  - destruct b.
    + unfold items_of, py_or. rewrite E. reflexivity.
    + rewrite items_of_falsy by (rewrite E; reflexivity). apply Hloop.
  - unfold wf_principle. destruct (truthy (VInt z)) eqn:T.
    + unfold items_of, py_or. rewrite E, T. reflexivity.
    + rewrite items_of_falsy by (rewrite E; exact T). apply Hloop.
  - unfold wf_principle. destruct (truthy (VFloat f)) eqn:T.
    + unfold items_of, py_or. rewrite E, T. reflexivity.
    + rewrite items_of_falsy by (rewrite E; exact T). apply Hloop.
  - unfold wf_principle. destruct (truthy (VStr s)) eqn:T.
    + unfold items_of, py_or. rewrite E, T. reflexivity.
    + rewrite items_of_falsy by (rewrite E; exact T). apply Hloop.
  - unfold wf_principle. destruct (truthy (VList l)) eqn:T.
    + unfold items_of, py_or. rewrite E, T. reflexivity.
    + rewrite items_of_falsy by (rewrite E; exact T). apply Hloop.
  - rewrite (items_of_dict _ _ _ E). apply Hloop.
Qed.

(** What one pass of the outer loop leaves for its principle. *)
Lemma process_principle_inv (data : dict) (dim : string)
    (processed : dict) (ps ws : float) :
  process_principle data dim = Ok (processed, ps, ws) ->
  exists items processed0 ts,
    items_of data dim = Ok items
    /\ process_items items ([], 0%float, 0%float) = Ok (processed0, ps, ws)
    /\ indicator_terms items = Ok ts
    /\ ps = weighted_sum ts
    /\ ws = weight_sum ts
    /\ processed =
       dict_set processed0 "result"
         (result_entry (if (0 <? ws)%float then round2 (ps / ws)
                        else 0%float)).
Proof.
  unfold process_principle.
  destruct (items_of data dim) as [items |]; [| discriminate].
  cbn [bind].
  destruct (process_items items _) as [[[processed0 ps0] ws0] |] eqn:Hp;
    [| discriminate].
  cbn [bind]. rewrite aggregate_value. cbn [bind].
  intros H. injection H as <- <- <-.
  destruct (process_items_sums _ _ _ _ _ _ _ Hp) as (ts & Hts & Hps & Hws).
  exists items, processed0, ts. repeat split; assumption.
Qed.

Lemma principle_terms_of (data : dict) (dim : string) (items : dict)
    (ts : list (float * float)) :
  items_of data dim = Ok items -> indicator_terms items = Ok ts ->
  principle_terms data dim = Ok ts.
Proof. unfold principle_terms. intros -> H. exact H. Qed.

(** The four passes of the outer loop, written out. *)
Lemma compute_scores_inv (data : dict) (principles : dict) (fair_points : float)
    (fair_color : string) :
  compute_scores (VDict data) = Ok (principles, fair_points, fair_color) ->
  exists pf sf wf pa sa wa pi si wi pr sr wr,
    process_principle data "findable" = Ok (pf, sf, wf)
    /\ process_principle data "accessible" = Ok (pa, sa, wa)
    /\ process_principle data "interoperable" = Ok (pi, si, wi)
    /\ process_principle data "reusable" = Ok (pr, sr, wr)
    /\ principles =
       [("findable", VDict pf); ("accessible", VDict pa);
        ("interoperable", VDict pi); ("reusable", VDict pr)]
    /\ aggregate (0 + sf + sa + si + sr)%float (0 + wf + wa + wi + wr)%float
       = Ok fair_points
    /\ fair_color = colour_for fair_points.
Proof.
  unfold compute_scores, dims. cbn [principles_loop].
  destruct (process_principle data "findable") as [[[pf sf] wf] |];
    [| discriminate].
  destruct (process_principle data "accessible") as [[[pa sa] wa] |];
    [| discriminate].
  destruct (process_principle data "interoperable") as [[[pi si] wi] |];
    [| discriminate].
  destruct (process_principle data "reusable") as [[[pr sr] wr] |];
    [| discriminate].
  cbn [bind].
  destruct (aggregate _ _) as [fp |] eqn:Ha; [| discriminate].
  cbn [bind]. intros H. injection H as <- <- <-.
  exists pf, sf, wf, pa, sa, wa, pi, si, wi, pr, sr, wr.
  repeat split; try reflexivity. exact Ha.
Qed.

Lemma compute_scores_returns (data : dict) :
  is_ok (compute_scores (VDict data)) = wf_document data.
Proof.
  unfold compute_scores, wf_document, dims. cbn [principles_loop forallb].
  rewrite <- !process_principle_returns.
  destruct (process_principle data "findable") as [[[pf sf] wf] |];
    [| reflexivity].
  destruct (process_principle data "accessible") as [[[pa sa] wa] |];
    [| reflexivity].
  destruct (process_principle data "interoperable") as [[[pi si] wi] |];
    [| reflexivity].
  destruct (process_principle data "reusable") as [[[pr sr] wr] |];
    [| reflexivity].
  cbn [bind]. rewrite aggregate_value. reflexivity.
Qed.

End Principles.

(** ** The overall score *)

Section OverallScore.

(** C1, as stated, fails: the overall score is the guarded quotient, so
    with a total weight of -1 it is 0.0 while the weighted average of the
    only indicator is 100.0, and on the empty document it is 0.0 while
    the quotient 0/0 is NaN. *)
Lemma overall_score_guard_counterexample :
  fair_points_of (compute_scores (VDict negative_weight_doc)) = Some 0%float
  /\ principle_terms negative_weight_doc "findable" = Ok [(100, -1)%float]
  /\ principle_terms negative_weight_doc "accessible" = Ok []
  /\ principle_terms negative_weight_doc "interoperable" = Ok []
  /\ principle_terms negative_weight_doc "reusable" = Ok []
  /\ global_weighted_average [[(100, -1)%float]; []; []; []] = 100%float
  /\ (0 =? 100)%float = false
  /\ fair_points_of (compute_scores (VDict [])) = Some 0%float
  /\ global_weighted_average [[]; []; []; []] = nan
  /\ (0 =? nan)%float = false.
Proof. repeat split; vm_compute; reflexivity. Qed.

(** C1 (amended): whenever [compute_scores] returns, the overall score
    is 0.0 unless the total weight is positive, and then it is the
    global weighted average: the sum over the four principles of the
    sums of points times weight, divided by the sum of the weights and
    rounded to two places. On the asymmetric sample it is
    round(1000/13, 2) = 76.92, while the mean of the four aggregates
    is 25. *)
Theorem overall_score_is_global_weighted_average :
  (forall (data principles : dict) (fair_points : float) (fair_color : string),
      compute_scores (VDict data) = Ok (principles, fair_points, fair_color) ->
      exists tf ta ti tr,
        principle_terms data "findable" = Ok tf
        /\ principle_terms data "accessible" = Ok ta
        /\ principle_terms data "interoperable" = Ok ti
        /\ principle_terms data "reusable" = Ok tr
        /\ fair_points =
           (if (0 <? total_weight [tf; ta; ti; tr])%float
            then global_weighted_average [tf; ta; ti; tr]
            else 0%float))
  /\ fair_points_of (compute_scores (VDict asymmetric_doc))
     = Some (round2 (1000 / 13)%float)
  /\ round2 (1000 / 13)%float = 76.92%float
  /\ option_map mean_of_aggregates
       (principles_of (compute_scores (VDict asymmetric_doc)))
     = Some (Some 25%float)
  /\ (76.92 =? 25)%float = false.
Proof.
  split; [| repeat split; vm_compute; reflexivity].
  intros data principles fair_points fair_color H.
  destruct (compute_scores_inv _ _ _ _ H)
    as (pf & sf & wf & pa & sa & wa & pi & si & wi & pr & sr & wr
        & Hf & Ha & Hi & Hr & _ & Hagg & _).
  destruct (process_principle_inv _ _ _ _ _ Hf)
    as (itf & _ & tf & Hif & _ & Htf & -> & -> & _).
  destruct (process_principle_inv _ _ _ _ _ Ha)
    as (ita & _ & ta & Hia & _ & Hta & -> & -> & _).
  destruct (process_principle_inv _ _ _ _ _ Hi)
    as (iti & _ & ti & Hii & _ & Hti & -> & -> & _).
  destruct (process_principle_inv _ _ _ _ _ Hr)
    as (itr & _ & tr & Hir & _ & Htr & -> & -> & _).
  exists tf, ta, ti, tr.
  repeat split; try (eapply principle_terms_of; eassumption).
  rewrite aggregate_value in Hagg. injection Hagg as <-. reflexivity.
Qed.

(** The amended statement at the asymmetric sample. *)
Lemma overall_score_asymmetric_witness :
  exists tf ta ti tr,
    principle_terms asymmetric_doc "findable" = Ok tf
    /\ principle_terms asymmetric_doc "accessible" = Ok ta
    /\ principle_terms asymmetric_doc "interoperable" = Ok ti
    /\ principle_terms asymmetric_doc "reusable" = Ok tr
    /\ 76.92%float =
       (if (0 <? total_weight [tf; ta; ti; tr])%float
        then global_weighted_average [tf; ta; ti; tr]
        else 0%float).
Proof.
  eapply (proj1 overall_score_is_global_weighted_average asymmetric_doc).
  vm_compute. reflexivity.
Defined.

End OverallScore.

(** ** When [compute_scores] returns *)

Section Totality.

Lemma process_items_skip (items1 items2 : dict) (key : string) (v : value)
    (st : dict * float * float) :
  is_dict v = false ->
  process_items (items1 ++ (key, v) :: items2)%list st =
  process_items (items1 ++ items2)%list st.
Proof.
  intros Hv. revert st.
  induction items1 as [| [k1 v1] items1 IH]; intros st.
  - destruct v; try reflexivity. discriminate.
  - cbn [app]. destruct v1; cbn [process_items]; try apply IH.
    destruct (process_test k1 d) as [[[entry p] w] |]; [| reflexivity].
    destruct st as [[processed ps] ws]. cbn [bind]. apply IH.
Qed.

Lemma points_of_falsy (test : dict) :
  truthy (get_default test "points" (VFloat 0)) = false ->
  points_of test = Ok 0%float.
Proof. unfold points_of, py_or. intros ->. reflexivity. Qed.

Lemma weight_of_absent (test : dict) :
  dict_get test "score" = None -> weight_of test = Ok 0%float.
Proof. unfold weight_of, get_default. intros ->. reflexivity. Qed.

(** C2, as stated, fails: a [msg] that is a list of plain strings, a
    [score] that is [null], [points] that are not numeric text and
    [points] that are a list each make [compute_scores] raise. *)
Lemma compute_scores_raises_counterexample :
  compute_scores (VDict plain_msg_doc) = Raise AttributeError
  /\ compute_scores (VDict null_score_doc) = Raise AttributeError
  /\ compute_scores (VDict bad_points_doc) = Raise ValueError
  /\ compute_scores (VDict list_points_doc) = Raise TypeError.
Proof. repeat split; vm_compute; reflexivity. Qed.

(** C2 (amended): [compute_scores] returns exactly on the well-formed
    documents: each principle absent, falsy or a mapping; in each
    indicator that is an object, [points] and [weight] absent, falsy or
    accepted by [float], [score] absent or an object, and [msg] not a
    list or a list of objects. An entry that is not an object is
    skipped; absent or falsy [points] and an absent [score] count as
    0.0. *)
Theorem compute_scores_returns_iff_wellformed :
  (forall data : dict, is_ok (compute_scores (VDict data)) = wf_document data)
  /\ (forall data : dict, wf_document data = true ->
        exists principles fair_points fair_color,
          compute_scores (VDict data)
          = Ok (principles, fair_points, fair_color))
  /\ (forall (items1 items2 : dict) (key : string) (v : value)
        (st : dict * float * float),
        is_dict v = false ->
        process_items (items1 ++ (key, v) :: items2)%list st
        = process_items (items1 ++ items2)%list st)
  /\ (forall test : dict,
        truthy (get_default test "points" (VFloat 0)) = false ->
        points_of test = Ok 0%float)
  /\ (forall test : dict,
        dict_get test "score" = None -> weight_of test = Ok 0%float).
Proof.
  split; [exact compute_scores_returns |].
  split.
  - intros data Hwf. rewrite <- compute_scores_returns in Hwf.
    destruct (is_ok_true _ Hwf) as [[[principles fp] fc] H].
    now exists principles, fp, fc.
  - split; [exact process_items_skip |].
    split; [exact points_of_falsy | exact weight_of_absent].
Qed.

(** The amended statement at a sparse document: it returns, and its
    entry that is not an object contributes nothing. *)
Lemma compute_scores_sparse_witness :
  (exists principles fair_points fair_color,
      compute_scores (VDict sparse_doc)
      = Ok (principles, fair_points, fair_color))
  /\ process_items [("note", VStr "n/a"); ("f1", VDict [])]
       ([], 0%float, 0%float)
     = process_items [("f1", VDict [])] ([], 0%float, 0%float)
  /\ points_of [] = Ok 0%float
  /\ weight_of [] = Ok 0%float.
Proof.
  pose proof compute_scores_returns_iff_wellformed
    as (_ & Hret & Hskip & Hpoints & Hweight).
  split; [apply Hret; reflexivity |].
  split; [apply (Hskip [] [("f1", VDict [])] "note" (VStr "n/a")); reflexivity |].
  split; [apply Hpoints | apply Hweight]; reflexivity.
Defined.

End Totality.

(** ** Messages *)

Section Messages.

Lemma format_msg_list_of_dicts (test : dict) (ms : list dict) :
  get_or_none test "msg" = VList (map VDict ms) ->
  format_msg test
  = Ok (VList (map (fun m => get_default m "message" (VStr "")) ms)).
Proof.
  unfold format_msg. intros ->. rewrite message_texts_of_dicts. reflexivity.
Qed.

Lemma format_msg_absent (test : dict) :
  dict_get test "msg" = None -> format_msg test = Ok (VList []).
Proof.
  unfold format_msg, get_or_none, get_default. intros ->. reflexivity.
Qed.

Lemma format_msg_scalar (test : dict) :
  is_list (get_or_none test "msg") = false ->
  format_msg test
  = Ok (if truthy (get_or_none test "msg") then get_or_none test "msg"
        else VList []).
Proof.
  unfold format_msg, py_or.
  destruct (get_or_none test "msg"); try reflexivity. discriminate.
Qed.

Lemma process_test_msg (key : string) (test : dict) (entry : value)
    (p w : float) :
  process_test key test = Ok (entry, p, w) ->
  exists m, format_msg test = Ok m /\ msg_of_entry entry = Some m.
Proof.
  unfold process_test.
  destruct (points_of test); [| discriminate].
  destruct (weight_of test); [| discriminate].
  destruct (format_msg test) as [m |]; [| discriminate].
  cbn [bind]. intros H. injection H as <- _ _. exists m. split; reflexivity.
Qed.

(** C3, as stated, fails: a [msg] that is the string "A" is stored as
    that string, not as a list. *)
Lemma msg_scalar_counterexample :
  stored_msg (process_test "f1" scalar_msg_test) = Some (VStr "A")
  /\ is_list (VStr "A") = false
  /\ option_map (fun p => indicator_entry p "findable" "f1")
       (principles_of (compute_scores (VDict (single scalar_msg_test))))
     = Some (Some (VDict
                     [("name", VStr "f1"); ("name_smart", VStr "f1");
                      ("points", VFloat 0);
                      ("score", VDict [("weight", VFloat 0)]);
                      ("color", VStr red); ("test_status", VStr "");
                      ("msg", VStr "A")])).
Proof. repeat split; vm_compute; reflexivity. Qed.

(** C3 (amended): the [msg] stored for a processed indicator is the
    value of [format_msg]: for a list of objects, the list of their
    [message] fields ("" where one is missing); for an absent [msg],
    the empty list; for any other value that is not a list, that value
    unchanged when truthy and the empty list otherwise. So
    [{"message": "A"}, {"message": "B"}] yields ["A", "B"], and "A"
    yields "A". *)
Theorem msg_normalisation :
  forall test : dict,
    (forall ms : list dict,
        get_or_none test "msg" = VList (map VDict ms) ->
        format_msg test
        = Ok (VList (map (fun m => get_default m "message" (VStr "")) ms)))
    /\ (dict_get test "msg" = None -> format_msg test = Ok (VList []))
    /\ (is_list (get_or_none test "msg") = false ->
        format_msg test
        = Ok (if truthy (get_or_none test "msg") then get_or_none test "msg"
              else VList []))
    /\ (forall (key : string) (entry : value) (p w : float),
          process_test key test = Ok (entry, p, w) ->
          exists m, format_msg test = Ok m /\ msg_of_entry entry = Some m).
Proof.
  intros test. split; [exact (format_msg_list_of_dicts test) |].
  split; [exact (format_msg_absent test) |].
  split; [exact (format_msg_scalar test) | exact (fun key => process_test_msg key test)].
Qed.

(** The amended statement at the three shapes of [msg]. *)
Lemma msg_normalisation_witness :
  format_msg messages_test = Ok (VList [VStr "A"; VStr "B"])
  /\ format_msg [] = Ok (VList [])
  /\ format_msg scalar_msg_test = Ok (VStr "A")
  /\ exists m, format_msg messages_test = Ok m
               /\ msg_of_entry
                    (VDict
                       [("name", VStr "f1"); ("name_smart", VStr "f1");
                        ("points", VFloat 0);
                        ("score", VDict [("weight", VFloat 0)]);
                        ("color", VStr red); ("test_status", VStr "");
                        ("msg", VList [VStr "A"; VStr "B"])]) = Some m.
Proof.
  split.
  { apply (proj1 (msg_normalisation messages_test)
             [[("message", VStr "A")]; [("message", VStr "B")]]).
    reflexivity. }
  split.
  { apply (proj1 (proj2 (msg_normalisation []))). reflexivity. }
  split.
  { apply (proj1 (proj2 (proj2 (msg_normalisation scalar_msg_test)))).
    reflexivity. }
  apply (proj2 (proj2 (proj2 (msg_normalisation messages_test)))
           "f1" _ 0%float 0%float).
  reflexivity.
Defined.

End Messages.

(** ** Colour bands *)

Section Colours.

Lemma colour_for_green (v : float) :
  (75 <=? v)%float = true -> colour_for v = green.
Proof. unfold colour_for. intros ->. reflexivity. Qed.

Lemma colour_for_yellow (v : float) :
  (50 <=? v)%float = true -> (v <? 75)%float = true -> colour_for v = yellow.
Proof.
  unfold colour_for. intros H50 H75.
  rewrite (ltb_not_leb _ _ H75), H50. reflexivity.
Qed.

Lemma colour_for_red (v : float) :
  (v <? 50)%float = true -> colour_for v = red.
Proof.
  unfold colour_for. intros H.
  rewrite (below_50_not_above_75 _ H), (ltb_not_leb _ _ H). reflexivity.
Qed.

Lemma process_test_colour (key : string) (test : dict) (entry : value)
    (p w : float) :
  process_test key test = Ok (entry, p, w) ->
  exists e, entry = VDict e
    /\ dict_get e "color"
       = Some (py_or (get_or_none test "color") (VStr (colour_for p))).
Proof.
  unfold process_test.
  destruct (points_of test) as [p' |]; [| discriminate].
  destruct (weight_of test) as [w' |]; [| discriminate].
  destruct (format_msg test) as [m |]; [| discriminate].
  cbn [bind]. intros H. injection H as <- <- <-.
  eexists. split; reflexivity.
Qed.

(** C7: the bands are closed below: 75 and above is green, from 50 up to
    but not including 75 is yellow, below 50 is red; so 75.0 is green,
    74.99 and 50.0 are yellow and 49.99 is red. The same function colours
    an indicator that brings no colour of its own, each principle's
    aggregate and the overall score. *)
Theorem colour_bands_closed_at_thresholds :
  (forall v : float,
      ((75 <=? v)%float = true -> colour_for v = green)
      /\ ((50 <=? v)%float = true -> (v <? 75)%float = true ->
          colour_for v = yellow)
      /\ ((v <? 50)%float = true -> colour_for v = red))
  /\ colour_for 75%float = green
  /\ colour_for 74.99%float = yellow
  /\ colour_for 50%float = yellow
  /\ colour_for 49.99%float = red
  /\ (forall (key : string) (test : dict) (entry : value) (p w : float),
        process_test key test = Ok (entry, p, w) ->
        exists e, entry = VDict e
          /\ dict_get e "color"
             = Some (py_or (get_or_none test "color") (VStr (colour_for p))))
  /\ (forall (data : dict) (dim : string) (processed : dict) (ps ws : float),
        process_principle data dim = Ok (processed, ps, ws) ->
        exists points,
          dict_get processed "result"
          = Some (VDict [("points", VFloat points);
                         ("color", VStr (colour_for points))]))
  /\ (forall (data : value) (principles : dict) (fair_points : float)
        (fair_color : string),
        compute_scores data = Ok (principles, fair_points, fair_color) ->
        fair_color = colour_for fair_points).
Proof.
  split.
  { intros v. split; [apply colour_for_green |].
    split; [apply colour_for_yellow | apply colour_for_red]. }
  do 4 (split; [vm_compute; reflexivity |]).
  split; [exact process_test_colour |].
  split.
  - intros data dim processed ps ws H.
    destruct (process_principle_inv _ _ _ _ _ H)
      as (items & processed0 & ts & _ & _ & _ & _ & _ & ->).
    eexists. apply dict_get_set_same.
  - intros data principles fair_points fair_color H.
    destruct data; try discriminate.
    destruct (compute_scores_inv _ _ _ _ H)
      as (pf & sf & wf & pa & sa & wa & pi & si & wi & pr & sr & wr
          & _ & _ & _ & _ & _ & _ & Hc).
    exact Hc.
Qed.

(** The bands at 80, 60 and 10. *)
Lemma colour_bands_witness :
  colour_for 80%float = green
  /\ colour_for 60%float = yellow
  /\ colour_for 10%float = red.
Proof.
  pose proof (proj1 colour_bands_closed_at_thresholds) as H.
  split; [apply (proj1 (H 80%float)); reflexivity |].
  split; [apply (proj1 (proj2 (H 60%float))); reflexivity |].
  apply (proj2 (proj2 (H 10%float))); reflexivity.
Defined.

End Colours.

(** ** A principle without weight *)

Section ZeroWeight.

(** A float that compares equal to zero is one of the two zeros. *)
Lemma eqb_zero_cases (x : float) :
  (x =? 0)%float = true -> x = 0%float \/ x = (-0)%float.
Proof.
  rewrite FloatAxioms.eqb_spec. unfold SFeqb.
  change (Prim2SF 0) with (S754_zero false).
  intros H. rewrite <- (SF2Prim_Prim2SF x).
  destruct (Prim2SF x) as [s | s | | s m e]; cbn in H; try discriminate.
  - destruct s; [right | left]; reflexivity.
  - destruct s; discriminate.
  - destruct s; discriminate.
Qed.

Lemma weight_sum_all_zero (ts : list (float * float)) :
  Forall (fun t => (snd t =? 0)%float = true) ts ->
  weight_sum ts = 0%float.
Proof.
  unfold weight_sum, weight_sum_from.
  induction 1 as [| [p w] ts Hw _ IH]; [reflexivity |].
  cbn [fold_left snd] in *.
  destruct (eqb_zero_cases _ Hw) as [-> | ->]; exact IH.
Qed.

Lemma process_principle_of_empty (data : dict) (dim : string) :
  items_of data dim = Ok [] ->
  process_principle data dim
  = Ok ([("result", result_entry 0)], 0%float, 0%float).
Proof. unfold process_principle. intros ->. reflexivity. Qed.

Lemma process_principle_terms (data : dict) (dim : string) (processed : dict)
    (ps ws : float) (ts : list (float * float)) :
  process_principle data dim = Ok (processed, ps, ws) ->
  principle_terms data dim = Ok ts ->
  ps = weighted_sum ts /\ ws = weight_sum ts.
Proof.
  intros H Hts.
  destruct (process_principle_inv _ _ _ _ _ H)
    as (items & _ & ts' & Hi & _ & Hts' & -> & -> & _).
  rewrite (principle_terms_of _ _ _ _ Hi Hts') in Hts.
  injection Hts as <-. split; reflexivity.
Qed.

Lemma process_principle_zero_weight (data : dict) (dim : string)
    (processed : dict) (ps ws : float) (ts : list (float * float)) :
  process_principle data dim = Ok (processed, ps, ws) ->
  principle_terms data dim = Ok ts ->
  (weight_sum ts =? 0)%float = true ->
  dict_get processed "result"
  = Some (VDict [("points", VFloat 0); ("color", VStr "#E74C3C")]).
Proof.
  intros H Hts Hz.
  destruct (process_principle_terms _ _ _ _ _ _ H Hts) as [_ Hws].
  destruct (process_principle_inv _ _ _ _ _ H)
    as (items & processed0 & ts' & _ & _ & _ & _ & _ & ->).
  rewrite Hws, (eqb_zero_not_ltb _ Hz). apply dict_get_set_same.
Qed.

(** C8: in the mapping [compute_scores] returns, a principle whose
    accumulated weight compares equal to zero has under ["result"] the
    points 0.0 and the colour red, [#E74C3C]. The accumulated weight is
    0.0 when the principle has no indicators and when all their weights
    are zero. On a document whose entries are well formed
    [compute_scores] returns, with this entry for every such principle:
    the zero weight makes nothing raise. *)
Theorem zero_weight_principle_is_zero_red :
  (forall (data principles : dict) (fair_points : float)
          (fair_color dim : string) (ts : list (float * float)),
      compute_scores (VDict data) = Ok (principles, fair_points, fair_color) ->
      In dim ["findable"; "accessible"; "interoperable"; "reusable"] ->
      principle_terms data dim = Ok ts ->
      (weight_sum ts =? 0)%float = true ->
      exists processed,
        dict_get principles dim = Some (VDict processed)
        /\ dict_get processed "result"
           = Some (VDict [("points", VFloat 0); ("color", VStr "#E74C3C")]))
  /\ (forall ts : list (float * float),
        Forall (fun t => (snd t =? 0)%float = true) ts ->
        weight_sum ts = 0%float)
  /\ (forall (data : dict) (dim : string) (ts : list (float * float)),
        wf_document data = true ->
        In dim ["findable"; "accessible"; "interoperable"; "reusable"] ->
        principle_terms data dim = Ok ts ->
        Forall (fun t => (snd t =? 0)%float = true) ts ->
        exists principles fair_points fair_color processed,
          compute_scores (VDict data)
          = Ok (principles, fair_points, fair_color)
          /\ dict_get principles dim = Some (VDict processed)
          /\ dict_get processed "result"
             = Some (VDict [("points", VFloat 0); ("color", VStr "#E74C3C")])).
Proof.
  assert (Hred : forall data principles fair_points fair_color dim ts,
    compute_scores (VDict data) = Ok (principles, fair_points, fair_color) ->
    In dim ["findable"; "accessible"; "interoperable"; "reusable"] ->
    principle_terms data dim = Ok ts ->
    (weight_sum ts =? 0)%float = true ->
    exists processed,
      dict_get principles dim = Some (VDict processed)
      /\ dict_get processed "result"
         = Some (VDict [("points", VFloat 0); ("color", VStr "#E74C3C")])).
  { intros data principles fair_points fair_color dim ts H Hdim Hts Hz.
    destruct (compute_scores_inv _ _ _ _ H)
      as (pf & sf & wf & pa & sa & wa & pi & si & wi & pr & sr & wr
          & Hf & Ha & Hi & Hr & -> & _ & _).
    destruct Hdim as [<- | [<- | [<- | [<- | []]]]].
    - exists pf. split; [reflexivity |].
      exact (process_principle_zero_weight _ _ _ _ _ _ Hf Hts Hz).
    - exists pa. split; [reflexivity |].
      exact (process_principle_zero_weight _ _ _ _ _ _ Ha Hts Hz).
    - exists pi. split; [reflexivity |].
      exact (process_principle_zero_weight _ _ _ _ _ _ Hi Hts Hz).
    - exists pr. split; [reflexivity |].
      exact (process_principle_zero_weight _ _ _ _ _ _ Hr Hts Hz). }
  split; [exact Hred |]. split; [exact weight_sum_all_zero |].
  intros data dim ts Hwf Hdim Hts Hall.
  rewrite <- compute_scores_returns in Hwf.
  destruct (is_ok_true _ Hwf) as [[[principles fair_points] fair_color] H].
  assert (Hz : (weight_sum ts =? 0)%float = true)
    by (rewrite (weight_sum_all_zero _ Hall); reflexivity).
  destruct (Hred _ _ _ _ _ _ H Hdim Hts Hz) as (processed & Hget & Hres).
  exists principles, fair_points, fair_color, processed.
  repeat split; assumption.
Qed.

End ZeroWeight.

Section ZeroWeightWitness.

(** C8 at the sample whose weights are 0 and -0.0, for the principle
    that holds them and for one that is absent. *)
Lemma zero_weight_witness :
  (exists principles fair_points fair_color processed,
      compute_scores (VDict zero_weight_doc)
      = Ok (principles, fair_points, fair_color)
      /\ dict_get principles "findable" = Some (VDict processed)
      /\ dict_get processed "result"
         = Some (VDict [("points", VFloat 0); ("color", VStr "#E74C3C")]))
  /\ (exists principles fair_points fair_color processed,
        compute_scores (VDict zero_weight_doc)
        = Ok (principles, fair_points, fair_color)
        /\ dict_get principles "reusable" = Some (VDict processed)
        /\ dict_get processed "result"
           = Some (VDict [("points", VFloat 0); ("color", VStr "#E74C3C")])).
Proof.
  pose proof zero_weight_principle_is_zero_red as (_ & _ & Hzero).
  split.
  - apply (Hzero zero_weight_doc "findable" [(90, 0); (60, 0)]%float);
      [reflexivity | cbn [In]; tauto | vm_compute; reflexivity
      | repeat constructor].
  - apply (Hzero zero_weight_doc "reusable" []);
      [reflexivity | cbn [In]; tauto | reflexivity | constructor].
Defined.

End ZeroWeightWitness.

(** ** The shape of the returned mapping *)

Section Shape.

(** An object of the principle contributes its term to the sums,
    whatever its key. *)
Lemma indicator_terms_counts (items : dict) (k : string) (test : dict) :
  forall ts,
    indicator_terms items = Ok ts ->
    dict_get items k = Some (VDict test) ->
    exists p w, points_of test = Ok p /\ weight_of test = Ok w /\ In (p, w) ts.
Proof.
  induction items as [| [k' v] items IH]; intros ts Hts Hget;
    [discriminate |].
  cbn [dict_get] in Hget. destruct (String.eqb k k').
  - injection Hget as ->. cbn [indicator_terms] in Hts.
    destruct (points_of test) as [p |]; [| discriminate].
    destruct (weight_of test) as [w |]; [| discriminate].
    cbn [bind] in Hts.
    destruct (indicator_terms items) as [ts' |]; [| discriminate].
    injection Hts as <-. exists p, w. repeat split. now left.
  - destruct v as [| b | z | f | s | l | d]; cbn [indicator_terms] in Hts;
      try (exact (IH _ Hts Hget)).
    destruct (points_of d) as [p0 |]; [| discriminate].
    destruct (weight_of d) as [w0 |]; [| discriminate].
    cbn [bind] in Hts.
    destruct (indicator_terms items) as [ts' |]; [| discriminate].
    injection Hts as <-.
    destruct (IH _ eq_refl Hget) as (p & w & Hp & Hw & Hin).
    exists p, w. repeat split; [exact Hp | exact Hw | now right].
Qed.

(** C10: whenever [compute_scores] returns, the mapping it returns has
    the keys findable, accessible, interoperable and reusable, in this
    order and no others; under each, the key ["result"] holds the
    principle's aggregate points, a float, with the colour of their
    band, computed from the terms of every indicator that is an object,
    whatever its key; so an indicator stored under ["result"] is counted
    in the sums and its own entry is replaced by the aggregate. It
    returns whenever each of the four principles is absent, [None] or a
    mapping of well-formed entries. *)
Theorem principles_have_four_results :
  (forall (data principles : dict) (fair_points : float) (fair_color : string),
      compute_scores (VDict data) = Ok (principles, fair_points, fair_color) ->
      map fst principles
      = ["findable"; "accessible"; "interoperable"; "reusable"]
      /\ forall dim,
           In dim ["findable"; "accessible"; "interoperable"; "reusable"] ->
           exists processed ts,
             dict_get principles dim = Some (VDict processed)
             /\ principle_terms data dim = Ok ts
             /\ let points :=
                  (if 0 <? weight_sum ts
                   then round2 (weighted_sum ts / weight_sum ts)
                   else 0)%float in
                dict_get processed "result"
                = Some (VDict
                          [("points", VFloat points);
                           ("color",
                            VStr (if (75 <=? points)%float then "#2ECC71"
                                  else if (50 <=? points)%float then "#F4D03F"
                                  else "#E74C3C"))]))
  /\ (forall data : dict,
        (forall dim,
           In dim ["findable"; "accessible"; "interoperable"; "reusable"] ->
           dict_get data dim = None \/ dict_get data dim = Some VNone
           \/ exists items, dict_get data dim = Some (VDict items)
                             /\ wf_items items = true) ->
        exists principles fair_points fair_color,
          compute_scores (VDict data)
          = Ok (principles, fair_points, fair_color))
  /\ (forall (data principles : dict) (fair_points : float)
             (fair_color dim : string) (items : dict) (test : dict),
        compute_scores (VDict data) = Ok (principles, fair_points, fair_color) ->
        In dim ["findable"; "accessible"; "interoperable"; "reusable"] ->
        dict_get data dim = Some (VDict items) ->
        dict_get items "result" = Some (VDict test) ->
        exists processed p w ts,
          dict_get principles dim = Some (VDict processed)
          /\ points_of test = Ok p /\ weight_of test = Ok w
          /\ principle_terms data dim = Ok ts
          /\ In (p, w) ts
          /\ let points :=
               (if 0 <? weight_sum ts
                then round2 (weighted_sum ts / weight_sum ts)
                else 0)%float in
             dict_get processed "result"
             = Some (VDict
                       [("points", VFloat points);
                        ("color",
                         VStr (if (75 <=? points)%float then "#2ECC71"
                               else if (50 <=? points)%float then "#F4D03F"
                               else "#E74C3C"))])).
Proof.
  assert (Hshape :
    forall (data principles : dict) (fair_points : float)
           (fair_color : string),
      compute_scores (VDict data) = Ok (principles, fair_points, fair_color) ->
      map fst principles
      = ["findable"; "accessible"; "interoperable"; "reusable"]
      /\ forall dim,
           In dim ["findable"; "accessible"; "interoperable"; "reusable"] ->
           exists processed ts,
             dict_get principles dim = Some (VDict processed)
             /\ principle_terms data dim = Ok ts
             /\ let points :=
                  (if 0 <? weight_sum ts
                   then round2 (weighted_sum ts / weight_sum ts)
                   else 0)%float in
                dict_get processed "result"
                = Some (VDict
                          [("points", VFloat points);
                           ("color",
                            VStr (if (75 <=? points)%float then "#2ECC71"
                                  else if (50 <=? points)%float then "#F4D03F"
                                  else "#E74C3C"))])).
  { intros data principles fair_points fair_color H.
    destruct (compute_scores_inv _ _ _ _ H)
      as (pf & sf & wf & pa & sa & wa & pi & si & wi & pr & sr & wr
          & Hf & Ha & Hi & Hr & -> & _ & _).
    split; [reflexivity |].
    assert (Hone : forall dim processed ps ws,
      process_principle data dim = Ok (processed, ps, ws) ->
      exists ts, principle_terms data dim = Ok ts
        /\ dict_get processed "result"
           = Some (result_entry
                     (if (0 <? weight_sum ts)%float
                      then round2 (weighted_sum ts / weight_sum ts)
                      else 0%float))).
    { intros dim processed ps ws Hp.
      destruct (process_principle_inv _ _ _ _ _ Hp)
        as (items & processed0 & ts & Hit & _ & Hts & -> & -> & ->).
      exists ts. split; [eapply principle_terms_of; eassumption |].
      apply dict_get_set_same. }
    intros dim Hin.
    destruct Hin as [<- | [<- | [<- | [<- | []]]]].
    - destruct (Hone _ _ _ _ Hf) as (ts & Hts & Hres).
      exists pf, ts. repeat split; assumption.
    - destruct (Hone _ _ _ _ Ha) as (ts & Hts & Hres).
      exists pa, ts. repeat split; assumption.
    - destruct (Hone _ _ _ _ Hi) as (ts & Hts & Hres).
      exists pi, ts. repeat split; assumption.
    - destruct (Hone _ _ _ _ Hr) as (ts & Hts & Hres).
      exists pr, ts. repeat split; assumption. }
  split; [exact Hshape |].
  split.
  { intros data Hdims.
    assert (Hwf : wf_document data = true).
    { unfold wf_document, dims. apply forallb_forall. intros dim Hin.
      unfold get_default.
      destruct (Hdims dim Hin) as [-> | [-> | (items & -> & Hitems)]];
        [reflexivity | reflexivity | exact Hitems]. }
    rewrite <- compute_scores_returns in Hwf.
    destruct (is_ok_true _ Hwf) as [[[principles fp] fc] H].
    now exists principles, fp, fc. }
  intros data principles fair_points fair_color dim items test H Hdim Hget
    Hres.
  destruct (Hshape _ _ _ _ H) as [_ Hall].
  destruct (Hall dim Hdim) as (processed & ts & Hp & Hts & Hentry).
  assert (Hitems : indicator_terms items = Ok ts).
  { unfold principle_terms, items_of, get_default, py_or in Hts.
    rewrite Hget in Hts. destruct items; [discriminate | exact Hts]. }
  destruct (indicator_terms_counts _ _ _ _ Hitems Hres)
    as (p & w & Ep & Ew & Hin).
  exists processed, p, w, ts. repeat split; assumption.
Qed.

(** C10 at the sample with an indicator stored under ["result"]: its 80
    points count in the aggregate of 50, which takes its place; and at a
    document with an absent and a [None] principle. *)
Lemma principles_shape_witness :
  (exists principles fair_points fair_color processed,
      compute_scores (VDict result_key_doc)
      = Ok (principles, fair_points, fair_color)
      /\ map fst principles
         = ["findable"; "accessible"; "interoperable"; "reusable"]
      /\ dict_get principles "findable" = Some (VDict processed)
      /\ principle_terms result_key_doc "findable"
         = Ok [(80, 1); (20, 1)]%float
      /\ dict_get processed "result"
         = Some (VDict [("points", VFloat 50); ("color", VStr "#F4D03F")]))
  /\ (exists principles fair_points fair_color,
        compute_scores (VDict sparse_doc)
        = Ok (principles, fair_points, fair_color)).
Proof.
  pose proof principles_have_four_results as (Hshape & Hret & Hres).
  split.
  - assert (H : {r | compute_scores (VDict result_key_doc) = Ok r})
      by (eexists; vm_compute; reflexivity).
    destruct H as [[[principles fair_points] fair_color] H].
    destruct (Hshape _ _ _ _ H) as [Hkeys _].
    destruct (Hres _ _ _ _ "findable" _ _ H (or_introl eq_refl) eq_refl
                eq_refl)
      as (processed & p & w & ts & Hget & Hp & Hw & Hts & Hin & Hentry).
    exists principles, fair_points, fair_color, processed.
    split; [exact H |]. split; [exact Hkeys |]. split; [exact Hget |].
    split; [vm_compute; reflexivity |].
    destruct (Hshape _ _ _ _ H) as [_ Hall].
    destruct (Hall "findable" (or_introl eq_refl))
      as (processed' & ts' & Hget' & Hts' & Hentry').
    rewrite Hget in Hget'. injection Hget' as <-.
    assert (E : ts' = [(80, 1); (20, 1)]%float).
    { assert (E' : Ok ts' = Ok [(80, 1); (20, 1)]%float)
        by (rewrite <- Hts'; vm_compute; reflexivity).
      injection E' as E'. exact E'. }
    subst ts'. exact Hentry'.
  - apply Hret. intros dim [<- | [<- | [<- | [<- | []]]]].
    + right. right. eexists. split; reflexivity.
    + right. left. reflexivity.
    + left. reflexivity.
    + left. reflexivity.
Defined.

End Shape.

(** ** The handler *)

Section Handler.

Lemma append_assoc (a b c : string) : ((a ++ b) ++ c = a ++ (b ++ c))%string.
Proof.
  induction a as [| x a IH]; [reflexivity |].
  cbn [append]. rewrite IH. reflexivity.
Qed.

Lemma rstrip_slash_id (s : string) :
  ends_with_slash s = false -> rstrip_slash s = s.
Proof.
  unfold rstrip_slash. induction s as [| c s IH]; [reflexivity |].
  cbn [ends_with_slash rstrip_with]. destruct s as [| c' s'].
  - cbn [rstrip_with]. intros ->. reflexivity.
  - intros H. rewrite (IH H). reflexivity.
Qed.

Lemma endpoint_url (cfg : Settings) :
  endpoint cfg
  = (rstrip_slash (api_url cfg) ++ ":" ++ str_of_int (api_port cfg)
     ++ "/v1.0/rda/rda_all")%string.
Proof. unfold endpoint. rewrite append_assoc. reflexivity. Qed.

Lemma first_data_after_logs (logs rest : dict) (k : string) (v : value) :
  (forall e, In e logs -> fst e = "evaluator_logs") ->
  k <> "evaluator_logs" ->
  first_data (logs ++ (k, v) :: rest)%list = v.
Proof.
  intros Hlogs Hk. induction logs as [| [k0 v0] logs IH]; cbn [app first_data].
  - destruct (String.eqb_spec k "evaluator_logs"); [contradiction | reflexivity].
  - assert (Hk0 : k0 = "evaluator_logs")
      by (apply (Hlogs (k0, v0)); now left).
    subst k0. rewrite String.eqb_refl. cbn [negb]. apply IH.
    intros e He. apply Hlogs. now right.
Qed.

(** C4 fails on the code: whatever the settings say, a request with an
    identifier opens the sample file and posts nothing, and the settings
    object is left in development mode. So it is under the production
    settings, whose development flag is off. *)
Theorem evaluator_overrides_dev_mode :
  (forall (cfg : Settings) (values : list (string * string)) (w : world),
      trace_of (evaluator cfg values w)
      = (if String.eqb (strip (form_value values "item_id")) "" then []
         else [OpenFile (sample_file cfg)])
      /\ existsb is_post (trace_of (evaluator cfg values w)) = false
      /\ dev_mode (settings_after (evaluator cfg values w))
         = (if String.eqb (strip (form_value values "item_id")) ""
            then dev_mode cfg else true))
  /\ dev_mode production_cfg = false
  /\ trace_of (evaluator production_cfg [("item_id", "10.1234/x")]
                 failing_api_world)
     = [OpenFile "data/salida_new.json"]
  /\ dev_mode (settings_after
                 (evaluator production_cfg [("item_id", "10.1234/x")]
                    failing_api_world)) = true.
Proof.
  split; [| repeat split; vm_compute; reflexivity].
  intros cfg values w. unfold evaluator, evaluate_with, load_result_data.
  destruct (String.eqb (strip (form_value values "item_id")) "");
    repeat split; reflexivity.
Qed.

(** The production branch taken by itself: with the development flag
    off when the [try] statement is reached, the handler posts once, to
    [{api_url}:{api_port}/v1.0/rda/rda_all] (trailing slashes of the base
    URL dropped) with the body [{"id": item_id, "lang": "en"}] and a
    timeout of 30; when the response's [raise_for_status] raises, or the
    request itself fails, the error page is rendered and no scores are
    computed. *)
Theorem production_mode_posts_once :
  forall (cfg : Settings) (item_id : string) (w : world),
    dev_mode cfg = false ->
    fst (evaluate_with cfg item_id w)
    = [HttpPost
         (rstrip_slash (api_url cfg) ++ ":" ++ str_of_int (api_port cfg)
          ++ "/v1.0/rda/rda_all")%string
         (VDict [("id", VStr item_id); ("lang", VStr "en")]) 30]
    /\ (ends_with_slash (api_url cfg) = false ->
        fst (evaluate_with cfg item_id w)
        = [HttpPost
             (api_url cfg ++ ":" ++ str_of_int (api_port cfg)
              ++ "/v1.0/rda/rda_all")%string
             (VDict [("id", VStr item_id); ("lang", VStr "en")]) 30])
    /\ (forall (resp : http_response) (exc : exn),
          http_post w (endpoint cfg) (payload item_id) 30 = Ok resp ->
          raise_for_status resp = Raise exc ->
          snd (evaluate_with cfg item_id w) = ErrorPage (ErrorLoading exc))
    /\ (forall exc : exn,
          http_post w (endpoint cfg) (payload item_id) 30 = Raise exc ->
          snd (evaluate_with cfg item_id w) = ErrorPage (ErrorLoading exc)).
Proof.
  intros cfg item_id w Hmode.
  unfold evaluate_with, load_result_data. rewrite Hmode. cbn [fst snd].
  rewrite endpoint_url. unfold payload.
  split; [reflexivity |].
  split; [intros Hurl; rewrite (rstrip_slash_id _ Hurl); reflexivity |].
  split.
  - intros resp exc -> Hstatus. cbn [bind]. rewrite Hstatus. reflexivity.
  - intros exc ->. reflexivity.
Qed.

(** The production branch at the production settings, against an API
    that answers with an error status. *)
Lemma production_mode_witness :
  fst (evaluate_with production_cfg "10.1234/x" failing_api_world)
  = [HttpPost "http://localhost:9090/v1.0/rda/rda_all"
       (VDict [("id", VStr "10.1234/x"); ("lang", VStr "en")]) 30]
  /\ snd (evaluate_with production_cfg "10.1234/x" failing_api_world)
     = ErrorPage (ErrorLoading HTTPError).
Proof.
  pose proof (production_mode_posts_once production_cfg "10.1234/x"
                failing_api_world eq_refl) as (_ & Hurl & Hstatus & _).
  split.
  - apply Hurl. reflexivity.
  - apply (Hstatus (mkResponse (Raise HTTPError) (Ok (VDict fixture))));
      reflexivity.
Defined.

(** C5 fails on the code, through the override of C4: [evaluator] never
    reaches the production branch, so what the API would answer, an error
    status included, has no effect on a request. Under the production
    settings, against an API that answers every request with an error
    status, the request posts nothing, renders no error page and ends
    with the scores of the sample file. *)
Theorem evaluator_never_reaches_api :
  (forall (cfg : Settings) (values : list (string * string)) (w : world)
      (post : string -> value -> Z -> result http_response),
      evaluator cfg values (mkWorld (read_json w) post)
      = evaluator cfg values w)
  /\ trace_of (evaluator production_cfg [("item_id", " 10.1234/x ")]
                 failing_api_world)
     = [OpenFile "data/salida_new.json"]
  /\ is_error_page
       (outcome_of (evaluator production_cfg [("item_id", " 10.1234/x ")]
                      failing_api_world)) = false
  /\ scored_points
       (outcome_of (evaluator production_cfg [("item_id", " 10.1234/x ")]
                      failing_api_world)) = Some 76.92%float.
Proof.
  split; [| repeat split; vm_compute; reflexivity].
  intros cfg values w post. unfold evaluator, evaluate_with, load_result_data.
  destruct (String.eqb (strip (form_value values "item_id")) "");
    reflexivity.
Qed.

(** C6: in development mode the loader opens the configured file and
    leaves in [result_data] the value of the first top-level key, in
    document order, that is not ["evaluator_logs"]; for the keys
    [evaluator_logs] and [group1] that is the value under [group1]. *)
Theorem dev_loader_returns_first_data_key :
  forall (cfg : Settings) (item_id : string) (w : world) (items : dict),
    dev_mode cfg = true ->
    read_json w (sample_file cfg) = Ok (VDict items) ->
    load_result_data cfg item_id w
    = ([OpenFile (sample_file cfg)], Ok (first_data items))
    /\ (forall (logs rest : dict) (k : string) (v : value),
          items = (logs ++ (k, v) :: rest)%list ->
          (forall e, In e logs -> fst e = "evaluator_logs") ->
          k <> "evaluator_logs" ->
          first_data items = v)
    /\ (forall logs group : value,
          items = [("evaluator_logs", logs); ("group1", group)] ->
          first_data items = group).
Proof.
  intros cfg item_id w items Hmode Hread.
  unfold load_result_data. rewrite Hmode, Hread.
  split; [reflexivity |].
  split.
  - intros logs rest k v -> Hlogs Hk. now apply first_data_after_logs.
  - intros logs group ->. reflexivity.
Qed.

(** C6 at the fixture. *)
Lemma dev_loader_witness :
  load_result_data development_cfg "10.1234/x" failing_api_world
  = ([OpenFile "data/salida_new.json"], Ok (VDict asymmetric_doc)).
Proof.
  apply (proj1 (dev_loader_returns_first_data_key development_cfg "10.1234/x"
                  failing_api_world fixture eq_refl eq_refl)).
Defined.

End Handler.

(** ** Insertion order *)

Section InsertionOrder.

Lemma dict_get_perm (d d' : dict) (k : string) :
  Permutation d d' -> NoDup (map fst d) -> dict_get d k = dict_get d' k.
Proof.
  induction 1 as [| [k0 v0] l l' Hp IH | [ky vy] [kx vx] l | l l' l'' Hp1 IH1 Hp2 IH2];
    intros Hnd.
  - reflexivity.
  - cbn [dict_get]. destruct (String.eqb k k0); [reflexivity |].
    apply IH. now inversion Hnd.
  - cbn [dict_get]. cbn [map fst] in Hnd.
    destruct (String.eqb_spec k ky) as [Hy | Hy];
      destruct (String.eqb_spec k kx) as [Hx | Hx]; try reflexivity.
    inversion Hnd as [| ? ? Hnotin _]. exfalso. apply Hnotin.
    left. congruence.
  - rewrite IH1 by assumption. apply IH2.
    eapply Permutation_NoDup; [| exact Hnd]. now apply Permutation_map.
Qed.

Lemma wf_items_perm (items items' : dict) :
  Permutation items items' -> wf_items items = wf_items items'.
Proof.
  unfold wf_items.
  induction 1 as [| x l l' Hp IH | x y l | l l' l'' Hp1 IH1 Hp2 IH2].
  - reflexivity.
  - cbn [forallb]. now rewrite IH.
  - cbn [forallb]. destruct (wf_item x), (wf_item y); reflexivity.
  - now rewrite IH1.
Qed.

(** A reordering of the entries reorders the terms of the sums. *)
Lemma indicator_terms_perm (items items' : dict) :
  Permutation items items' ->
  forall ts, indicator_terms items = Ok ts ->
    exists ts', indicator_terms items' = Ok ts' /\ Permutation ts ts'.
Proof.
  induction 1 as [| [k v] l l' Hp IH | [ky vy] [kx vx] l | l l' l'' Hp1 IH1 Hp2 IH2];
    intros ts Hts.
  - exists ts. split; [exact Hts | apply Permutation_refl].
  - destruct v; cbn [indicator_terms] in *; try (apply IH; exact Hts).
    destruct (points_of d) as [p |]; [| discriminate].
    destruct (weight_of d) as [w |]; [| discriminate].
    cbn [bind] in *.
    destruct (indicator_terms l) as [ts0 |]; [| discriminate].
    injection Hts as <-.
    destruct (IH ts0 eq_refl) as (ts0' & -> & Hperm).
    exists ((p, w) :: ts0'). split; [reflexivity | now apply perm_skip].
  - destruct vy, vx; cbn [indicator_terms] in *;
      try (exists ts; split; [exact Hts | apply Permutation_refl]).
    destruct (points_of d0) as [px |]; [| discriminate].
    destruct (weight_of d0) as [wx |]; [| discriminate].
    cbn [bind] in *.
    destruct (points_of d) as [py |]; [| discriminate].
    destruct (weight_of d) as [wy |]; [| discriminate].
    cbn [bind] in *.
    destruct (indicator_terms l) as [ts0 |]; [| discriminate].
    cbn [bind] in *. injection Hts as <-.
    exists ((py, wy) :: (px, wx) :: ts0). split; [reflexivity | apply perm_swap].
  - destruct (IH1 ts Hts) as (ts1 & Hts1 & Hperm1).
    destruct (IH2 ts1 Hts1) as (ts2 & Hts2 & Hperm2).
    exists ts2. split; [exact Hts2 | eapply Permutation_trans; eassumption].
Qed.

Lemma processed_entry_absent (items : dict) (k : string) :
  ~ In k (map fst items) -> processed_entry items k = None.
Proof.
  intros H. unfold processed_entry.
  rewrite (proj2 (dict_get_none_iff items k) H). reflexivity.
Qed.

Lemma processed_entry_other (items : dict) (k k' : string) (v : value) :
  k <> k' -> processed_entry ((k', v) :: items) k = processed_entry items k.
Proof.
  intros Hne. unfold processed_entry. cbn [dict_get].
  destruct (String.eqb_spec k k'); [contradiction | reflexivity].
Qed.

(** With distinct keys, the loop stores under each key the entry of the
    indicator that has it, and leaves the other keys alone. *)
Lemma process_items_lookup (items : dict) :
  NoDup (map fst items) ->
  forall processed ps ws processed' ps' ws' k,
    process_items items (processed, ps, ws) = Ok (processed', ps', ws') ->
    dict_get processed' k =
    match processed_entry items k with
    | Some entry => Some entry
    | None => dict_get processed k
    end.
Proof.
  induction items as [| [k0 v0] items IH]; intros Hnd processed ps ws processed' ps' ws' k.
  - cbn [process_items]. intros H. injection H as <- _ _. reflexivity.
  - cbn [map fst] in Hnd. inversion Hnd as [| ? ? Hnotin Hnd']. subst.
    destruct (String.eqb_spec k k0) as [-> | Hne].
    + destruct v0; cbn [process_items]; intros H;
        try (rewrite (IH Hnd' _ _ _ _ _ _ k0 H),
               (processed_entry_absent items k0 Hnotin);
             unfold processed_entry; cbn [dict_get];
             rewrite String.eqb_refl; reflexivity).
      destruct (process_test k0 d) as [[[entry p] w] |] eqn:Ht; [| discriminate].
      cbn [bind] in H. rewrite (IH Hnd' _ _ _ _ _ _ k0 H).
      rewrite (processed_entry_absent items k0 Hnotin), dict_get_set_same.
      unfold processed_entry. cbn [dict_get]. rewrite String.eqb_refl, Ht.
      reflexivity.
    + rewrite (processed_entry_other _ _ _ _ Hne).
      destruct v0; cbn [process_items]; intros H;
        try (exact (IH Hnd' _ _ _ _ _ _ k H)).
      destruct (process_test k0 d) as [[[entry p] w] |]; [| discriminate].
      cbn [bind] in H. rewrite (IH Hnd' _ _ _ _ _ _ k H).
      rewrite (dict_get_set_other _ _ _ _ Hne). reflexivity.
Qed.

Lemma processed_entry_perm (items items' : dict) (k : string) :
  Permutation items items' -> NoDup (map fst items) ->
  processed_entry items k = processed_entry items' k.
Proof.
  intros Hp Hnd. unfold processed_entry.
  rewrite (dict_get_perm _ _ k Hp Hnd). reflexivity.
Qed.

End InsertionOrder.

Section Reordering.

Lemma process_principle_of_items (data : dict) (dim : string) (items : dict)
    (processed0 : dict) (ps ws : float) :
  items_of data dim = Ok items ->
  process_items items ([], 0%float, 0%float) = Ok (processed0, ps, ws) ->
  process_principle data dim =
  Ok (dict_set processed0 "result"
        (result_entry (if (0 <? ws)%float then round2 (ps / ws) else 0%float)),
      ps, ws).
Proof.
  intros Hi Hp. unfold process_principle. rewrite Hi. cbn [bind].
  rewrite Hp. cbn [bind]. rewrite aggregate_value. reflexivity.
Qed.

(** One principle under a reordering of its entries. *)
Lemma process_principle_perm (data data' : dict) (dim : string)
    (items items' : dict) (processed : dict) (ps ws : float) :
  items_of data dim = Ok items ->
  items_of data' dim = Ok items' ->
  Permutation items items' ->
  NoDup (map fst items) ->
  process_principle data dim = Ok (processed, ps, ws) ->
  exists processed' ts ts',
    process_principle data' dim
    = Ok (processed', weighted_sum ts', weight_sum ts')
    /\ principle_terms data dim = Ok ts
    /\ principle_terms data' dim = Ok ts'
    /\ Permutation ts ts'
    /\ ps = weighted_sum ts
    /\ ws = weight_sum ts
    /\ (forall k, k <> "result" -> dict_get processed' k = dict_get processed k)
    /\ (weighted_sum ts' = weighted_sum ts -> weight_sum ts' = weight_sum ts ->
        dict_get processed' "result" = dict_get processed "result").
Proof.
  intros Hi Hi' Hperm Hnd H.
  destruct (process_principle_inv _ _ _ _ _ H)
    as (items0 & processed0 & ts & Hi0 & Hp & Hts & Hps & Hws & Hproc).
  rewrite Hi in Hi0. injection Hi0 as <-.
  assert (Hok : is_ok (process_items items' ([], 0%float, 0%float)) = true).
  { rewrite process_items_returns, <- (wf_items_perm _ _ Hperm),
      <- (process_items_returns items ([], 0%float, 0%float)), Hp.
    reflexivity. }
  destruct (is_ok_true _ Hok) as [[[processed0' ps'] ws'] Hp'].
  destruct (process_items_sums _ _ _ _ _ _ _ Hp') as (ts' & Hts' & Hps' & Hws').
  destruct (indicator_terms_perm _ _ Hperm _ Hts) as (ts'' & Hts'' & Hpt).
  rewrite Hts' in Hts''. injection Hts'' as <-.
  fold (weighted_sum ts') in Hps'. fold (weight_sum ts') in Hws'. subst ps' ws'.
  exists (dict_set processed0' "result"
            (result_entry
               (if (0 <? weight_sum ts')%float
                then round2 (weighted_sum ts' / weight_sum ts')
                else 0%float))), ts, ts'.
  split; [now apply (process_principle_of_items _ _ items') |].
  split; [eapply principle_terms_of; eassumption |].
  split; [eapply principle_terms_of; eassumption |].
  split; [exact Hpt |].
  split; [exact Hps |].
  split; [exact Hws |].
  subst processed. split.
  - intros k Hk. rewrite !(dict_get_set_other _ _ _ _ Hk).
    rewrite (process_items_lookup _ Hnd _ _ _ _ _ _ k Hp).
    assert (Hnd' : NoDup (map fst items')).
    { eapply Permutation_NoDup; [| exact Hnd]. now apply Permutation_map. }
    rewrite (process_items_lookup _ Hnd' _ _ _ _ _ _ k Hp').
    rewrite (processed_entry_perm _ _ k Hperm Hnd). reflexivity.
  - intros Hsp Hsw. rewrite !dict_get_set_same, Hps, Hws, Hsp, Hsw.
    reflexivity.
Qed.

Lemma compute_scores_intro (data : dict) (pf pa pi pr : dict)
    (sf wf sa wa si wi sr wr : float) :
  process_principle data "findable" = Ok (pf, sf, wf) ->
  process_principle data "accessible" = Ok (pa, sa, wa) ->
  process_principle data "interoperable" = Ok (pi, si, wi) ->
  process_principle data "reusable" = Ok (pr, sr, wr) ->
  compute_scores (VDict data) =
  let total_points := (0 + sf + sa + si + sr)%float in
  let total_weight := (0 + wf + wa + wi + wr)%float in
  let fair_points :=
    if (0 <? total_weight)%float then round2 (total_points / total_weight)
    else 0%float in
  Ok ([("findable", VDict pf); ("accessible", VDict pa);
       ("interoperable", VDict pi); ("reusable", VDict pr)],
      fair_points, colour_for fair_points).
Proof.
  intros Hf Ha Hi Hr. unfold compute_scores, dims. cbn [principles_loop].
  rewrite Hf. cbn [bind]. rewrite Ha. cbn [bind]. rewrite Hi. cbn [bind].
  rewrite Hr. cbn [bind]. rewrite aggregate_value. reflexivity.
Qed.

(** C9, as stated, fails: the indicators (24, 0.6), (68.28, 0.3) and
    (61.23, 0.9) give the aggregate 50.0, yellow, in this order and
    49.99, red, with the last two exchanged, for the principle and for
    the overall score alike. *)
Lemma insertion_order_counterexample :
  reordered order_one order_two
  /\ fair_points_of (compute_scores (VDict order_one)) = Some 50%float
  /\ fair_color_of (compute_scores (VDict order_one)) = Some yellow
  /\ fair_points_of (compute_scores (VDict order_two)) = Some 49.99%float
  /\ fair_color_of (compute_scores (VDict order_two)) = Some red
  /\ option_map (fun p => indicator_entry p "findable" "result")
       (principles_of (compute_scores (VDict order_one)))
     = Some (Some (VDict [("points", VFloat 50); ("color", VStr yellow)]))
  /\ option_map (fun p => indicator_entry p "findable" "result")
       (principles_of (compute_scores (VDict order_two)))
     = Some (Some (VDict [("points", VFloat 49.99); ("color", VStr red)]))
  /\ (50 =? 49.99)%float = false.
Proof.
  split; [| repeat split; vm_compute; reflexivity].
  intros dim [<- | [<- | [<- | [<- | []]]]];
    try (exists [], []; repeat split;
         [apply perm_nil | constructor]).
  eexists _, _. split; [reflexivity |]. split; [reflexivity |].
  split; [apply perm_skip, perm_swap |].
  repeat constructor; cbn; intuition discriminate.
Qed.

(** C9 (amended): for two documents that hold the same indicator entries
    under distinct keys, principle by principle, in different insertion
    orders: if [compute_scores] returns on one it returns on the other;
    every indicator's processed entry is the same; the two sums of each
    principle run over the same terms in the other order; and whenever
    these left-to-right binary64 sums come out the same in both orders,
    the aggregate points and colours of every principle and the overall
    score and colour are the same. *)
Theorem reordering_preserves_entries_and_terms :
  forall (data data' principles : dict) (fair_points : float)
    (fair_color : string),
    reordered data data' ->
    compute_scores (VDict data) = Ok (principles, fair_points, fair_color) ->
    exists principles' fair_points' fair_color',
      compute_scores (VDict data')
      = Ok (principles', fair_points', fair_color')
      /\ (forall dim key, key <> "result" ->
            indicator_entry principles' dim key
            = indicator_entry principles dim key)
      /\ (forall dim, In dim dims ->
            exists ts ts',
              principle_terms data dim = Ok ts
              /\ principle_terms data' dim = Ok ts'
              /\ Permutation ts ts')
      /\ ((forall dim ts ts', In dim dims ->
             principle_terms data dim = Ok ts ->
             principle_terms data' dim = Ok ts' ->
             weighted_sum ts' = weighted_sum ts
             /\ weight_sum ts' = weight_sum ts) ->
          fair_points' = fair_points
          /\ fair_color' = fair_color
          /\ forall dim,
               indicator_entry principles' dim "result"
               = indicator_entry principles dim "result").
Proof.
  intros data data' principles fair_points fair_color Hre H.
  destruct (compute_scores_inv _ _ _ _ H)
    as (pf & sf & wf & pa & sa & wa & pi & si & wi & pr & sr & wr
        & Hf & Ha & Hi & Hr & -> & Hagg & ->).
  rewrite aggregate_value in Hagg. injection Hagg as <-.
  assert (Hone : forall dim processed ps ws, In dim dims ->
    process_principle data dim = Ok (processed, ps, ws) ->
    exists processed' ts ts',
      process_principle data' dim
      = Ok (processed', weighted_sum ts', weight_sum ts')
      /\ principle_terms data dim = Ok ts
      /\ principle_terms data' dim = Ok ts'
      /\ Permutation ts ts'
      /\ ps = weighted_sum ts
      /\ ws = weight_sum ts
      /\ (forall k, k <> "result" ->
            dict_get processed' k = dict_get processed k)
      /\ (weighted_sum ts' = weighted_sum ts ->
          weight_sum ts' = weight_sum ts ->
          dict_get processed' "result" = dict_get processed "result")).
  { intros dim processed ps ws Hin Hp.
    destruct (Hre dim Hin) as (items & items' & Hit & Hit' & Hperm & Hnd).
    eapply process_principle_perm; eassumption. }
  destruct (Hone _ _ _ _ (or_introl eq_refl) Hf)
    as (pf' & tf & tf' & Hf' & Htf & Htf' & Hpf & -> & -> & Hkf & Hrf).
  destruct (Hone _ _ _ _ (or_intror (or_introl eq_refl)) Ha)
    as (pa' & ta & ta' & Ha' & Hta & Hta' & Hpa & -> & -> & Hka & Hra).
  destruct (Hone _ _ _ _ (or_intror (or_intror (or_introl eq_refl))) Hi)
    as (pi' & ti & ti' & Hi' & Hti & Hti' & Hpi & -> & -> & Hki & Hri).
  destruct (Hone _ _ _ _
              (or_intror (or_intror (or_intror (or_introl eq_refl)))) Hr)
    as (pr' & tr & tr' & Hr' & Htr & Htr' & Hpr & -> & -> & Hkr & Hrr).
  pose proof (compute_scores_intro _ _ _ _ _ _ _ _ _ _ _ _ _ Hf' Ha' Hi' Hr')
    as H'. cbv zeta in H'.
  eexists _, _, _. split; [exact H' |].
  split.
  { intros dim key Hkey. unfold indicator_entry. cbn [dict_get].
    destruct (String.eqb dim "findable"); [now apply Hkf |].
    destruct (String.eqb dim "accessible"); [now apply Hka |].
    destruct (String.eqb dim "interoperable"); [now apply Hki |].
    destruct (String.eqb dim "reusable"); [now apply Hkr | reflexivity]. }
  split.
  { intros dim [<- | [<- | [<- | [<- | []]]]]; eauto. }
  intros Hsame.
  destruct (Hsame _ _ _ (or_introl eq_refl) Htf Htf') as [Ef1 Ef2].
  destruct (Hsame _ _ _ (or_intror (or_introl eq_refl)) Hta Hta')
    as [Ea1 Ea2].
  destruct (Hsame _ _ _ (or_intror (or_intror (or_introl eq_refl))) Hti Hti')
    as [Ei1 Ei2].
  destruct (Hsame _ _ _
              (or_intror (or_intror (or_intror (or_introl eq_refl)))) Htr Htr')
    as [Er1 Er2].
  rewrite Ef1, Ef2, Ea1, Ea2, Ei1, Ei2, Er1, Er2.
  split; [reflexivity |]. split; [reflexivity |].
  intros dim. unfold indicator_entry. cbn [dict_get].
  destruct (String.eqb dim "findable"); [now apply Hrf |].
  destruct (String.eqb dim "accessible"); [now apply Hra |].
  destruct (String.eqb dim "interoperable"); [now apply Hri |].
  destruct (String.eqb dim "reusable"); [now apply Hrr | reflexivity].
Qed.

Lemma exact_samples_reordered : reordered exact_one exact_two.
Proof.
  intros dim [<- | [<- | [<- | [<- | []]]]];
    try (exists [], []; repeat split; [apply perm_nil | constructor]).
  eexists _, _. split; [reflexivity |]. split; [reflexivity |].
  split.
  - apply (Permutation_cons_app [_] [_; _]).
    apply (Permutation_cons_app [_; _] []).
    apply perm_swap.
  - repeat constructor; cbn; intuition discriminate.
Qed.

(** C9 (amended) at two orders of indicators whose sums are exact: the
    scores and colours agree. *)
Lemma reordering_witness :
  exists principles principles' fair_points fair_color,
    compute_scores (VDict exact_one) = Ok (principles, fair_points, fair_color)
    /\ compute_scores (VDict exact_two)
       = Ok (principles', fair_points, fair_color)
    /\ (forall dim key,
          indicator_entry principles' dim key
          = indicator_entry principles dim key).
Proof.
  destruct (compute_scores (VDict exact_one)) as [[[pr fp] fc] |] eqn:E;
    [| vm_compute in E; discriminate].
  destruct (reordering_preserves_entries_and_terms _ _ _ _ _
              exact_samples_reordered E)
    as (pr' & fp' & fc' & E' & Hent & _ & Hsame).
  destruct Hsame as (-> & -> & Hres).
  { intros dim ts ts' [<- | [<- | [<- | [<- | []]]]] H1 H2;
      vm_compute in H1, H2; injection H1 as <-; injection H2 as <-;
      split; vm_compute; reflexivity. }
  exists pr, pr', fp, fc. split; [reflexivity |]. split; [exact E' |].
  intros dim key. destruct (String.eqb_spec key "result") as [-> | Hne].
  - apply Hres.
  - now apply Hent.
Defined.

End Reordering.

(** * The rest of the code *)

Import View Cli Rest.

(** ** What the inner loop keeps true of [processed] *)

Section ProcessedInvariant.

Lemma dict_set_keys (d : dict) (k : string) (v : value) :
  map fst (dict_set d k v) =
  if existsb (String.eqb k) (map fst d) then map fst d
  else (map fst d ++ [k])%list.
Proof.
  induction d as [| [k' v'] d IH]; [reflexivity |].
  cbn [dict_set map fst existsb].
  destruct (String.eqb k k') eqn:E; cbn [orb]; [reflexivity |].
  cbn [map fst]. rewrite IH.
  destruct (existsb (String.eqb k) (map fst d)); reflexivity.
Qed.

Lemma existsb_eqb_in (k : string) (l : list string) :
  existsb (String.eqb k) l = true <-> In k l.
Proof.
  rewrite existsb_exists. split.
  - intros (x & Hin & Heq). apply String.eqb_eq in Heq. now subst.
  - intros Hin. exists k. split; [exact Hin | apply String.eqb_refl].
Qed.

Lemma existsb_eqb_absent (k : string) (l : list string) :
  ~ In k l -> existsb (String.eqb k) l = false.
Proof.
  intros H. destruct (existsb (String.eqb k) l) eqn:E; [| reflexivity].
  apply existsb_eqb_in in E. contradiction.
Qed.

(** Assignment to a new key appends. *)
Lemma dict_set_absent (d : dict) (k : string) (v : value) :
  ~ In k (map fst d) -> dict_set d k v = (d ++ [(k, v)])%list.
Proof.
  induction d as [| [k' v'] d IH]; intros H; [reflexivity |].
  cbn [dict_set app]. cbn [map fst In] in H.
  destruct (String.eqb_spec k k') as [-> | Hne].
  - exfalso. apply H. now left.
  - rewrite IH; [reflexivity | intros Hin; apply H; now right].
Qed.

Lemma dict_set_nodup (d : dict) (k : string) (v : value) :
  NoDup (map fst d) -> NoDup (map fst (dict_set d k v)).
Proof.
  intros Hnd. rewrite dict_set_keys.
  destruct (existsb (String.eqb k) (map fst d)) eqn:E; [exact Hnd |].
  apply NoDup_app; [exact Hnd | repeat constructor; intros [] |].
  intros x Hin [<- | []].
  apply existsb_eqb_in in Hin. congruence.
Qed.

Lemma dict_set_forall (P : string -> value -> Prop) (d : dict) (k : string)
    (v : value) :
  Forall (fun kv => P (fst kv) (snd kv)) d -> P k v ->
  Forall (fun kv => P (fst kv) (snd kv)) (dict_set d k v).
Proof.
  intros Hd Hv. induction d as [| [k' v'] d IH]; cbn [dict_set].
  - constructor; [exact Hv | constructor].
  - inversion Hd as [| ? ? Hhead Htail]. subst.
    destruct (String.eqb_spec k k') as [-> | Hne].
    + constructor; [exact Hv | exact Htail].
    + constructor; [exact Hhead | apply IH, Htail].
Qed.

Lemma dict_get_in (d : dict) (k : string) (v : value) :
  dict_get d k = Some v -> In (k, v) d.
Proof.
  induction d as [| [k' v'] d IH]; cbn [dict_get]; [discriminate |].
  destruct (String.eqb_spec k k') as [-> | Hne].
  - intros H. injection H as ->. now left.
  - intros H. right. now apply IH.
Qed.

Lemma dict_get_of_in (d : dict) (k : string) (v : value) :
  NoDup (map fst d) -> In (k, v) d -> dict_get d k = Some v.
Proof.
  induction d as [| [k' v'] d IH]; intros Hnd Hin; [destruct Hin |].
  cbn [map fst] in Hnd. inversion Hnd as [| ? ? Hnotin Hnd']. subst.
  cbn [dict_get]. destruct Hin as [Heq | Hin].
  - injection Heq as -> ->. rewrite String.eqb_refl. reflexivity.
  - destruct (String.eqb_spec k k') as [-> | Hne].
    + exfalso. apply Hnotin. apply (in_map fst) in Hin. exact Hin.
    + now apply IH.
Qed.

Lemma process_test_shape (key : string) (test : dict) (entry : value)
    (p w : float) :
  process_test key test = Ok (entry, p, w) ->
  exists name name_smart colour status msg,
    entry = VDict [("name", name); ("name_smart", name_smart);
                   ("points", VFloat p);
                   ("score", VDict [("weight", VFloat w)]);
                   ("color", colour); ("test_status", status); ("msg", msg)].
Proof.
  unfold process_test.
  destruct (points_of test) as [p' |]; [| discriminate].
  destruct (weight_of test) as [w' |]; [| discriminate].
  destruct (format_msg test) as [m |]; [| discriminate].
  cbn [bind]. intros H. injection H as <- <- <-.
  do 5 eexists. reflexivity.
Qed.

Lemma process_test_entry_shape (key : string) (test : dict) (entry : value)
    (p w : float) :
  process_test key test = Ok (entry, p, w) -> entry_shape entry.
Proof.
  intros H.
  destruct (process_test_shape _ _ _ _ _ H)
    as (name & name_smart & colour & status & msg & ->).
  unfold entry_shape. do 7 eexists. reflexivity.
Qed.

(** The loop keeps the keys distinct and every stored value a processed
    indicator. *)
Lemma process_items_invariant (items : dict) :
  forall processed ps ws processed' ps' ws',
    NoDup (map fst processed) ->
    Forall (fun kv => fst kv = "result" \/ entry_shape (snd kv)) processed ->
    process_items items (processed, ps, ws) = Ok (processed', ps', ws') ->
    NoDup (map fst processed')
    /\ Forall (fun kv => fst kv = "result" \/ entry_shape (snd kv)) processed'.
Proof.
  induction items as [| [key v] items IH];
    intros processed ps ws processed' ps' ws' Hnd Hall.
  - cbn [process_items]. intros H. injection H as <- _ _. now split.
  - destruct v; cbn [process_items]; try (apply IH; assumption).
    destruct (process_test key d) as [[[entry p] w] |] eqn:Ht; [| discriminate].
    cbn [bind]. apply IH.
    + now apply dict_set_nodup.
    + apply (dict_set_forall (fun k x => k = "result" \/ entry_shape x));
        [exact Hall | right; eapply process_test_entry_shape; exact Ht].
Qed.

Lemma process_principle_scored (data : dict) (dim : string) (processed : dict)
    (ps ws : float) :
  process_principle data dim = Ok (processed, ps, ws) ->
  scored_group processed.
Proof.
  intros H.
  destruct (process_principle_inv _ _ _ _ _ H)
    as (items & processed0 & ts & _ & Hp & _ & _ & _ & ->).
  destruct (process_items_invariant items [] _ _ _ _ _ (NoDup_nil _)
              (Forall_nil _) Hp) as [Hnd Hall].
  split; [now apply dict_set_nodup |].
  split; [eexists; apply dict_get_set_same |].
  apply (dict_set_forall (fun k x => k = "result" \/ entry_shape x));
    [exact Hall | now left].
Qed.

(** A key that is not among the items' keys is not touched. *)
Lemma process_items_untouched (items : dict) (k : string) :
  ~ In k (map fst items) ->
  forall processed ps ws processed' ps' ws',
    process_items items (processed, ps, ws) = Ok (processed', ps', ws') ->
    dict_get processed' k = dict_get processed k.
Proof.
  induction items as [| [key v] items IH];
    intros Hk processed ps ws processed' ps' ws'.
  - cbn [process_items]. intros H. injection H as <- _ _. reflexivity.
  - cbn [map fst In] in Hk.
    assert (Hne : k <> key) by (intros ->; apply Hk; now left).
    assert (Hrest : ~ In k (map fst items)) by (intros Hin; apply Hk; now right).
    destruct v; cbn [process_items]; try (apply IH; assumption).
    destruct (process_test key d) as [[[entry p] w] |]; [| discriminate].
    cbn [bind]. intros H. rewrite (IH Hrest _ _ _ _ _ _ H).
    now apply dict_get_set_other.
Qed.

End ProcessedInvariant.

(** ** [_max_for_group] and [_tests_list] on a returned principle *)

Section ViewHelpers.

Local Open Scope view_scope.

Lemma max_step_float (p : float) (total : Z) :
  max_step (VFloat p) total = Fails (Builtin AttributeError).
Proof.
  unfold max_step, py_or. destruct (truthy (VFloat p)); reflexivity.
Qed.

(** The loop cannot get past a float. *)
Lemma max_loop_float (pre post : list value) (p : float) :
  forall total, is_done (max_loop (pre ++ VFloat p :: post)%list total) = false.
Proof.
  induction pre as [| t pre IH]; intros total; cbn [app max_loop].
  - rewrite max_step_float. reflexivity.
  - destruct (max_step t total) as [total' | e]; [apply IH | reflexivity].
Qed.

Lemma scored_entry_at (processed : dict) (k : string) (v : value) :
  scored_group processed -> k <> "result" ->
  dict_get processed k = Some v -> entry_shape v.
Proof.
  intros (_ & _ & Hall) Hk Hget.
  apply dict_get_in in Hget.
  rewrite Forall_forall in Hall.
  destruct (Hall _ Hget) as [Heq | Hshape]; [contradiction | exact Hshape].
Qed.

Lemma max_for_group_of_entry (processed : dict) (points : float) (v : value) :
  dict_get processed "result" = Some (result_entry points) ->
  entry_shape v ->
  py_or (py_or (get_or_none processed "indicators")
           (get_or_none processed "tests")) (VDict []) = v ->
  is_done (max_for_group processed) = false.
Proof.
  intros Hres (name & name_smart & p & w & colour & status & msg & ->) Htests.
  unfold max_for_group, get_default. rewrite Hres.
  cbn [result_entry contains dict_get String.eqb Ascii.eqb Bool.eqb andthen].
  rewrite Htests. cbn [iterate map snd andthen].
  pose proof (max_loop_float [name; name_smart]
                [VDict [("weight", VFloat w)]; colour; status; msg] p 0)
    as Hloop.
  cbn [app] in Hloop.
  destruct (max_loop _ 0); [discriminate | reflexivity].
Qed.

(** On a returned principle [_max_for_group] gives 100, the fallback,
    unless an indicator stands under ["indicators"] or ["tests"]; then
    it raises. *)
Lemma max_for_group_scored (processed : dict) :
  scored_group processed ->
  (has_reserved_key processed = false -> max_for_group processed = Done 100)
  /\ (has_reserved_key processed = true ->
      is_done (max_for_group processed) = false).
Proof.
  intros Hs. pose proof Hs as (_ & (points & Hres) & _).
  unfold has_reserved_key. split.
  - destruct (dict_get processed "indicators") eqn:Ei; [discriminate |].
    destruct (dict_get processed "tests") eqn:Et; [discriminate |].
    intros _. unfold max_for_group, get_or_none, get_default.
    rewrite Hres, Ei, Et. reflexivity.
  - intros Hkey.
    destruct (dict_get processed "indicators") as [vi |] eqn:Ei.
    + assert (Hshape : entry_shape vi)
        by (apply (scored_entry_at processed "indicators" vi Hs);
            [discriminate | exact Ei]).
      apply (max_for_group_of_entry _ _ _ Hres Hshape).
      unfold get_or_none, get_default. rewrite Ei.
      destruct Hshape as (? & ? & ? & ? & ? & ? & ? & ->). reflexivity.
    + destruct (dict_get processed "tests") as [vt |] eqn:Et; [| discriminate].
      assert (Hshape : entry_shape vt)
        by (apply (scored_entry_at processed "tests" vt Hs);
            [discriminate | exact Et]).
      apply (max_for_group_of_entry _ _ _ Hres Hshape).
      unfold get_or_none, get_default. rewrite Ei, Et.
      destruct Hshape as (? & ? & ? & ? & ? & ? & ? & ->). reflexivity.
Qed.

Lemma list_item_of_entry (processed : dict) (k : string) (v : value) :
  dict_get processed k = Some v -> entry_shape v ->
  list_item processed k = Done (entry_item v).
Proof.
  intros Hget (name & name_smart & p & w & colour & status & msg & ->).
  unfold list_item, item_field, subscript. rewrite Hget. reflexivity.
Qed.

Lemma list_items_scored (processed : dict) :
  scored_group processed ->
  forall l, incl l processed ->
    list_items processed (map fst l)
    = Done (map (fun kv => entry_item (snd kv)) (filter not_result l)).
Proof.
  intros Hs. pose proof Hs as (Hnd & _ & _).
  induction l as [| [k v] l IH]; intros Hincl; [reflexivity |].
  cbn [map fst list_items filter]. unfold not_result at 1. cbn [fst].
  assert (Hl : incl l processed) by (intros x Hx; apply Hincl; now right).
  destruct (String.eqb_spec k "result") as [-> | Hk]; cbn [negb].
  - apply IH, Hl.
  - assert (Hget : dict_get processed k = Some v)
      by (apply dict_get_of_in; [exact Hnd | apply Hincl; now left]).
    rewrite (list_item_of_entry _ _ _ Hget (scored_entry_at _ _ _ Hs Hk Hget)).
    cbn [andthen]. rewrite (IH Hl). reflexivity.
Qed.

Lemma tests_list_scored (processed : dict) :
  scored_group processed ->
  tests_list processed
  = Done (map (fun kv => entry_item (snd kv)) (filter not_result processed)).
Proof.
  intros Hs. apply (list_items_scored _ Hs), incl_refl.
Qed.

End ViewHelpers.

(** ** The keys and the entries of a returned principle *)

Section KeyOrder.

Lemma object_keys_cons_dict (k : string) (test : dict) (items : dict) :
  object_keys ((k, VDict test) :: items) = k :: object_keys items.
Proof. reflexivity. Qed.

Lemma object_keys_cons_other (k : string) (v : value) (items : dict) :
  is_dict v = false -> object_keys ((k, v) :: items) = object_keys items.
Proof. unfold object_keys. cbn [filter snd]. intros ->. reflexivity. Qed.

Lemma shown_term_of_entry (key : string) (test : dict) (entry : value)
    (p w : float) :
  process_test key test = Ok (entry, p, w) -> shown_term entry = Some (p, w).
Proof.
  intros H.
  destruct (process_test_shape _ _ _ _ _ H) as (? & ? & ? & ? & ? & ->).
  reflexivity.
Qed.

(** With distinct keys every object appends one entry: the loop extends
    [processed] by the processed indicators, in the order of the input. *)
Lemma process_items_appends (items : dict) :
  forall processed ps ws processed' ps' ws',
    NoDup (map fst processed ++ object_keys items)%list ->
    process_items items (processed, ps, ws) = Ok (processed', ps', ws') ->
    exists entries ts,
      processed' = (processed ++ entries)%list
      /\ map fst entries = object_keys items
      /\ indicator_terms items = Ok ts
      /\ map (fun kv => shown_term (snd kv)) entries = map Some ts.
Proof.
  induction items as [| [key v] items IH];
    intros processed ps ws processed' ps' ws' Hnd.
  - cbn [process_items]. intros H. injection H as <- _ _.
    exists [], []. rewrite app_nil_r. repeat split.
  - assert (Hskip : is_dict v = false ->
        process_items items (processed, ps, ws) = Ok (processed', ps', ws') ->
        exists entries ts,
          processed' = (processed ++ entries)%list
          /\ map fst entries = object_keys ((key, v) :: items)
          /\ indicator_terms items = Ok ts
          /\ map (fun kv => shown_term (snd kv)) entries = map Some ts).
    { intros Hv Hp. rewrite (object_keys_cons_other _ _ _ Hv) in *.
      exact (IH _ _ _ _ _ _ Hnd Hp). }
    destruct v as [| b | z | f | s | l | test]; cbn [process_items indicator_terms];
      try (apply Hskip; reflexivity).
    clear Hskip. rewrite object_keys_cons_dict in *.
    destruct (process_test key test) as [[[entry p] w] |] eqn:Ht; [| discriminate].
    cbn [bind].
    assert (Hnew : ~ In key (map fst processed)).
    { intros Hin. apply NoDup_remove_2 in Hnd. apply Hnd.
      apply in_or_app. now left. }
    rewrite (dict_set_absent _ _ _ Hnew). intros Hp.
    assert (Hnd' : NoDup (map fst (processed ++ [(key, entry)])
                          ++ object_keys items)%list).
    { rewrite map_app, <- app_assoc. exact Hnd. }
    destruct (IH _ _ _ _ _ _ Hnd' Hp) as (entries & ts & -> & Hk & Hts & Hsh).
    unfold process_test in Ht.
    destruct (points_of test) as [p0 |] eqn:Ep; [| discriminate].
    destruct (weight_of test) as [w0 |] eqn:Ew; [| discriminate].
    destruct (format_msg test) as [m |]; [| discriminate].
    cbn [bind] in Ht. injection Ht as <- <- <-.
    exists ((key, VDict
               [("name", py_or (get_or_none test "name") (VStr key));
                ("name_smart",
                 py_or (py_or (get_or_none test "name_smart")
                          (get_or_none test "name")) (VStr key));
                ("points", VFloat p0);
                ("score", VDict [("weight", VFloat w0)]);
                ("color",
                 py_or (get_or_none test "color") (VStr (colour_for p0)));
                ("test_status", get_default test "test_status" (VStr ""));
                ("msg", m)]) :: entries), ((p0, w0) :: ts).
    rewrite <- app_assoc. cbn [app map fst snd bind]. rewrite Hk, Hts, Hsh.
    repeat split.
Qed.

Lemma shown_terms_app (entries : dict) (ts : list (float * float))
    (r : value) :
  ~ In "result" (map fst entries) ->
  map (fun kv => shown_term (snd kv)) entries = map Some ts ->
  shown_terms (entries ++ [("result", r)])%list = ts.
Proof.
  revert ts. induction entries as [| [k v] entries IH]; intros ts Hk Hsh.
  - destruct ts; [reflexivity | discriminate].
  - destruct ts as [| t ts]; [discriminate |].
    cbn [map snd] in Hsh. injection Hsh as Ht Hrest.
    cbn [map fst In] in Hk.
    cbn [app shown_terms]. unfold not_result at 1. cbn [fst snd].
    destruct (String.eqb_spec k "result") as [-> | Hne].
    + exfalso. apply Hk. now left.
    + cbn [negb]. rewrite Ht. f_equal. apply IH; [| exact Hrest].
      intros Hin. apply Hk. now right.
Qed.

(** A returned principle, written out: the processed indicators in the
    order of the input, then the aggregate. *)
Lemma process_principle_layout (data : dict) (dim : string) (items : dict)
    (processed : dict) (ps ws : float) :
  items_of data dim = Ok items ->
  NoDup (object_keys items) ->
  ~ In "result" (object_keys items) ->
  process_principle data dim = Ok (processed, ps, ws) ->
  exists entries ts,
    processed = (entries ++ [("result", result_entry (aggregate_of ts))])%list
    /\ map fst entries = object_keys items
    /\ indicator_terms items = Ok ts
    /\ map (fun kv => shown_term (snd kv)) entries = map Some ts.
Proof.
  intros Hitems Hnd Hres H.
  destruct (process_principle_inv _ _ _ _ _ H)
    as (items' & processed0 & ts & Hitems' & Hp & Hts & Hps & Hws & ->).
  rewrite Hitems in Hitems'. injection Hitems' as <-.
  destruct (process_items_appends items [] _ _ _ _ _ Hnd Hp)
    as (entries & ts' & -> & Hk & Hts' & Hsh).
  rewrite Hts in Hts'. injection Hts' as <-.
  cbn [app]. exists entries, ts.
  rewrite dict_set_absent by (rewrite Hk; exact Hres).
  unfold aggregate_of. rewrite <- Hps, <- Hws. repeat split; assumption.
Qed.

End KeyOrder.

(** ** The view model of a scored document *)

Section ViewModel.

Local Open Scope view_scope.

Lemma compute_scores_groups (data principles : dict) (fp : float)
    (fc : string) :
  compute_scores (VDict data) = Ok (principles, fp, fc) ->
  forall dim, In dim dims ->
    exists processed ps ws,
      dict_get principles dim = Some (VDict processed)
      /\ process_principle data dim = Ok (processed, ps, ws).
Proof.
  intros H.
  destruct (compute_scores_inv _ _ _ _ H)
    as (pf & sf & wf & pa & sa & wa & pi & si & wi & pr & sr & wr
        & Hf & Ha & Hi & Hr & -> & _ & _).
  intros dim [<- | [<- | [<- | [<- | []]]]]; do 3 eexists;
    (split; [reflexivity | eassumption]).
Qed.

Lemma dict_set_in_keys (d : dict) (k k' : string) (v : value) :
  In k (map fst (dict_set d k' v)) <-> In k (map fst d) \/ k = k'.
Proof.
  rewrite dict_set_keys.
  destruct (existsb (String.eqb k') (map fst d)) eqn:E.
  - apply existsb_eqb_in in E. split; [now left |].
    intros [H | ->]; assumption.
  - rewrite in_app_iff. cbn [In]. split.
    + intros [H | [<- | []]]; [now left | now right].
    + intros [H | ->]; [now left | right; now left].
Qed.

(** The keys the loop leaves are those it started with and those of the
    objects. *)
Lemma process_items_keys (items : dict) :
  forall processed ps ws processed' ps' ws',
    process_items items (processed, ps, ws) = Ok (processed', ps', ws') ->
    forall k, In k (map fst processed')
              <-> In k (map fst processed) \/ In k (object_keys items).
Proof.
  induction items as [| [key v] items IH];
    intros processed ps ws processed' ps' ws'.
  - cbn [process_items]. intros H. injection H as <- _ _.
    intros k. cbn. tauto.
  - destruct v as [| b | z | f | s | l | test]; cbn [process_items];
      try (rewrite object_keys_cons_other by reflexivity; apply IH).
    rewrite object_keys_cons_dict.
    destruct (process_test key test) as [[[entry p] w] |]; [| discriminate].
    cbn [bind]. intros H k. rewrite (IH _ _ _ _ _ _ H k), dict_set_in_keys.
    cbn [In]. intuition congruence.
Qed.

Lemma dict_get_some_iff (d : dict) (k : string) :
  (exists v, dict_get d k = Some v) <-> In k (map fst d).
Proof.
  destruct (dict_get d k) as [v |] eqn:E.
  - split; [intros _ | intros _; now exists v].
    apply dict_get_in in E. apply (in_map fst) in E. exact E.
  - split; [intros [v Hv]; discriminate |].
    intros Hin. apply dict_get_none_iff in E. contradiction.
Qed.

Lemma has_reserved_key_iff (processed : dict) :
  has_reserved_key processed = true
  <-> In "indicators" (map fst processed) \/ In "tests" (map fst processed).
Proof.
  unfold has_reserved_key.
  rewrite <- !dict_get_some_iff.
  destruct (dict_get processed "indicators") as [vi |];
    destruct (dict_get processed "tests") as [vt |]; split;
    try discriminate; try reflexivity.
  - intros _. left. now exists vi.
  - intros _. left. now exists vi.
  - intros _. right. now exists vt.
  - intros [[v Hv] | [v Hv]]; discriminate.
Qed.

Lemma reserved_iff (items : dict) :
  reserved items = true
  <-> In "indicators" (object_keys items) \/ In "tests" (object_keys items).
Proof.
  unfold reserved. rewrite existsb_exists. split.
  - intros (k & Hin & Hk). apply orb_true_iff in Hk.
    destruct Hk as [Hk | Hk]; apply String.eqb_eq in Hk; subst;
      [now left | now right].
  - intros [H | H]; eexists; (split; [exact H | reflexivity]).
Qed.

(** Whether a returned principle has one of the two keys, read off the
    input. *)
Lemma has_reserved_key_of_items (data : dict) (dim : string)
    (items processed : dict) (ps ws : float) :
  items_of data dim = Ok items ->
  process_principle data dim = Ok (processed, ps, ws) ->
  has_reserved_key processed = reserved items.
Proof.
  intros Hitems H.
  destruct (process_principle_inv _ _ _ _ _ H)
    as (items' & processed0 & ts & Hitems' & Hp & _ & _ & _ & ->).
  rewrite Hitems in Hitems'. injection Hitems' as <-.
  pose proof (process_items_keys _ _ _ _ _ _ _ Hp) as Hkeys.
  apply eq_true_iff_eq.
  rewrite has_reserved_key_iff, reserved_iff, !dict_set_in_keys, !Hkeys.
  cbn [map In]. intuition discriminate.
Qed.

Lemma area_summary_scored (int_of_str : string -> result Z) (processed : dict)
    (points : float) :
  dict_get processed "result" = Some (result_entry points) ->
  area_summary int_of_str (VDict processed)
  = (score <- lift (int_of_float points) ;;
     max <- max_for_group processed ;;
     Done (VDict [("score", VInt score); ("max", VInt max)])).
Proof.
  intros Hres. unfold area_summary, attr_get, get_default.
  rewrite Hres. reflexivity.
Qed.

End ViewModel.

Section ScoredView.

Variable int_of_str : string -> result Z.

Local Open Scope view_scope.

(** The assembly on the four returned principles: only the summaries
    can raise. *)
Lemma view_model_scored (pf pa pi pr : dict) (xf xa xi xr : float)
    (fair_points : float) (fair_color item_id plugin : string) :
  scored_group pf -> scored_group pa -> scored_group pi -> scored_group pr ->
  dict_get pf "result" = Some (result_entry xf) ->
  dict_get pa "result" = Some (result_entry xa) ->
  dict_get pi "result" = Some (result_entry xi) ->
  dict_get pr "result" = Some (result_entry xr) ->
  view_model int_of_str
    [("findable", VDict pf); ("accessible", VDict pa);
     ("interoperable", VDict pi); ("reusable", VDict pr)]
    fair_points fair_color item_id plugin
  = (sf <- area_summary int_of_str (VDict pf) ;;
     sa <- area_summary int_of_str (VDict pa) ;;
     si <- area_summary int_of_str (VDict pi) ;;
     sr <- area_summary int_of_str (VDict pr) ;;
     Done (mkContext
             [("findable", VFloat xf); ("accessible", VFloat xa);
              ("interoperable", VFloat xi); ("reusable", VFloat xr);
              ("fair", VFloat fair_points)]
             [("findable", VStr (colour_for xf));
              ("accessible", VStr (colour_for xa));
              ("interoperable", VStr (colour_for xi));
              ("reusable", VStr (colour_for xr));
              ("fair", VStr fair_color)]
             [("Findable", sf); ("Accessible", sa);
              ("Interoperable", si); ("Reusable", sr)]
             [("Findable", VList (accordion pf));
              ("Accessible", VList (accordion pa));
              ("Interoperable", VList (accordion pi));
              ("Reusable", VList (accordion pr))]
             (if String.eqb plugin "" then "default" else plugin)
             item_id)).
Proof.
  intros Sf Sa Si Sr Hf Ha Hi Hr.
  unfold view_model, aggregated_entry, colours_entry, dims, area_names.
  cbn [map build subscript attr_get get_default dict_get String.eqb Ascii.eqb
       Bool.eqb andthen].
  rewrite Hf, Ha, Hi, Hr.
  cbn [result_entry andthen dict_get String.eqb Ascii.eqb Bool.eqb
       area_indicators app].
  rewrite (tests_list_scored _ Sf), (tests_list_scored _ Sa),
    (tests_list_scored _ Si), (tests_list_scored _ Sr).
  cbn [andthen].
  destruct (area_summary int_of_str (VDict pf)); [| reflexivity].
  destruct (area_summary int_of_str (VDict pa)); [| reflexivity].
  destruct (area_summary int_of_str (VDict pi)); [| reflexivity].
  destruct (area_summary int_of_str (VDict pr)); reflexivity.
Qed.

Lemma area_summary_done (processed : dict) (points : float) :
  scored_group processed ->
  dict_get processed "result" = Some (result_entry points) ->
  is_done (area_summary int_of_str (VDict processed))
  = is_ok (int_of_float points) && negb (has_reserved_key processed).
Proof.
  intros Hs Hres. rewrite (area_summary_scored _ _ _ Hres).
  destruct (max_for_group_scored _ Hs) as [Hfree Hkey].
  destruct (int_of_float points) as [z |]; [| reflexivity].
  cbn [lift andthen is_ok andb].
  destruct (has_reserved_key processed).
  - specialize (Hkey eq_refl).
    destruct (max_for_group processed); [discriminate | reflexivity].
  - rewrite (Hfree eq_refl). reflexivity.
Qed.

Lemma area_summary_value (processed : dict) (points : float) (v : value) :
  scored_group processed ->
  dict_get processed "result" = Some (result_entry points) ->
  area_summary int_of_str (VDict processed) = Done v ->
  exists score,
    int_of_float points = Ok score
    /\ v = VDict [("score", VInt score); ("max", VInt 100)].
Proof.
  intros Hs Hres. rewrite (area_summary_scored _ _ _ Hres).
  destruct (max_for_group_scored _ Hs) as [Hfree Hkey].
  destruct (int_of_float points) as [z |]; [| discriminate].
  cbn [lift andthen].
  destruct (has_reserved_key processed).
  - specialize (Hkey eq_refl).
    destruct (max_for_group processed); discriminate.
  - rewrite (Hfree eq_refl). cbn [andthen]. intros H. injection H as <-.
    now exists z.
Qed.

Lemma scored_result (processed : dict) :
  scored_group processed ->
  exists points, dict_get processed "result" = Some (result_entry points).
Proof. intros (_ & H & _). exact H. Qed.

End ScoredView.

(** ** What the results page is built from *)

Section ResultsPage.

Local Open Scope view_scope.

(** X1. On every principle [compute_scores] returns, [_max_for_group]
    gives 100, its fallback, when no object of the input principle is
    keyed ["indicators"] or ["tests"]. When one is, it raises: the loop
    runs over the fields of the processed entry, reaches its float
    points and calls [.get] on them. So the summary's [max] is 100 or
    the request fails; the sums over [max_points] are never returned. *)
Theorem max_for_group_fallback_or_raises (data principles : dict)
    (fp : float) (fc dim : string) (items : dict) :
  compute_scores (VDict data) = Ok (principles, fp, fc) ->
  In dim dims ->
  items_of data dim = Ok items ->
  exists processed,
    dict_get principles dim = Some (VDict processed)
    /\ (reserved items = false -> max_for_group processed = Done 100)
    /\ (reserved items = true -> is_done (max_for_group processed) = false).
Proof.
  intros H Hdim Hitems.
  destruct (compute_scores_groups _ _ _ _ H dim Hdim)
    as (processed & ps & ws & Hget & Hp).
  exists processed. split; [exact Hget |].
  rewrite <- (has_reserved_key_of_items _ _ _ _ _ _ Hitems Hp).
  apply max_for_group_scored. eapply process_principle_scored. exact Hp.
Qed.

(** X1 at the sample document, where the fallback is returned, and at a
    document with an indicator keyed ["tests"], where the call raises. *)
Lemma max_for_group_witness :
  (exists principles fp fc processed,
      compute_scores (VDict asymmetric_doc) = Ok (principles, fp, fc)
      /\ dict_get principles "findable" = Some (VDict processed)
      /\ max_for_group processed = Done 100)
  /\ (exists principles fp fc processed,
        compute_scores (VDict tests_key_doc) = Ok (principles, fp, fc)
        /\ dict_get principles "findable" = Some (VDict processed)
        /\ is_done (max_for_group processed) = false).
Proof.
  split.
  - assert (H : {r | compute_scores (VDict asymmetric_doc) = Ok r})
      by (eexists; vm_compute; reflexivity).
    destruct H as [[[principles fp] fc] H].
    destruct (max_for_group_fallback_or_raises _ _ _ _ "findable" _ H
                (or_introl eq_refl) eq_refl)
      as (processed & Hget & Hfree & _).
    exists principles, fp, fc, processed.
    repeat split; [exact H | exact Hget | apply Hfree; reflexivity].
  - assert (H : {r | compute_scores (VDict tests_key_doc) = Ok r})
      by (eexists; vm_compute; reflexivity).
    destruct H as [[[principles fp] fc] H].
    destruct (max_for_group_fallback_or_raises _ _ _ _ "findable" _ H
                (or_introl eq_refl) eq_refl)
      as (processed & Hget & _ & Hkey).
    exists principles, fp, fc, processed.
    repeat split; [exact H | exact Hget | apply Hkey; reflexivity].
Defined.

(** X2. On every principle [compute_scores] returns, [_tests_list]
    returns: each entry other than the aggregate has the four fields it
    subscripts. It gives one item per such entry, in the order of the
    mapping, whose [id], [title] and [description] are the entry's name
    and whose [score] is its points; [logs] is the text ["logs"]
    whatever the entry's messages are, and [max_score] is 100. *)
Theorem tests_list_of_returned_principle (data principles : dict)
    (fp : float) (fc dim : string) :
  compute_scores (VDict data) = Ok (principles, fp, fc) ->
  In dim dims ->
  exists processed,
    dict_get principles dim = Some (VDict processed)
    /\ tests_list processed = Done (accordion processed).
Proof.
  intros H Hdim.
  destruct (compute_scores_groups _ _ _ _ H dim Hdim)
    as (processed & ps & ws & Hget & Hp).
  exists processed. split; [exact Hget |].
  apply tests_list_scored. eapply process_principle_scored. exact Hp.
Qed.

Lemma tests_list_witness :
  exists principles fp fc processed,
    compute_scores (VDict exact_one) = Ok (principles, fp, fc)
    /\ dict_get principles "findable" = Some (VDict processed)
    /\ tests_list processed = Done (accordion processed).
Proof.
  assert (H : {r | compute_scores (VDict exact_one) = Ok r})
    by (eexists; vm_compute; reflexivity).
  destruct H as [[[principles fp] fc] H].
  destruct (tests_list_of_returned_principle _ _ _ _ "findable" H
              (or_introl eq_refl)) as (processed & Hget & Hlist).
  exists principles, fp, fc, processed. repeat split; assumption.
Defined.

(** On four scored principles the assembly returns exactly when the
    four summaries can be built. *)
Lemma view_model_done (int_of_str : string -> result Z) (pf pa pi pr : dict)
    (fp : float) (fc item_id plugin : string) :
  scored_group pf -> scored_group pa -> scored_group pi -> scored_group pr ->
  is_done
    (view_model int_of_str
       [("findable", VDict pf); ("accessible", VDict pa);
        ("interoperable", VDict pi); ("reusable", VDict pr)]
       fp fc item_id plugin)
  = forallb
      (area_renders
         [("findable", VDict pf); ("accessible", VDict pa);
          ("interoperable", VDict pi); ("reusable", VDict pr)]) dims.
Proof.
  intros Hf Ha Hi Hr.
  destruct (scored_result _ Hf) as [xf Xf], (scored_result _ Ha) as [xa Xa],
    (scored_result _ Hi) as [xi Xi], (scored_result _ Hr) as [xr Xr].
  rewrite (view_model_scored int_of_str _ _ _ _ _ _ _ _ fp fc item_id plugin
             Hf Ha Hi Hr Xf Xa Xi Xr).
  unfold dims, area_renders, aggregate_points.
  cbn [forallb dict_get String.eqb Ascii.eqb Bool.eqb].
  rewrite Xf, Xa, Xi, Xr.
  cbn [result_entry dict_get String.eqb Ascii.eqb Bool.eqb].
  rewrite <- (area_summary_done int_of_str _ _ Hf Xf),
    <- (area_summary_done int_of_str _ _ Ha Xa),
    <- (area_summary_done int_of_str _ _ Hi Xi),
    <- (area_summary_done int_of_str _ _ Hr Xr).
  destruct (area_summary int_of_str (VDict pf)); [| reflexivity].
  destruct (area_summary int_of_str (VDict pa)); [| reflexivity].
  destruct (area_summary int_of_str (VDict pi)); [| reflexivity].
  destruct (area_summary int_of_str (VDict pr)); reflexivity.
Qed.

(** X3. From the results of [compute_scores] the view model is built
    without an exception exactly when every principle's aggregate has an
    integer part (it is neither infinite nor NaN) and no principle holds
    an indicator under ["indicators"] or ["tests"]. Otherwise the
    exception leaves the handler: nothing catches it. *)
Theorem view_model_returns_iff_renderable
    (int_of_str : string -> result Z) (data principles : dict) (fp : float)
    (fc item_id plugin : string) :
  compute_scores (VDict data) = Ok (principles, fp, fc) ->
  is_done (view_model int_of_str principles fp fc item_id plugin)
  = forallb (area_renders principles) dims.
Proof.
  intros H.
  destruct (compute_scores_inv _ _ _ _ H)
    as (pf & sf & wf & pa & sa & wa & pi & si & wi & pr & sr & wr
        & Hf & Ha & Hi & Hr & -> & _ & _).
  apply view_model_done; eapply process_principle_scored; eassumption.
Qed.

(** X3 at the sample document, which is rendered, and at a document
    whose aggregate overflows to infinity, which is not. *)
Lemma view_model_witness :
  (exists principles fp fc,
      compute_scores (VDict asymmetric_doc) = Ok (principles, fp, fc)
      /\ forallb (area_renders principles) dims = true
      /\ is_done (view_model (fun _ => Raise ValueError) principles fp fc
                    "10.1234/x" "")
         = true)
  /\ (exists principles fp fc,
        compute_scores (VDict overflow_doc) = Ok (principles, fp, fc)
        /\ forallb (area_renders principles) dims = false
        /\ is_done (view_model (fun _ => Raise ValueError) principles fp fc
                      "10.1234/x" "")
           = false).
Proof.
  split.
  - do 3 eexists. split; [vm_compute; reflexivity |].
    match goal with
    | |- _ /\ is_done (view_model _ ?P ?p ?c _ _) = _ =>
        assert (H : compute_scores (VDict asymmetric_doc) = Ok (P, p, c))
          by (vm_compute; reflexivity);
        assert (Hr : forallb (area_renders P) dims = true)
          by (vm_compute; reflexivity)
    end.
    split; [exact Hr |].
    rewrite (view_model_returns_iff_renderable (fun _ => Raise ValueError)
               _ _ _ _ "10.1234/x" "" H).
    exact Hr.
  - do 3 eexists. split; [vm_compute; reflexivity |].
    match goal with
    | |- _ /\ is_done (view_model _ ?P ?p ?c _ _) = _ =>
        assert (H : compute_scores (VDict overflow_doc) = Ok (P, p, c))
          by (vm_compute; reflexivity);
        assert (Hr : forallb (area_renders P) dims = false)
          by (vm_compute; reflexivity)
    end.
    split; [exact Hr |].
    rewrite (view_model_returns_iff_renderable (fun _ => Raise ValueError)
               _ _ _ _ "10.1234/x" "" H).
    exact Hr.
Defined.

(** X4. When the view model is built, it holds for each principle the
    aggregate points (under [aggregated]), the colour of their band
    (under [colours]), the summary [{"score": s, "max": 100}] where [s]
    is the aggregate truncated to an integer, and the accordion items of
    the principle; under ["fair"] it holds the overall score and the
    colour of its band. The plugin name is ["default"] when the request
    names none, and the resource is the stripped identifier. *)
Theorem view_model_content (int_of_str : string -> result Z)
    (data principles : dict) (fp : float) (fc item_id plugin : string)
    (ctx : context) :
  compute_scores (VDict data) = Ok (principles, fp, fc) ->
  view_model int_of_str principles fp fc item_id plugin = Done ctx ->
  (forall area dim, In (area, dim) area_names ->
     exists processed points score,
       dict_get principles dim = Some (VDict processed)
       /\ aggregate_points principles dim = Some points
       /\ int_of_float points = Ok score
       /\ dict_get (aggregated ctx) dim = Some (VFloat points)
       /\ dict_get (colours ctx) dim = Some (VStr (colour_for points))
       /\ dict_get (summary_by_area ctx) area
          = Some (VDict [("score", VInt score); ("max", VInt 100)])
       /\ dict_get (indicators_by_area ctx) area
          = Some (VList (accordion processed)))
  /\ dict_get (aggregated ctx) "fair" = Some (VFloat fp)
  /\ dict_get (colours ctx) "fair" = Some (VStr (colour_for fp))
  /\ plugin_name ctx = (if String.eqb plugin "" then "default" else plugin)
  /\ resource_id ctx = item_id.
Proof.
  intros H.
  destruct (compute_scores_inv _ _ _ _ H)
    as (pf & sf & wf & pa & sa & wa & pi & si & wi & pr & sr & wr
        & Hf & Ha & Hi & Hr & -> & _ & ->).
  apply process_principle_scored in Hf, Ha, Hi, Hr.
  destruct (scored_result _ Hf) as [xf Xf], (scored_result _ Ha) as [xa Xa],
    (scored_result _ Hi) as [xi Xi], (scored_result _ Hr) as [xr Xr].
  rewrite (view_model_scored int_of_str _ _ _ _ _ _ _ _ fp _ item_id plugin
             Hf Ha Hi Hr Xf Xa Xi Xr).
  destruct (area_summary int_of_str (VDict pf)) as [vf |] eqn:Ef;
    [| discriminate].
  destruct (area_summary int_of_str (VDict pa)) as [va |] eqn:Ea;
    [| discriminate].
  destruct (area_summary int_of_str (VDict pi)) as [vi |] eqn:Ei;
    [| discriminate].
  destruct (area_summary int_of_str (VDict pr)) as [vr |] eqn:Er;
    [| discriminate].
  cbn [andthen]. intros Hctx. injection Hctx as <-.
  destruct (area_summary_value int_of_str _ _ _ Hf Xf Ef) as (zf & Zf & ->).
  destruct (area_summary_value int_of_str _ _ _ Ha Xa Ea) as (za & Za & ->).
  destruct (area_summary_value int_of_str _ _ _ Hi Xi Ei) as (zi & Zi & ->).
  destruct (area_summary_value int_of_str _ _ _ Hr Xr Er) as (zr & Zr & ->).
  split; [| repeat split].
  intros area dim Hin. unfold area_names in Hin.
  assert (Hagg : forall processed x,
            dict_get processed "result" = Some (result_entry x) ->
            match dict_get processed "result" with
            | Some (VDict r) =>
                match dict_get r "points" with
                | Some (VFloat f) => Some f
                | _ => None
                end
            | _ => None
            end = Some x).
  { intros processed x ->. reflexivity. }
  destruct Hin as [Heq | [Heq | [Heq | [Heq | []]]]]; injection Heq as <- <-.
  - exists pf, xf, zf. unfold aggregate_points.
    cbn [dict_get String.eqb Ascii.eqb Bool.eqb aggregated colours
         summary_by_area indicators_by_area].
    rewrite (Hagg _ _ Xf). repeat split. exact Zf.
  - exists pa, xa, za. unfold aggregate_points.
    cbn [dict_get String.eqb Ascii.eqb Bool.eqb aggregated colours
         summary_by_area indicators_by_area].
    rewrite (Hagg _ _ Xa). repeat split. exact Za.
  - exists pi, xi, zi. unfold aggregate_points.
    cbn [dict_get String.eqb Ascii.eqb Bool.eqb aggregated colours
         summary_by_area indicators_by_area].
    rewrite (Hagg _ _ Xi). repeat split. exact Zi.
  - exists pr, xr, zr. unfold aggregate_points.
    cbn [dict_get String.eqb Ascii.eqb Bool.eqb aggregated colours
         summary_by_area indicators_by_area].
    rewrite (Hagg _ _ Xr). repeat split. exact Zr.
Qed.

(** X4 at the sample document: 100 of 100 for findable, 0 of 100 for
    the others, and 76.92 overall. *)
Lemma view_model_content_witness :
  exists principles fp fc ctx,
    compute_scores (VDict asymmetric_doc) = Ok (principles, fp, fc)
    /\ view_model (fun _ => Raise ValueError) principles fp fc "10.1234/x" ""
       = Done ctx
    /\ dict_get (summary_by_area ctx) "Findable"
       = Some (VDict [("score", VInt 100); ("max", VInt 100)])
    /\ dict_get (aggregated ctx) "fair" = Some (VFloat 76.92)
    /\ plugin_name ctx = "default".
Proof.
  do 4 eexists.
  match goal with
  | |- ?scores /\ ?built /\ _ =>
      assert (H : scores) by (vm_compute; reflexivity);
      assert (Hctx : built) by (vm_compute; reflexivity)
  end.
  destruct (view_model_content _ _ _ _ _ _ _ _ H Hctx)
    as (_ & _ & _ & Hplugin & _).
  split; [exact H |]. split; [exact Hctx |].
  split; [vm_compute; reflexivity |].
  split; [vm_compute; reflexivity |].
  exact Hplugin.
Defined.

End ResultsPage.

(** ** The layout of a returned principle *)

Section Layout.

Lemma object_keys_in (items : dict) (k : string) :
  In k (object_keys items) -> In k (map fst items).
Proof.
  unfold object_keys. rewrite !in_map_iff.
  intros (kv & Hk & Hin). apply filter_In in Hin. exists kv. tauto.
Qed.

(** The keys of a Python mapping are distinct, so those of its objects
    are. *)
Lemma object_keys_nodup (items : dict) :
  NoDup (map fst items) -> NoDup (object_keys items).
Proof.
  induction items as [| [k v] items IH]; intros Hnd; [constructor |].
  cbn [map fst] in Hnd. inversion Hnd as [| ? ? Hk Hrest]. subst.
  destruct v; try (rewrite object_keys_cons_other by reflexivity; now apply IH).
  rewrite object_keys_cons_dict. constructor; [| now apply IH].
  intros Hin. apply Hk, object_keys_in, Hin.
Qed.

Ltac distinct_keys :=
  repeat (constructor;
          [cbn [In]; intros Hin;
           repeat (destruct Hin as [Hin | Hin]; [discriminate Hin |]);
           exact Hin |]);
  constructor.

(** X5. A returned principle holds one entry for each object of the
    input principle, under the object's key and in the order of the
    input, followed by the aggregate under ["result"]; entries that are
    no objects are dropped. When an object is itself keyed ["result"],
    the aggregate takes its place instead of coming last. *)
Theorem principle_keys_in_input_order (data principles : dict) (fp : float)
    (fc dim : string) (items : dict) :
  compute_scores (VDict data) = Ok (principles, fp, fc) ->
  In dim dims ->
  items_of data dim = Ok items ->
  NoDup (map fst items) ->
  exists processed,
    dict_get principles dim = Some (VDict processed)
    /\ map fst processed
       = if existsb (String.eqb "result") (object_keys items)
         then object_keys items
         else (object_keys items ++ ["result"])%list.
Proof.
  intros H Hdim Hitems Hnd.
  destruct (compute_scores_groups _ _ _ _ H dim Hdim)
    as (processed & ps & ws & Hget & Hp).
  exists processed. split; [exact Hget |].
  destruct (process_principle_inv _ _ _ _ _ Hp)
    as (items' & processed0 & ts & Hitems' & Hloop & _ & _ & _ & ->).
  rewrite Hitems in Hitems'. injection Hitems' as <-.
  destruct (process_items_appends items [] _ _ _ _ _
              (object_keys_nodup _ Hnd) Hloop)
    as (entries & ts' & -> & Hk & _ & _).
  cbn [app]. rewrite dict_set_keys, Hk. reflexivity.
Qed.

(** X5 at a principle with an entry that is no object, and at one with
    an indicator keyed ["result"]. *)
Lemma principle_keys_witness :
  (exists principles fp fc processed,
      compute_scores (VDict exact_one) = Ok (principles, fp, fc)
      /\ dict_get principles "findable" = Some (VDict processed)
      /\ map fst processed = ["f1"; "f2"; "f3"; "result"])
  /\ (exists principles fp fc processed,
        compute_scores (VDict result_key_doc) = Ok (principles, fp, fc)
        /\ dict_get principles "findable" = Some (VDict processed)
        /\ map fst processed = ["result"; "f2"]).
Proof.
  split.
  - assert (H : {r | compute_scores (VDict exact_one) = Ok r})
      by (eexists; vm_compute; reflexivity).
    destruct H as [[[principles fp] fc] H].
    destruct (principle_keys_in_input_order _ _ _ _ "findable" _ H
                (or_introl eq_refl) eq_refl ltac:(distinct_keys))
      as (processed & Hget & Hkeys).
    exists principles, fp, fc, processed.
    repeat split; [exact H | exact Hget | exact Hkeys].
  - assert (H : {r | compute_scores (VDict result_key_doc) = Ok r})
      by (eexists; vm_compute; reflexivity).
    destruct H as [[[principles fp] fc] H].
    destruct (principle_keys_in_input_order _ _ _ _ "findable" _ H
                (or_introl eq_refl) eq_refl ltac:(distinct_keys))
      as (processed & Hget & Hkeys).
    exists principles, fp, fc, processed.
    repeat split; [exact H | exact Hget | exact Hkeys].
Defined.

(** X6. The aggregate of a returned principle can be recomputed from the
    entries returned with it: taken in order, their [points] and
    [score.weight] are the terms of the two sums, so the ["result"]
    points are [round(s / w, 2) if w > 0 else 0.0] over them. This needs
    that no indicator is keyed ["result"]: such an indicator counts in
    the sums and is not returned. *)
Theorem aggregate_recomputable_from_entries (data principles : dict)
    (fp : float) (fc dim : string) (items : dict) :
  compute_scores (VDict data) = Ok (principles, fp, fc) ->
  In dim dims ->
  items_of data dim = Ok items ->
  NoDup (map fst items) ->
  ~ In "result" (object_keys items) ->
  exists processed,
    dict_get principles dim = Some (VDict processed)
    /\ indicator_terms items = Ok (shown_terms processed)
    /\ aggregate_points principles dim
       = Some (aggregate_of (shown_terms processed)).
Proof.
  intros H Hdim Hitems Hnd Hres.
  destruct (compute_scores_groups _ _ _ _ H dim Hdim)
    as (processed & ps & ws & Hget & Hp).
  exists processed. split; [exact Hget |].
  destruct (process_principle_layout _ _ _ _ _ _ Hitems
              (object_keys_nodup _ Hnd) Hres Hp)
    as (entries & ts & -> & Hk & Hts & Hsh).
  assert (Hshown : shown_terms
                     (entries
                      ++ [("result", result_entry (aggregate_of ts))])%list
                   = ts).
  { apply shown_terms_app; [rewrite Hk; exact Hres | exact Hsh]. }
  rewrite Hshown. split; [exact Hts |].
  unfold aggregate_points. rewrite Hget.
  assert (Hlast : dict_get
                    (entries
                     ++ [("result", result_entry (aggregate_of ts))])%list
                    "result"
                  = Some (result_entry (aggregate_of ts))).
  { rewrite <- (dict_set_absent entries "result")
      by (rewrite Hk; exact Hres).
    apply dict_get_set_same. }
  rewrite Hlast. reflexivity.
Qed.

(** X6 at the sample with three indicators and an entry that is no
    object; an indicator keyed ["result"] is left out of the entries
    though it counts. *)
Lemma aggregate_recomputable_witness :
  (exists principles fp fc processed,
      compute_scores (VDict exact_one) = Ok (principles, fp, fc)
      /\ dict_get principles "findable" = Some (VDict processed)
      /\ shown_terms processed = [(100, 1); (0, 1); (50, 2)]%float
      /\ aggregate_points principles "findable"
         = Some (aggregate_of (shown_terms processed)))
  /\ (exists principles fp fc processed,
        compute_scores (VDict result_key_doc) = Ok (principles, fp, fc)
        /\ dict_get principles "findable" = Some (VDict processed)
        /\ aggregate_points principles "findable" = Some 50%float
        /\ aggregate_of (shown_terms processed) = 20%float).
Proof.
  split.
  - assert (H : {r | compute_scores (VDict exact_one) = Ok r})
      by (eexists; vm_compute; reflexivity).
    destruct H as [[[principles fp] fc] H].
    destruct (aggregate_recomputable_from_entries _ _ _ _ "findable" _ H
                (or_introl eq_refl) eq_refl ltac:(distinct_keys))
      as (processed & Hget & Hterms & Hagg).
    { cbn [In]. intros Hin.
      repeat (destruct Hin as [Hin | Hin]; [discriminate Hin |]).
      exact Hin. }
    exists principles, fp, fc, processed.
    repeat split; [exact H | exact Hget | | exact Hagg].
    assert (E : Ok (shown_terms processed)
                = Ok [(100, 1); (0, 1); (50, 2)]%float)
      by (rewrite <- Hterms; vm_compute; reflexivity).
    injection E as E. exact E.
  - do 4 eexists. split; [vm_compute; reflexivity |].
    split; [reflexivity |]. split; vm_compute; reflexivity.
Defined.

End Layout.

(** ** How a request ends *)

Section Requests.

Lemma chars_cons (c : ascii) (s : string) :
  list_ascii_of_string (String c s) = c :: list_ascii_of_string s.
Proof. reflexivity. Qed.

Lemma lstrip_with_empty (p : ascii -> bool) (s : string) :
  lstrip_with p s = "" <-> forallb p (list_ascii_of_string s) = true.
Proof.
  induction s as [| c s IH]; [cbn; tauto |].
  cbn [lstrip_with]. rewrite chars_cons. cbn [forallb].
  destruct (p c); cbn [andb]; [exact IH |].
  split; discriminate.
Qed.

Lemma rstrip_with_empty (p : ascii -> bool) (s : string) :
  rstrip_with p s = "" <-> forallb p (list_ascii_of_string s) = true.
Proof.
  induction s as [| c s IH]; [cbn; tauto |].
  cbn [rstrip_with]. rewrite chars_cons. cbn [forallb].
  destruct (rstrip_with p s) as [| c' r].
  - rewrite (proj1 IH eq_refl), andb_true_r.
    destruct (p c); split; try reflexivity; discriminate.
  - split; [discriminate |].
    intros H. apply andb_true_iff in H. destruct H as [_ H].
    apply IH in H. discriminate.
Qed.

(** What [rstrip] leaves is empty or ends in a character it keeps. *)
Lemma rstrip_with_all (p : ascii -> bool) (s : string) :
  forallb p (list_ascii_of_string (rstrip_with p s)) = true ->
  rstrip_with p s = "".
Proof.
  induction s as [| c s IH]; [reflexivity |].
  cbn [rstrip_with]. destruct (rstrip_with p s) as [| c' r].
  - destruct (p c) eqn:E; [reflexivity |].
    rewrite chars_cons. cbn [forallb]. rewrite E. discriminate.
  - rewrite chars_cons. cbn [forallb]. intros H.
    apply andb_true_iff in H. destruct H as [_ H].
    apply IH in H. discriminate.
Qed.

(** [s.strip()] is empty exactly for a string of whitespace. *)
Lemma strip_empty (s : string) : String.eqb (strip s) "" = blank s.
Proof.
  apply eq_true_iff_eq. rewrite String.eqb_eq. unfold strip, blank.
  rewrite lstrip_with_empty. split.
  - intros H. apply rstrip_with_all in H. apply rstrip_with_empty, H.
  - intros H. apply rstrip_with_empty in H. rewrite H. reflexivity.
Qed.

Lemma compute_scores_returns_on (v : value) :
  is_ok (compute_scores v) = wf_value v.
Proof.
  destruct v; try reflexivity. apply compute_scores_returns.
Qed.

(** X7. [evaluator] redirects to the index exactly when the identifier
    of the request is missing or consists of whitespace. It then opens
    no file and leaves the settings alone; otherwise it opens the sample
    file, once, and leaves the settings in development mode. *)
Theorem evaluator_redirects_iff_blank (cfg : Settings)
    (values : list (string * string)) (w : world) :
  is_redirect (outcome_of (evaluator cfg values w))
  = blank (form_value values "item_id")
  /\ trace_of (evaluator cfg values w)
     = (if blank (form_value values "item_id") then []
        else [OpenFile (sample_file cfg)])
  /\ settings_after (evaluator cfg values w)
     = (if blank (form_value values "item_id") then cfg
        else set_dev_mode cfg true).
Proof.
  unfold evaluator. rewrite strip_empty.
  destruct (blank (form_value values "item_id")); [repeat split |].
  unfold evaluate_with, load_result_data. cbn [set_dev_mode dev_mode sample_file].
  unfold outcome_of, trace_of, settings_after. cbn [fst snd].
  repeat split.
  destruct (read_json w (sample_file cfg)) as [json_data |]; [| reflexivity].
  cbn [bind]. destruct (select_data json_data) as [v |]; [| reflexivity].
  cbn [respond]. destruct (negb (truthy v)); [reflexivity |].
  destruct (compute_scores v) as [[[principles fp] fc] |]; reflexivity.
Qed.

(** X8. How a request with an identifier ends, by what the sample file
    holds. A file that cannot be read or parsed, or whose content is no
    object, gives the page "Error loading evaluation data". An object
    whose first value under a key other than [evaluator_logs] is
    missing or falsy gives "No evaluation data returned". Any other
    first value is handed to [compute_scores] outside the [try]
    statement: the scores are reached exactly when it is a well-formed
    document, and otherwise the exception leaves the handler. *)
Theorem evaluator_outcome_by_sample (cfg : Settings)
    (values : list (string * string)) (w : world) :
  blank (form_value values "item_id") = false ->
  match read_json w (sample_file cfg) with
  | Raise e =>
      outcome_of (evaluator cfg values w) = ErrorPage (ErrorLoading e)
  | Ok (VDict items) =>
      (truthy (first_data items) = false ->
       outcome_of (evaluator cfg values w) = ErrorPage NoEvaluationData)
      /\ (truthy (first_data items) = true ->
          is_scored (outcome_of (evaluator cfg values w))
          = wf_value (first_data items)
          /\ is_uncaught (outcome_of (evaluator cfg values w))
             = negb (wf_value (first_data items)))
  | Ok _ =>
      outcome_of (evaluator cfg values w)
      = ErrorPage (ErrorLoading AttributeError)
  end.
Proof.
  intros Hid. unfold evaluator. rewrite strip_empty, Hid.
  unfold evaluate_with, load_result_data.
  cbn [set_dev_mode dev_mode sample_file]. unfold outcome_of. cbn [snd].
  destruct (read_json w (sample_file cfg)) as [json_data |]; [| reflexivity].
  cbn [bind]. destruct json_data; try reflexivity.
  cbn [select_data respond]. split; intros Ht; rewrite Ht; cbn [negb].
  - reflexivity.
  - rewrite <- compute_scores_returns_on.
    destruct (compute_scores (first_data d)) as [[[principles fp] fc] |];
      split; reflexivity.
Qed.

(** X8 at the fixture, whose first data value is the sample document,
    and at a file that holds only the logs. *)
Lemma evaluator_outcome_witness :
  is_scored
    (outcome_of (evaluator production_cfg [("item_id", " 10.1234/x ")]
                   failing_api_world)) = true
  /\ outcome_of
       (evaluator production_cfg [("item_id", "10.1234/x")]
          (mkWorld (fun _ => Ok (VDict [("evaluator_logs", VList [])]))
             (fun _ _ _ => Raise RequestException)))
     = ErrorPage NoEvaluationData.
Proof.
  split.
  - pose proof (evaluator_outcome_by_sample production_cfg
                  [("item_id", " 10.1234/x ")] failing_api_world eq_refl)
      as H.
    cbn [read_json failing_api_world] in H.
    destruct H as [_ H]. destruct (H eq_refl) as [Hs _].
    rewrite Hs. vm_compute. reflexivity.
  - pose proof (evaluator_outcome_by_sample production_cfg
                  [("item_id", "10.1234/x")]
                  (mkWorld
                     (fun _ => Ok (VDict [("evaluator_logs", VList [])]))
                     (fun _ _ _ => Raise RequestException)) eq_refl) as H.
    cbn [read_json] in H. destruct H as [H _]. apply H. reflexivity.
Defined.

End Requests.

Section RequestPage.

Local Open Scope view_scope.

(** X9. A request whose sample document is scored ends with [eval.html]
    exactly when the view model can be built: every aggregate has an
    integer part and no indicator is keyed ["indicators"] or ["tests"].
    Otherwise it ends with an exception that nothing in the handler
    catches, not with the error page. *)
Theorem scored_request_renders_or_fails (int_of_str : string -> result Z)
    (cfg : Settings) (values : list (string * string)) (w : world)
    (items principles : dict) (fp : float) (fc : string) :
  blank (form_value values "item_id") = false ->
  read_json w (sample_file cfg) = Ok (VDict items) ->
  truthy (first_data items) = true ->
  compute_scores (first_data items) = Ok (principles, fp, fc) ->
  is_eval_html (page_of (evaluator_page int_of_str cfg values w))
  = forallb (area_renders principles) dims
  /\ is_unhandled (page_of (evaluator_page int_of_str cfg values w))
     = negb (forallb (area_renders principles) dims).
Proof.
  intros Hid Hread Htruthy Hscores.
  unfold evaluator_page, evaluator. rewrite strip_empty, Hid.
  unfold evaluate_with, load_result_data.
  cbn [set_dev_mode dev_mode sample_file]. rewrite Hread.
  cbn [bind select_data respond]. rewrite Htruthy. cbn [negb].
  rewrite Hscores. unfold page_of. cbn [snd].
  destruct (first_data items) as [| b | z | f | s | l | data];
    try discriminate.
  destruct (compute_scores_inv _ _ _ _ Hscores)
    as (pf & sf & wf & pa & sa & wa & pi & si & wi & pr & sr & wr
        & Hf & Ha & Hi & Hr & -> & _ & _).
  apply process_principle_scored in Hf, Ha, Hi, Hr.
  rewrite <- (view_model_done int_of_str _ _ _ _ fp fc
                (strip (form_value values "item_id"))
                (strip (form_value values "plugin")) Hf Ha Hi Hr).
  destruct (view_model _ _ _ _ _ _); split; reflexivity.
Qed.

(** X9 at the fixture, which is rendered, and at a sample whose
    aggregate overflows, which is not. *)
Lemma scored_request_witness :
  is_eval_html
    (page_of (evaluator_page (fun _ => Raise ValueError) production_cfg
                [("item_id", "10.1234/x")] failing_api_world)) = true
  /\ is_unhandled
       (page_of (evaluator_page (fun _ => Raise ValueError) production_cfg
                   [("item_id", "10.1234/x")]
                   (mkWorld
                      (fun _ => Ok (VDict [("group1", VDict overflow_doc)]))
                      (fun _ _ _ => Raise RequestException)))) = true.
Proof.
  split.
  - assert (H : {r | compute_scores (first_data fixture) = Ok r})
      by (eexists; vm_compute; reflexivity).
    destruct H as [[[principles fp] fc] H].
    destruct (scored_request_renders_or_fails (fun _ => Raise ValueError)
                production_cfg [("item_id", "10.1234/x")] failing_api_world
                fixture principles fp fc eq_refl eq_refl eq_refl H)
      as [Hpage _].
    rewrite Hpage. vm_compute in H. injection H as <- _ _.
    vm_compute. reflexivity.
  - assert (H : {r | compute_scores
                       (first_data [("group1", VDict overflow_doc)]) = Ok r})
      by (eexists; vm_compute; reflexivity).
    destruct H as [[[principles fp] fc] H].
    destruct (scored_request_renders_or_fails (fun _ => Raise ValueError)
                production_cfg [("item_id", "10.1234/x")]
                (mkWorld
                   (fun _ => Ok (VDict [("group1", VDict overflow_doc)]))
                   (fun _ _ _ => Raise RequestException))
                [("group1", VDict overflow_doc)] principles fp fc
                eq_refl eq_refl eq_refl H)
      as [_ Hpage].
    rewrite Hpage. vm_compute in H. injection H as <- _ _.
    vm_compute. reflexivity.
Defined.

End RequestPage.

(** ** The API endpoint *)

Section Endpoint.

Lemma slashes_blank (n : nat) :
  forallb (Ascii.eqb "/"%char) (list_ascii_of_string (slashes n)) = true.
Proof. induction n as [| n IH]; [reflexivity | exact IH]. Qed.

(** [rstrip("/")] drops every trailing slash. *)
Lemma rstrip_slash_slashes (s : string) (n : nat) :
  rstrip_slash (s ++ slashes n) = rstrip_slash s.
Proof.
  unfold rstrip_slash. induction s as [| c s IH].
  - cbn [append rstrip_with]. apply rstrip_with_empty, slashes_blank.
  - cbn [append rstrip_with]. rewrite IH. reflexivity.
Qed.

(** X10. The endpoint does not depend on slashes at the end of the
    configured API URL: for a URL that ends in no slash, followed by any
    number of slashes, it is the URL, a colon, the port in decimal, and
    the path [/v1.0/rda/rda_all]. *)
Theorem endpoint_ignores_trailing_slashes (cfg : Settings) (url : string)
    (n : nat) :
  ends_with_slash url = false ->
  endpoint (with_api_url cfg (url ++ slashes n))
  = (url ++ ":" ++ str_of_int (api_port cfg) ++ "/v1.0/rda/rda_all")%string.
Proof.
  intros Hurl. rewrite endpoint_url. unfold with_api_url.
  cbn [api_url api_port].
  rewrite rstrip_slash_slashes, (rstrip_slash_id _ Hurl). reflexivity.
Qed.

Lemma endpoint_witness :
  endpoint (with_api_url production_cfg "https://fair.example.org//")
  = "https://fair.example.org:9090/v1.0/rda/rda_all".
Proof.
  exact (endpoint_ignores_trailing_slashes production_cfg
           "https://fair.example.org" 2 eq_refl).
Defined.

End Endpoint.

(** ** The command line *)

Section CommandLine.

Lemma override_str_applied (a : option string) (x : string) :
  option_applied "" a x (override_str a x).
Proof.
  unfold option_applied, override_str. repeat split.
  - intros ->. reflexivity.
  - intros ->. reflexivity.
  - intros s -> Hs. destruct (String.eqb_spec s ""); [contradiction |].
    reflexivity.
Qed.

Lemma override_int_applied (a : option Z) (x : Z) :
  option_applied 0 a x (override_int a x).
Proof.
  unfold option_applied, override_int. repeat split.
  - intros ->. reflexivity.
  - intros ->. reflexivity.
  - intros z -> Hz. destruct (Z.eqb_spec z 0); [contradiction |].
    reflexivity.
Qed.

(** X11. What [main] does to the settings. Each of the options
    [--api-url], [--api-port], [--title], [--logo-url], [--logo-image]
    and [--sample-file] replaces its default when it is given and is
    not the empty text (not 0, for the port); given as the empty text
    or as port 0 it is ignored, as when it is not given. The
    development flag is on exactly when [--dev] is given or
    [FAIR_EVA_DEV] is the text ["1"]: no other value, [true] included,
    turns it on, and no option turns it off. The server gets the host
    and port options, and this flag as its debug flag. *)
Theorem main_settings_from_options (int_of_str : string -> result Z)
    (packaged_sample : string) (env : list (string * string))
    (defaults : Settings) (args : Args) :
  default_settings int_of_str packaged_sample env = Ok defaults ->
  let cfg := fst (main defaults args) in
  snd (main defaults args) = (host args, port args, dev_mode cfg)
  /\ dev_mode cfg
     = (dev args || String.eqb (getenv env "FAIR_EVA_DEV" "0") "1")
  /\ option_applied 0 (arg_api_port args) (api_port defaults) (api_port cfg)
  /\ option_applied "" (arg_api_url args) (api_url defaults) (api_url cfg)
  /\ option_applied "" (arg_title args) (title defaults) (title cfg)
  /\ option_applied "" (arg_logo_url args) (logo_url defaults) (logo_url cfg)
  /\ option_applied "" (arg_logo_image args) (logo_image defaults)
       (logo_image cfg)
  /\ option_applied "" (arg_sample_file args) (sample_file defaults)
       (sample_file cfg).
Proof.
  unfold default_settings.
  destruct (int_of_str (getenv env "FAIR_EVA_API_PORT" "9090")) as [p |];
    [| discriminate].
  cbn [bind]. intros H. injection H as <-.
  cbn [main fst snd override_settings dev_mode api_port api_url title
       logo_url logo_image sample_file].
  split; [reflexivity |].
  split; [destruct (dev args); reflexivity |].
  split; [apply override_int_applied |].
  repeat split; apply override_str_applied.
Qed.

(** X11 with [FAIR_EVA_DEV=true] and [FAIR_EVA_TITLE] set, and the
    options [--api-port 0 --title "" --logo-url https://example.org
    --api-url https://fair.example.org]: the port and the title keep
    their defaults, the two URLs are replaced, and development mode
    stays off. *)
Lemma main_settings_witness :
  let env := [("FAIR_EVA_DEV", "true"); ("FAIR_EVA_TITLE", "My FAIR")] in
  let defaults := mkSettings "http://localhost" 9090 "My FAIR"
                    "https://digital.csic.es" "logo_fair_eosc.png" false
                    "data/salida_new.json" in
  let args := mkArgs "0.0.0.0" 8080 (Some "https://fair.example.org")
                (Some 0) (Some "") (Some "https://example.org") None
                false None in
  default_settings (fun _ => Ok 9090) "data/salida_new.json" env
  = Ok defaults
  /\ snd (main defaults args) = ("0.0.0.0", 8080, false)
  /\ api_port (fst (main defaults args)) = 9090
  /\ title (fst (main defaults args)) = "My FAIR"
  /\ api_url (fst (main defaults args)) = "https://fair.example.org"
  /\ logo_url (fst (main defaults args)) = "https://example.org"
  /\ logo_image (fst (main defaults args)) = "logo_fair_eosc.png".
Proof.
  intros env defaults args.
  assert (Hdefaults : default_settings (fun _ => Ok 9090)
                        "data/salida_new.json" env = Ok defaults)
    by reflexivity.
  destruct (main_settings_from_options _ _ _ _ args Hdefaults)
    as (Hrun & Hdev & (_ & Hport & _) & (_ & _ & Hurl) & (_ & Htitle & _)
        & (_ & _ & Hlogo) & (Himage & _) & _).
  split; [exact Hdefaults |].
  split; [rewrite Hrun, Hdev; reflexivity |].
  split; [exact (Hport eq_refl) |].
  split; [exact (Htitle eq_refl) |].
  split; [apply Hurl; [reflexivity | discriminate] |].
  split; [apply Hlogo; [reflexivity | discriminate] |].
  exact (Himage eq_refl).
Defined.

End CommandLine.

(** ** What [compute_scores] reads *)

Section Frame.

Lemma process_principle_frame (data data' : dict) (dim : string) :
  dict_get data dim = dict_get data' dim ->
  process_principle data dim = process_principle data' dim.
Proof.
  intros H. unfold process_principle, items_of, get_default.
  rewrite H. reflexivity.
Qed.

(** X12. [compute_scores] reads its argument only at the four principle
    keys: two documents that agree there give the same result, or raise
    the same exception, whatever else they hold and in whatever order
    the principles stand. *)
Theorem compute_scores_reads_four_keys (data data' : dict) :
  (forall dim, In dim dims -> dict_get data dim = dict_get data' dim) ->
  compute_scores (VDict data) = compute_scores (VDict data').
Proof.
  intros H. unfold compute_scores, dims. cbn [principles_loop].
  rewrite (process_principle_frame data data' "findable"),
    (process_principle_frame data data' "accessible"),
    (process_principle_frame data data' "interoperable"),
    (process_principle_frame data data' "reusable");
    [reflexivity | | | |]; apply H; cbn [dims In]; tauto.
Qed.

(** X12 at the sample document with its principles reversed and the
    evaluator's logs added. *)
Lemma compute_scores_frame_witness :
  compute_scores (VDict asymmetric_doc)
  = compute_scores
      (VDict (("evaluator_logs", VList [VStr "started"])
              :: rev asymmetric_doc)).
Proof.
  apply compute_scores_reads_four_keys.
  intros dim [<- | [<- | [<- | [<- | []]]]]; reflexivity.
Defined.

End Frame.

(** ** Whitespace: what [strip] drops and what [float] drops *)

Section Whitespace.

(** [strip] drops the separators 28 to 31 and the two spaces above 127;
    [float] drops the latter only, so text padded with a separator is
    no number. *)
Lemma strip_and_float_whitespace :
  strip (String (ascii_of_nat 160) (String (ascii_of_nat 28) "")) = ""
  /\ strip (String (ascii_of_nat 133) "a ") = "a"
  /\ float_of_str (String (ascii_of_nat 28) "7") = None
  /\ float_of_str (String (ascii_of_nat 160) "7") = Some 7%float
  /\ float_of_str (String (ascii_of_nat 9) "7 ") = Some 7%float.
Proof. repeat split; vm_compute; reflexivity. Qed.

(** An identifier that is a no-break space is blank, so the request is
    redirected; points padded with a separator make [compute_scores]
    raise. *)
Lemma whitespace_at_the_handler :
  evaluator production_cfg [("item_id", String (ascii_of_nat 160) "")]
    failing_api_world
  = (production_cfg, [], RedirectIndex)
  /\ compute_scores
       (VDict (single [("points", VStr (String (ascii_of_nat 28) "7"))]))
     = Raise ValueError.
Proof. split; vm_compute; reflexivity. Qed.

End Whitespace.
